(** * Yatube (public-diary): the post feeds, the follow relation and the
      edit/create/comment views of [yatube/posts/views.py], over the models
      of [yatube/posts/models.py].

    The views are translated function by function.  What they call in the
    Django framework (the ORM's [filter]/[create]/[delete]/[get], the
    [Paginator], [login_required], [cache_page], [get_object_or_404], the
    ModelForm protocol) is written out here as the framework defines it,
    since the views' behaviour is the composition of both.  What the
    framework leaves to its environment is a parameter: the interpreter's
    reading of non-ASCII numerals ([Interpreter]), the database's row
    order and key sequence ([Database]), the cache keys ([CacheKeys]) and
    the form classes of [posts/forms.py]. *)

From Stdlib Require Import String Ascii ZArith List Bool Lia Sorted Permutation.
Import ListNotations.

Local Open Scope string_scope.
Local Open Scope list_scope.
Local Open Scope Z_scope.

Set Implicit Arguments.

(* ------------------------------------------------------------------ *)
(** ** Exceptions and the exception monad *)

(** The exceptions the modelled code can raise. *)
Inductive exn : Type :=
| Http404
| MultipleObjectsReturned
| PageNotAnInteger
| EmptyPage
| IntegrityError
| ValueError
| TypeError
| OverflowError.

Inductive Exc (A : Type) : Type :=
| Ret (a : A)
| Raise (e : exn).

Arguments Ret {A} a.
Arguments Raise {A} e.

Definition bind {A B : Type} (m : Exc A) (k : A -> Exc B) : Exc B :=
  match m with
  | Ret a => k a
  | Raise e => Raise e
  end.

Declare Scope exc_scope.
Delimit Scope exc_scope with exc.
Notation "x <- m ;; k" := (bind m (fun x => k))
  (at level 100, m at next level, right associativity) : exc_scope.

(* ------------------------------------------------------------------ *)
(** ** Python values that reach the paginator *)

(** [request.GET.get('page')] is [None] or a [str]; [Paginator.page] is then
    called with an [int]. *)
Inductive PyVal : Type :=
| PyNone
| PyStr (s : string)
| PyInt (n : Z).

(** What [int()] makes of a [str] is fixed here for plain ASCII text of
    at most 4300 characters.  For any other text (digits and spaces of
    other scripts, literals beyond the interpreter's digit limit) it is
    the interpreter's answer, [None] standing for [ValueError]. *)
Class Interpreter : Type :=
  { int_foreign : string -> option Z }.

Module PyInt.

(** Whitespace [int()] skips around an ASCII literal: TAB..CR and
    SPACE. *)
Definition is_space (c : ascii) : bool :=
  let n := Z.of_nat (nat_of_ascii c) in
  (n =? 32) || ((9 <=? n) && (n <=? 13)).

Definition digit_val (c : ascii) : option Z :=
  let n := Z.of_nat (nat_of_ascii c) in
  if (48 <=? n) && (n <=? 57) then Some (n - 48) else None.

Fixpoint lstrip (cs : list ascii) : list ascii :=
  match cs with
  | c :: cs' => if is_space c then lstrip cs' else cs
  | [] => []
  end.

Definition strip (cs : list ascii) : list ascii :=
  rev (lstrip (rev (lstrip cs))).

(** Decimal digits with single underscores allowed between two digits.
    [prev] tells whether the previous character was a digit. *)
Fixpoint digits (prev : bool) (acc : Z) (cs : list ascii) : option Z :=
  match cs with
  | [] => if prev then Some acc else None
  | c :: cs' =>
      match digit_val c with
      | Some d => digits true (10 * acc + d) cs'
      | None =>
          if (Ascii.eqb c "_"%char) && prev then digits false acc cs'
          else None
      end
  end.

(** [int(s)] in base 10 for ASCII text: [None] stands for [ValueError]. *)
Definition of_ascii (s : string) : option Z :=
  match strip (list_ascii_of_string s) with
  | c :: cs =>
      if Ascii.eqb c "-"%char then option_map Z.opp (digits false 0 cs)
      else if Ascii.eqb c "+"%char then digits false 0 cs
      else digits false 0 (c :: cs)
  | [] => None
  end.

Definition is_ascii (s : string) : bool :=
  forallb (fun c => Z.of_nat (nat_of_ascii c) <? 128) (list_ascii_of_string s).

Definition max_str_digits : nat := 4300.

Section Int.
Context {py : Interpreter}.

(** [int(s)] for a [str]. *)
Definition of_string (s : string) : option Z :=
  if is_ascii s && (String.length s <=? max_str_digits)%nat then of_ascii s
  else int_foreign s.

(** [int(number)] as [validate_number] calls it: [None] is a [TypeError],
    a malformed string a [ValueError]; both are reported as [None]. *)
Definition int (v : PyVal) : option Z :=
  match v with
  | PyNone => None
  | PyStr s => of_string s
  | PyInt n => Some n
  end.

End Int.

End PyInt.

(** [l[b:t]] for [0 <= b] (query sets refuse negative indices). *)
Definition slice {A : Type} (l : list A) (b t : Z) : list A :=
  firstn (Z.to_nat (t - b)) (skipn (Z.to_nat b) l).

(* ------------------------------------------------------------------ *)
(** ** django.core.paginator *)

Module Paginator.

Record t (A : Type) : Type := Build
  { object_list : list A;
    per_page : Z;
    orphans : Z;
    allow_empty_first_page : bool }.

Record Page (A : Type) : Type := BuildPage
  { page_object_list : list A;
    number : Z;
    paginator : t A }.

Section Methods.
Context {A : Type} {py : Interpreter}.

(** [Paginator(object_list, per_page)]: [orphans=0],
    [allow_empty_first_page=True]. *)
Definition Paginator (object_list : list A) (per_page : Z) : t A :=
  Build object_list per_page 0 true.

Definition count (p : t A) : Z := Z.of_nat (length (object_list p)).

(** [ceil(hits / per_page)] on integers. *)
Definition ceil_div (a b : Z) : Z := - ((- a) / b).

Definition num_pages (p : t A) : Z :=
  if (count p =? 0) && negb (allow_empty_first_page p) then 0
  else
    let hits := Z.max 1 (count p - orphans p) in
    ceil_div hits (per_page p).

(** What is no integer is [PageNotAnInteger]; a number below 1 is
    [EmptyPage] ("less than 1"), and so is one above [num_pages] ("no
    results"), page 1 of an empty list excepted. *)
Definition validate_number (p : t A) (number : PyVal) : Exc Z :=
  match PyInt.int number with
  | None => Raise PageNotAnInteger
  | Some n =>
      if n <? 1 then Raise EmptyPage
      else if n >? num_pages p then
        if (n =? 1) && allow_empty_first_page p then Ret n
        else Raise EmptyPage
      else Ret n
  end.

Definition page (p : t A) (number : PyVal) : Exc (Page A) :=
  (n <- validate_number p number ;;
   let bottom := (n - 1) * per_page p in
   let top := bottom + per_page p in
   let top := if top + orphans p >=? count p then count p else top in
   Ret (BuildPage (slice (object_list p) bottom top) n p))%exc.

(** Returns a valid page even when the argument is not a number or is
    out of range: [PageNotAnInteger] is answered with page 1, [EmptyPage]
    with page [num_pages]. *)
Definition get_page (p : t A) (number : PyVal) : Exc (Page A) :=
  match validate_number p number with
  | Ret n => page p (PyInt n)
  | Raise PageNotAnInteger => page p (PyInt 1)
  | Raise EmptyPage => page p (PyInt (num_pages p))
  | Raise e => Raise e
  end.

End Methods.

End Paginator.

(* ------------------------------------------------------------------ *)
(** ** posts/models.py *)

(** Modelled from the spec: [core.models.CreatedModel], the abstract base
    of [Post] and [Comment], is not among the sources.  It gives each row
    its "creation timestamp", the [pub_date] column that [Post.Meta.ordering]
    names, filled from the clock when the row is inserted. *)
Module CreatedModel.
Definition auto_now_add (stored : option Z) (now : Z) (adding : bool) : option Z :=
  if adding then Some now else stored.
End CreatedModel.

Module User.
Record t : Type := Build { pk : Z; username : string }.
End User.

Module Group.
Record t : Type := Build
  { pk : Z; title : string; slug : string; description : string }.
End Group.

Module Post.
(** A stored row.  [author] and [group] hold the referenced keys. *)
Record t : Type := Build
  { pk : Z;
    text : string;
    pub_date : Z;
    author : Z;
    group : option Z;
    image : string }.

(** A model object in memory: [Post()] has no key, no author and no
    timestamp yet. *)
Record instance : Type := Instance
  { i_pk : option Z;
    i_text : string;
    i_pub_date : option Z;
    i_author : option Z;
    i_group : option Z;
    i_image : string }.

Definition new : instance := Instance None "" None None None "".

Definition load (p : t) : instance :=
  Instance (Some (pk p)) (text p) (Some (pub_date p)) (Some (author p))
           (group p) (image p).
End Post.

Module Comment.
Record t : Type := Build
  { pk : Z; post : Z; author : Z; text : string; pub_date : Z }.

Record instance : Type := Instance
  { i_post : option Z; i_author : option Z; i_text : string }.

Definition new : instance := Instance None None "".
End Comment.

Module Follow.
Record t : Type := Build { pk : Z; user : Z; author : Z }.
End Follow.

(** The tables. *)
Record DB : Type := BuildDB
  { users : list User.t;
    groups : list Group.t;
    posts : list Post.t;
    comments : list Comment.t;
    follows : list Follow.t }.

Definition set_posts (db : DB) (l : list Post.t) : DB :=
  BuildDB (users db) (groups db) l (comments db) (follows db).
Definition set_comments (db : DB) (l : list Comment.t) : DB :=
  BuildDB (users db) (groups db) (posts db) l (follows db).
Definition set_follows (db : DB) (l : list Follow.t) : DB :=
  BuildDB (users db) (groups db) (posts db) (comments db) l.

(* ------------------------------------------------------------------ *)
(** ** The ORM operations the views use *)

(** What the source leaves to the database: the order in which it returns
    the rows of a query that asks for none ([Comment] declares no
    ordering of its own), the matching rows each once; and how far the
    key sequence of a table has counted when the table holds the given
    keys (the keys of rows deleted since are not handed out again). *)
Class Database : Type :=
  { any_order : list Comment.t -> list Comment.t;
    any_order_Permutation : forall rows, Permutation (any_order rows) rows;
    sequence : list Z -> Z }.

Module ORM.

Section Backend.
Context {dbms : Database}.

(** The key an insert assigns: the one after the highest key the table
    holds or its sequence has handed out. *)
Definition next_pk (pks : list Z) : Z :=
  1 + Z.max (sequence pks) (fold_right Z.max 0 pks).

(** The keys an integer column of the database can hold and a query can
    be asked for. *)
Definition int64 (k : Z) : bool := (- 2 ^ 63 <=? k) && (k <? 2 ^ 63).

(** [QuerySet.exists()]. *)
Definition exists_ {A : Type} (qs : list A) : bool :=
  match qs with [] => false | _ :: _ => true end.

(** [get_object_or_404(Model, cond)]: [Model.objects.get(cond)] with
    [DoesNotExist] turned into [Http404]. *)
Definition get_object_or_404 {A : Type} (table : list A) (cond : A -> bool)
  : Exc A :=
  match filter cond table with
  | [] => Raise Http404
  | [x] => Ret x
  | _ :: _ :: _ => Raise MultipleObjectsReturned
  end.

(** [ORDER BY key DESC]; rows with equal keys stay in table order. *)
Fixpoint insert_desc {A : Type} (key : A -> Z) (x : A) (l : list A) : list A :=
  match l with
  | [] => [x]
  | y :: l' =>
      if key y <=? key x then x :: y :: l' else y :: insert_desc key x l'
  end.

Definition order_by_desc {A : Type} (key : A -> Z) (l : list A) : list A :=
  fold_right (insert_desc key) [] l.

(** [Post.Meta.ordering = ['-pub_date']] applies to every query set of
    posts, those of the related managers included. *)
Definition Post_ordering (qs : list Post.t) : list Post.t :=
  order_by_desc Post.pub_date qs.

(** [Post.objects.all()]. *)
Definition Post_objects_all (db : DB) : list Post.t :=
  Post_ordering (posts db).

(** [group.posts.all()]. *)
Definition group_posts_all (db : DB) (g : Group.t) : list Post.t :=
  Post_ordering
    (filter (fun p => match Post.group p with
                      | Some k => k =? Group.pk g
                      | None => false
                      end) (posts db)).

(** [author.posts.all()]. *)
Definition author_posts_all (db : DB) (a : User.t) : list Post.t :=
  Post_ordering (filter (fun p => Post.author p =? User.pk a) (posts db)).

(** [get_object_or_404(Post, id=post_id)].  The stored keys fit the key
    column, so a number outside it is the key of no row; handing it to the
    query is an [OverflowError]. *)
Definition Post_get_or_404 (db : DB) (post_id : Z) : Exc Post.t :=
  match get_object_or_404 (posts db) (fun p => Post.pk p =? post_id) with
  | Raise Http404 => if int64 post_id then Raise Http404 else Raise OverflowError
  | found_or_raised => found_or_raised
  end.

(** [post.comments.all()]: the comments of the post, in the database's
    order. *)
Definition post_comments_all (db : DB) (p : Post.t) : list Comment.t :=
  any_order (filter (fun c => Comment.post c =? Post.pk p) (comments db)).

(** [Follow.objects.filter(user=u, author=a)]. *)
Definition Follow_filter (db : DB) (u a : User.t) : list Follow.t :=
  filter (fun f => (Follow.user f =? User.pk u)
                   && (Follow.author f =? User.pk a)) (follows db).

(** [Post.objects.filter(author__following__user=u)]: posts joined with
    the [Follow] rows that name the post's author as [author], kept when
    the row's [user] is [u].  One result per matching pair. *)
Definition Post_filter_following (db : DB) (u : User.t) : list Post.t :=
  Post_ordering
    (flat_map
       (fun p =>
          map (fun _ => p)
              (filter (fun f => (Follow.author f =? Post.author p)
                                && (Follow.user f =? User.pk u))
                      (follows db)))
       (posts db)).

(** [Follow.objects.create(user=u, author=a)];
    [unique_together = (('user', 'author'),)] refuses a second row for
    the pair. *)
Definition Follow_create (db : DB) (u a : User.t) : Exc DB :=
  if exists_ (Follow_filter db u a) then Raise IntegrityError
  else
    let row := Follow.Build (next_pk (map Follow.pk (follows db)))
                            (User.pk u) (User.pk a) in
    Ret (set_follows db (follows db ++ [row])).

(** [Follow.objects.filter(user=u, author=a).delete()]. *)
Definition Follow_filter_delete (db : DB) (u a : User.t) : DB :=
  set_follows db
    (filter (fun f => negb ((Follow.user f =? User.pk u)
                            && (Follow.author f =? User.pk a)))
            (follows db)).

(** [Model.save()] of a post: an object without key is inserted, with
    [pub_date] read from the clock; an object with a key replaces the row
    of that key, or is inserted when there is none.  [author] is
    [NOT NULL]. *)
Definition Post_save (i : Post.instance) (now : Z) (db : DB) : Exc DB :=
  match Post.i_author i with
  | None => Raise IntegrityError
  | Some a =>
      match Post.i_pk i with
      | None =>
          match CreatedModel.auto_now_add (Post.i_pub_date i) now true with
          | None => Raise IntegrityError
          | Some d =>
              let row := Post.Build (next_pk (map Post.pk (posts db)))
                                    (Post.i_text i) d a
                                    (Post.i_group i) (Post.i_image i) in
              Ret (set_posts db (posts db ++ [row]))
          end
      | Some k =>
          let adding := negb (existsb (fun p => Post.pk p =? k) (posts db)) in
          match CreatedModel.auto_now_add (Post.i_pub_date i) now adding with
          | None => Raise IntegrityError
          | Some d =>
              let row := Post.Build k (Post.i_text i) d a
                                    (Post.i_group i) (Post.i_image i) in
              if adding then Ret (set_posts db (posts db ++ [row]))
              else
                Ret (set_posts db
                       (map (fun p => if Post.pk p =? k then row else p)
                            (posts db)))
          end
      end
  end.

(** [Model.save()] of a new comment. *)
Definition Comment_save (i : Comment.instance) (now : Z) (db : DB) : Exc DB :=
  match Comment.i_post i, Comment.i_author i with
  | Some p, Some a =>
      let row := Comment.Build (next_pk (map Comment.pk (comments db)))
                               p a (Comment.i_text i) now in
      Ret (set_comments db (comments db ++ [row]))
  | _, _ => Raise IntegrityError
  end.

End Backend.

End ORM.

(* ------------------------------------------------------------------ *)
(** ** Requests and responses *)

(** A [QueryDict]: the submitted key/value pairs, in order. *)
Definition QueryDict : Type := list (string * string).

(** [q.get(key)]: the last value submitted for [key], [None] without one. *)
Definition QueryDict_get (q : QueryDict) (key : string) : PyVal :=
  match filter (fun kv => String.eqb (fst kv) key) q with
  | [] => PyNone
  | kv :: l => PyStr (snd (last l kv))
  end.

(** [q or None]: an empty [QueryDict] is falsy. *)
Definition or_None (q : QueryDict) : option QueryDict :=
  match q with [] => None | _ :: _ => Some q end.

Module HttpRequest.
(** [user] is [None] for [AnonymousUser]; [now] is the server clock while
    the request is handled. *)
Record t : Type := Build
  { user : option User.t;
    method : string;
    GET : QueryDict;
    POST : QueryDict;
    FILES : QueryDict;
    get_full_path : string;
    now : Z }.

Definition is_authenticated (r : t) : bool :=
  match user r with Some _ => true | None => false end.
End HttpRequest.

(** URLs are kept symbolic: the URLconf and [settings.LOGIN_URL] are not
    among the sources. *)
Inductive Url : Type :=
| reverse (viewname : string) (args : list PyVal)
| login_url (next : string).

(** Forms as the templates receive them. *)
Module PostForm.
Record t : Type := Build
  { data : option QueryDict;
    files : option QueryDict;
    instance : Post.instance }.
End PostForm.

Module CommentForm.
Record t : Type := Build
  { data : option QueryDict;
    instance : Comment.instance }.
End CommentForm.

Inductive CtxVal : Type :=
| VPage (p : Paginator.Page Post.t)
| VGroup (g : Group.t)
| VUser (u : User.t)
| VBool (b : bool)
| VInt (n : Z)
| VPost (p : Post.t)
| VComments (l : list Comment.t)
| VPostForm (f : PostForm.t)
| VCommentForm (f : CommentForm.t).

Definition Context : Type := list (string * CtxVal).

Inductive HttpResponse : Type :=
| render (template : string) (context : Context)
| redirect (to : Url).

(** A view: from the tables to what it returns or raises, and the tables
    it leaves.  Handing [AnonymousUser] to a query as a user is a
    [TypeError]. *)
Definition View : Type := DB -> Exc HttpResponse * DB.

(** [django.contrib.auth.decorators.login_required]. *)
Definition login_required {Args : Type}
    (view_func : HttpRequest.t -> Args -> View) : HttpRequest.t -> Args -> View :=
  fun request args db =>
    if HttpRequest.is_authenticated request then view_func request args db
    else (Ret (redirect (login_url (HttpRequest.get_full_path request))), db).

(** [request.user != other]: model objects are equal when their keys are;
    [AnonymousUser] equals no stored user. *)
Definition user_ne (u : option User.t) (other : Z) : bool :=
  match u with
  | Some u => negb (User.pk u =? other)
  | None => true
  end.

(* ------------------------------------------------------------------ *)
(** ** django.views.decorators.cache *)

(** The key under which the cache middleware files the response to a
    request: made from the key prefix, the method, the URL and the request
    headers the response varies on.  The headers are no part of
    [HttpRequest.t], so the key is left to the framework. *)
Class CacheKeys : Type :=
  { get_cache_key : string -> string -> HttpRequest.t -> string }.

(** The cache: under a key, a response and the time it expires; a newer
    entry stands before an older one of the same key. *)
Definition Cache : Type := list (string * (HttpResponse * Z)).

Definition cache_get (cache : Cache) (key : string) (now : Z)
  : option HttpResponse :=
  match find (fun entry => String.eqb (fst entry) key) cache with
  | Some (_, (response, expires)) =>
      if now <? expires then Some response else None
  | None => None
  end.

Definition cache_set (cache : Cache) (key : string) (response : HttpResponse)
    (timeout now : Z) : Cache :=
  (key, (response, now + timeout)) :: cache.

(** A view behind the page cache: it also reads and leaves the cache. *)
Definition CachedView : Type := Cache -> DB -> (Exc HttpResponse * DB) * Cache.

Definition is_GET_or_HEAD (method : string) : bool :=
  String.eqb method "GET" || String.eqb method "HEAD".

Section CachePage.
Context {keys : CacheKeys}.

(** What the cache holds for a request ([CacheMiddleware.process_request]):
    nothing for a method other than GET and HEAD; else the entry of the GET
    key, or for a HEAD request that of the HEAD key. *)
Definition cache_lookup (key_prefix : string) (request : HttpRequest.t)
    (cache : Cache) : option HttpResponse :=
  let method := HttpRequest.method request in
  let now := HttpRequest.now request in
  if is_GET_or_HEAD method then
    match cache_get cache (get_cache_key key_prefix "GET" request) now with
    | Some response => Some response
    | None =>
        if String.eqb method "HEAD"
        then cache_get cache (get_cache_key key_prefix "HEAD" request) now
        else None
    end
  else None.

(** [cache_page(timeout, key_prefix=...)]: a response found in the cache
    is returned without calling the view; otherwise the view is called
    and, for a GET or HEAD request, a response of status 200 is kept for
    [timeout] seconds.  (The middleware declines to keep a response that
    sets cookies for a client without any, or is marked private.) *)
Definition cache_page (timeout : Z) (key_prefix : string)
    (view_func : HttpRequest.t -> View) : HttpRequest.t -> CachedView :=
  fun request cache db =>
    match cache_lookup key_prefix request cache with
    | Some response => ((Ret response, db), cache)
    | None =>
        let answer := view_func request db in
        let method := HttpRequest.method request in
        match fst answer with
        | Ret (render template context) =>
            if is_GET_or_HEAD method then
              (answer,
               cache_set cache (get_cache_key key_prefix method request)
                         (render template context) timeout
                         (HttpRequest.now request))
            else (answer, cache)
        | _ => (answer, cache)
        end
    end.

End CachePage.

(* ------------------------------------------------------------------ *)
(** ** posts/views.py *)

Definition NUMBER_OF_POSTS : Z := 10.

Section Views.
Context {py : Interpreter} {dbms : Database} {keys : CacheKeys}.

Definition get_paginator (request : HttpRequest.t) (post_list : list Post.t)
  : Exc (Paginator.Page Post.t) :=
  let paginator := Paginator.Paginator post_list NUMBER_OF_POSTS in
  let page_number := QueryDict_get (HttpRequest.GET request) "page" in
  let page_obj := Paginator.get_page paginator page_number in
  page_obj.

(** The function written under the decorator, [index.__wrapped__]. *)
Definition index_wrapped (request : HttpRequest.t) : View := fun db =>
  let template := "posts/index.html" in
  let post_list := ORM.Post_objects_all db in
  ((page_obj <- get_paginator request post_list ;;
    let context := [("page_obj", VPage page_obj)] in
    Ret (render template context))%exc, db).

(** [index], as decorated: a response this function returned up to 20
    seconds earlier is returned again. *)
Definition index : HttpRequest.t -> CachedView :=
  cache_page 20 "index_page" index_wrapped.

Definition group_posts (request : HttpRequest.t) (slug : string) : View :=
  fun db =>
  let template := "posts/group_list.html" in
  ((group <- ORM.get_object_or_404 (groups db)
               (fun g => String.eqb (Group.slug g) slug) ;;
    let post_list := ORM.group_posts_all db group in
    page_obj <- get_paginator request post_list ;;
    let context := [("group", VGroup group); ("page_obj", VPage page_obj)] in
    Ret (render template context))%exc, db).

Definition profile (request : HttpRequest.t) (username : string) : View :=
  fun db =>
  let template := "posts/profile.html" in
  ((author <- ORM.get_object_or_404 (users db)
                (fun u => String.eqb (User.username u) username) ;;
    let post_list := ORM.author_posts_all db author in
    page_obj <- get_paginator request post_list ;;
    let following :=
      match HttpRequest.user request with
      | Some u => ORM.exists_ (ORM.Follow_filter db u author)
      | None => false
      end in
    let context := [("author", VUser author); ("page_obj", VPage page_obj);
                    ("following", VBool following)] in
    Ret (render template context))%exc, db).

Definition post_detail (request : HttpRequest.t) (post_id : Z) : View :=
  fun db =>
  let template := "posts/post_detail.html" in
  ((post <- ORM.Post_get_or_404 db post_id ;;
    let comments := ORM.post_comments_all db post in
    let form := CommentForm.Build None Comment.new in
    let context := [("post", VPost post); ("comments", VComments comments);
                    ("form", VCommentForm form)] in
    Ret (render template context))%exc, db).

Definition follow_index : HttpRequest.t -> unit -> View :=
  login_required (fun request _ db =>
    let template := "posts/follow.html" in
    match HttpRequest.user request with
    | None => (Raise TypeError, db)
    | Some u =>
        let post_list := ORM.Post_filter_following db u in
        ((page_obj <- get_paginator request post_list ;;
          let context := [("page_obj", VPage page_obj)] in
          Ret (render template context))%exc, db)
    end).

Definition profile_follow : HttpRequest.t -> string -> View :=
  login_required (fun request username db =>
    match ORM.get_object_or_404 (users db)
            (fun a => String.eqb (User.username a) username) with
    | Raise e => (Raise e, db)
    | Ret author =>
        match HttpRequest.user request with
        | None => (Raise TypeError, db)
        | Some u =>
            let follow := ORM.exists_ (ORM.Follow_filter db u author) in
            if negb (String.eqb (User.username u) username) && negb follow then
              match ORM.Follow_create db u author with
              | Raise e => (Raise e, db)
              | Ret db' =>
                  (Ret (redirect (reverse "posts:profile" [PyStr username])), db')
              end
            else (Ret (redirect (reverse "posts:profile" [PyStr username])), db)
        end
    end).

Definition profile_unfollow : HttpRequest.t -> string -> View :=
  login_required (fun request username db =>
    match ORM.get_object_or_404 (users db)
            (fun a => String.eqb (User.username a) username) with
    | Raise e => (Raise e, db)
    | Ret author =>
        match HttpRequest.user request with
        | None => (Raise TypeError, db)
        | Some u =>
            let unfollow_deleted := ORM.Follow_filter_delete db u author in
            (Ret (redirect (reverse "posts:profile" [PyStr username])),
             unfollow_deleted)
        end
    end).

(* ------------------------------------------------------------------ *)
(** ** The form-handling views *)

(** [cleaned_data] of a post form: the cleaned values of its fields,
    [text], [group] and [image] (the fields the view tests find on the
    form).  A form that validates has all three; of a form with errors,
    [cleaned_keys] names the fields that did validate and so are in
    [cleaned_data]. *)
Record PostFields : Type := BuildPostFields
  { cleaned_text : string;
    cleaned_group : option Z;
    cleaned_image : string;
    cleaned_keys : list string }.

Section FormViews.

(** [posts/forms.py] is not among the sources.  What [PostForm] and
    [CommentForm] accept is a parameter: the error list of a submission
    (field name and message; empty when it validates) and its cleaned
    values. *)
Variable PostForm_errors : QueryDict -> QueryDict -> list (string * string).
Variable PostForm_cleaned_data : QueryDict -> QueryDict -> PostFields.
Variable CommentForm_errors : QueryDict -> list (string * string).
Variable CommentForm_cleaned_data : QueryDict -> string.

Definition or_empty (q : option QueryDict) : QueryDict :=
  match q with Some q => q | None => [] end.

Definition is_Some {A : Type} (o : option A) : bool :=
  match o with Some _ => true | None => false end.

Definition is_nil {A : Type} (l : list A) : bool :=
  match l with [] => true | _ :: _ => false end.

(** [form.is_bound], [form.errors], [form.is_valid()] of a [PostForm]. *)
Definition PostForm_is_bound (f : PostForm.t) : bool :=
  is_Some (PostForm.data f) || is_Some (PostForm.files f).

Definition PostForm_form_errors (f : PostForm.t) : list (string * string) :=
  if PostForm_is_bound f then
    PostForm_errors (or_empty (PostForm.data f)) (or_empty (PostForm.files f))
  else [].

Definition PostForm_is_valid (f : PostForm.t) : bool :=
  PostForm_is_bound f && is_nil (PostForm_form_errors f).

Definition has_key (keys : list string) (key : string) : bool :=
  existsb (String.eqb key) keys.

(** Cleaning a bound form writes the fields in [cleaned_data] into
    [form.instance] ([construct_instance]): all of them when the form
    validates, those that validated when it has errors; the other
    attributes of the instance stay.  An unbound form is not cleaned. *)
Definition PostForm_full_clean (f : PostForm.t) : PostForm.t :=
  if PostForm_is_valid f then
    let c := PostForm_cleaned_data (or_empty (PostForm.data f))
                                   (or_empty (PostForm.files f)) in
    let i := PostForm.instance f in
    PostForm.Build (PostForm.data f) (PostForm.files f)
      (Post.Instance (Post.i_pk i) (cleaned_text c) (Post.i_pub_date i)
                     (Post.i_author i) (cleaned_group c) (cleaned_image c))
  else if PostForm_is_bound f then
    let c := PostForm_cleaned_data (or_empty (PostForm.data f))
                                   (or_empty (PostForm.files f)) in
    let i := PostForm.instance f in
    let written := cleaned_keys c in
    PostForm.Build (PostForm.data f) (PostForm.files f)
      (Post.Instance
         (Post.i_pk i)
         (if has_key written "text" then cleaned_text c else Post.i_text i)
         (Post.i_pub_date i)
         (Post.i_author i)
         (if has_key written "group" then cleaned_group c else Post.i_group i)
         (if has_key written "image" then cleaned_image c else Post.i_image i))
  else f.

(** [form.save(commit=False)] returns [form.instance] itself;
    [form.save()] saves it.  Both refuse a form with errors. *)
Definition PostForm_save_no_commit (f : PostForm.t) : Exc Post.instance :=
  if is_nil (PostForm_form_errors f) then Ret (PostForm.instance f)
  else Raise ValueError.

Definition PostForm_save (f : PostForm.t) (now : Z) (db : DB) : Exc DB :=
  if is_nil (PostForm_form_errors f) then
    ORM.Post_save (PostForm.instance f) now db
  else Raise ValueError.

(** [post.author = request.user], on the object [form.instance]. *)
Definition PostForm_set_author (f : PostForm.t) (u : User.t) : PostForm.t :=
  let i := PostForm.instance f in
  PostForm.Build (PostForm.data f) (PostForm.files f)
    (Post.Instance (Post.i_pk i) (Post.i_text i) (Post.i_pub_date i)
                   (Some (User.pk u)) (Post.i_group i) (Post.i_image i)).

Definition CommentForm_is_bound (f : CommentForm.t) : bool :=
  is_Some (CommentForm.data f).

Definition CommentForm_form_errors (f : CommentForm.t) : list (string * string) :=
  if CommentForm_is_bound f then CommentForm_errors (or_empty (CommentForm.data f))
  else [].

Definition CommentForm_is_valid (f : CommentForm.t) : bool :=
  CommentForm_is_bound f && is_nil (CommentForm_form_errors f).

Definition CommentForm_full_clean (f : CommentForm.t) : CommentForm.t :=
  if CommentForm_is_valid f then
    let i := CommentForm.instance f in
    CommentForm.Build (CommentForm.data f)
      (Comment.Instance (Comment.i_post i) (Comment.i_author i)
         (CommentForm_cleaned_data (or_empty (CommentForm.data f))))
  else f.

Definition post_create : HttpRequest.t -> unit -> View :=
  login_required (fun request _ db =>
    let template := "posts/post_create.html" in
    let form := PostForm.Build (or_None (HttpRequest.POST request))
                               (or_None (HttpRequest.FILES request))
                               Post.new in
    let rendered form :=
      (Ret (render template [("form", VPostForm form)]), db) in
    if String.eqb (HttpRequest.method request) "POST" then
      if PostForm_is_valid form then
        let form := PostForm_full_clean form in
        match PostForm_save_no_commit form, HttpRequest.user request with
        | Raise e, _ => (Raise e, db)
        | Ret _, None => (Raise ValueError, db)
        | Ret _, Some u =>
            let form := PostForm_set_author form u in
            match PostForm_save form (HttpRequest.now request) db with
            | Raise e => (Raise e, db)
            | Ret db' =>
                (Ret (redirect (reverse "posts:profile"
                                        [PyStr (User.username u)])), db')
            end
        end
      else rendered (PostForm_full_clean form)
    else rendered form).

Definition post_edit (request : HttpRequest.t) (post_id : Z) : View :=
  fun db =>
  let template := "posts/post_create.html" in
  match ORM.Post_get_or_404 db post_id with
  | Raise e => (Raise e, db)
  | Ret post =>
      if user_ne (HttpRequest.user request) (Post.author post) then
        (Ret (redirect (reverse "posts:post_detail" [PyInt post_id])), db)
      else
        let form := PostForm.Build (or_None (HttpRequest.POST request))
                                   (or_None (HttpRequest.FILES request))
                                   (Post.load post) in
        let rendered form :=
          (Ret (render template [("form", VPostForm form);
                                 ("is_edit", VBool true);
                                 ("post_id", VInt post_id)]), db) in
        if String.eqb (HttpRequest.method request) "POST" then
          if PostForm_is_valid form then
            let form := PostForm_full_clean form in
            match PostForm_save form (HttpRequest.now request) db with
            | Raise e => (Raise e, db)
            | Ret db' =>
                (Ret (redirect (reverse "posts:post_detail" [PyInt post_id])),
                 db')
            end
          else rendered (PostForm_full_clean form)
        else rendered form
  end.

Definition add_comment : HttpRequest.t -> Z -> View :=
  login_required (fun request post_id db =>
    match ORM.Post_get_or_404 db post_id with
    | Raise e => (Raise e, db)
    | Ret post =>
        let form := CommentForm.Build (or_None (HttpRequest.POST request))
                                      Comment.new in
        let done :=
          Ret (redirect (reverse "posts:post_detail" [PyInt post_id])) in
        if CommentForm_is_valid form then
          let comment := CommentForm.instance (CommentForm_full_clean form) in
          match HttpRequest.user request with
          | None => (Raise ValueError, db)
          | Some u =>
              let comment :=
                Comment.Instance (Some (Post.pk post)) (Some (User.pk u))
                                 (Comment.i_text comment) in
              match ORM.Comment_save comment (HttpRequest.now request) db with
              | Raise e => (Raise e, db)
              | Ret db' => (done, db')
              end
          end
        else (done, db)
    end).

End FormViews.

(* ------------------------------------------------------------------ *)
(** ** The four feeds *)

Inductive Scope : Type :=
| AllPosts
| GroupPosts (slug : string)
| AuthorPosts (username : string)
| FollowedPosts.

(** The view function of a feed; for the index, the function under its
    decorator. *)
Definition feed (scope : Scope) (request : HttpRequest.t) : View :=
  match scope with
  | AllPosts => index_wrapped request
  | GroupPosts slug => group_posts request slug
  | AuthorPosts username => profile request username
  | FollowedPosts => follow_index request tt
  end.

(** The post collection a feed paginates, when the view gets that far. *)
Definition scope_posts (scope : Scope) (request : HttpRequest.t) (db : DB)
  : option (list Post.t) :=
  match scope with
  | AllPosts => Some (ORM.Post_objects_all db)
  | GroupPosts slug =>
      match ORM.get_object_or_404 (groups db)
              (fun g => String.eqb (Group.slug g) slug) with
      | Ret g => Some (ORM.group_posts_all db g)
      | Raise _ => None
      end
  | AuthorPosts username =>
      match ORM.get_object_or_404 (users db)
              (fun u => String.eqb (User.username u) username) with
      | Ret a => Some (ORM.author_posts_all db a)
      | Raise _ => None
      end
  | FollowedPosts =>
      match HttpRequest.user request with
      | Some u => Some (ORM.Post_filter_following db u)
      | None => None
      end
  end.

(** What the site answers for a feed: the view as it is routed, the
    index through its page cache. *)
Definition feed_served (scope : Scope) (request : HttpRequest.t) : CachedView :=
  fun cache db =>
    match scope with
    | AllPosts => index request cache db
    | _ => (feed scope request db, cache)
    end.

(** Every response in the cache is one the index function returned. *)
Definition cache_from_index (cache : Cache) : Prop :=
  forall key response expires,
    In (key, (response, expires)) cache ->
    exists request db, fst (index_wrapped request db) = Ret response.

End Views.

(** [context[key]]. *)
Fixpoint Context_get (context : Context) (key : string) : option CtxVal :=
  match context with
  | [] => None
  | (k, v) :: rest => if String.eqb k key then Some v else Context_get rest key
  end.

(** [response.context['page_obj']] of a rendered response. *)
Definition page_obj_of (r : Exc HttpResponse) : option (Paginator.Page Post.t) :=
  match r with
  | Ret (render _ context) =>
      match Context_get context "page_obj" with
      | Some (VPage page_obj) => Some page_obj
      | _ => None
      end
  | _ => None
  end.

(** The page the spec's wording asks for: the requested number clamped to
    the valid range. *)
Definition nearest_valid_page (num_pages n : Z) : Z :=
  Z.max 1 (Z.min n num_pages).

(** Schema constraints: [username] is unique among users, the key is
    unique among posts, and [Follow.Meta.unique_together]. *)
Definition users_username_unique (db : DB) : Prop :=
  NoDup (map User.username (users db)).

Definition posts_pk_unique (db : DB) : Prop :=
  NoDup (map Post.pk (posts db)).

(** The columns of [unique_together], and the test of
    [filter(user=u, author=a)] on a row. *)
Definition follow_key (f : Follow.t) : Z * Z := (Follow.user f, Follow.author f).

Definition follow_matches (u a : User.t) (f : Follow.t) : bool :=
  (Follow.user f =? User.pk u) && (Follow.author f =? User.pk a).

Definition follows_unique_together (db : DB) : Prop :=
  NoDup (map follow_key (follows db)).

(** Newest first: a row is followed by one that is not newer. *)
Definition newer_first {A : Type} (key : A -> Z) (a b : A) : Prop :=
  key b <= key a.

(** Settles [NoDup] of a list of literals. *)
Ltac distinct :=
  cbv;
  repeat (apply NoDup_cons;
          [ let H := fresh in
            intros H;
            repeat (destruct H as [H | H]; [discriminate H |]);
            exact H
          | ]);
  apply NoDup_nil.

(* ------------------------------------------------------------------ *)
(** ** Sample data: the fixtures of the view tests *)

Module Sample.

Definition auth : User.t := User.Build 1 "auth".
Definition auth2 : User.t := User.Build 2 "auth2".
Definition auth3 : User.t := User.Build 3 "auth3".

Definition test_group : Group.t :=
  Group.Build 1 "test group" "test-slug" "description".
Definition second_group : Group.t :=
  Group.Build 2 "second group" "second-slug" "description".

(** One post by [auth], then twelve by [auth2] with texts 0..11, each a
    tick later than the one before (as in [PostPaginatorTests]). *)
Definition first_post : Post.t :=
  Post.Build 1 "a test post longer than 15 characters" 100 1 (Some 1) "".

Definition numbered_post (i : Z) (txt : string) : Post.t :=
  Post.Build (2 + i) txt (101 + i) 2 (Some 2) "".

Definition thirteen_posts : list Post.t :=
  first_post ::
  [ numbered_post 0 "0"; numbered_post 1 "1"; numbered_post 2 "2";
    numbered_post 3 "3"; numbered_post 4 "4"; numbered_post 5 "5";
    numbered_post 6 "6"; numbered_post 7 "7"; numbered_post 8 "8";
    numbered_post 9 "9"; numbered_post 10 "10"; numbered_post 11 "11" ].

Definition db : DB :=
  BuildDB [auth; auth2; auth3] [test_group; second_group]
          thirteen_posts [] [Follow.Build 1 1 2].

Definition get (u : option User.t) (path : string) (query : QueryDict)
  : HttpRequest.t :=
  HttpRequest.Build u "GET" query [] [] path 200.

Definition post (u : option User.t) (path : string) (body : QueryDict)
  : HttpRequest.t :=
  HttpRequest.Build u "POST" [] body [] path 200.

(** Forms that require a non-empty [text]. *)
Definition text_of (q : QueryDict) : string :=
  match QueryDict_get q "text" with PyStr s => s | _ => "" end.

Definition required_text (q : QueryDict) : list (string * string) :=
  if String.eqb (text_of q) "" then [("text", "This field is required.")]
  else [].

Definition PostForm_errors (data files : QueryDict) : list (string * string) :=
  required_text data.

Definition PostForm_cleaned_data (data files : QueryDict) : PostFields :=
  BuildPostFields (text_of data) None ""
    (if String.eqb (text_of data) "" then ["group"; "image"]
     else ["text"; "group"; "image"]).

Definition CommentForm_errors : QueryDict -> list (string * string) :=
  required_text.

Definition CommentForm_cleaned_data : QueryDict -> string := text_of.

(** An interpreter that takes no text but ASCII for a number, a database
    that returns rows in table order and has deleted no row yet, and cache
    keys made of the prefix, the method and the path. *)
Definition python : Interpreter := {| int_foreign := fun _ => None |}.

Definition sqlite : Database :=
  {| any_order := fun rows => rows;
     any_order_Permutation := fun rows => Permutation_refl rows;
     sequence := fun _ => 0 |}.

Definition cache_keys : CacheKeys :=
  {| get_cache_key := fun key_prefix method request =>
       String.append key_prefix
         (String.append ":"
            (String.append method
               (String.append ":" (HttpRequest.get_full_path request)))) |}.

(** The first page of the index, as [test_first_page_contains_ten_records]
    fetches it. *)
Definition index_first_page : Paginator.Page Post.t :=
  Paginator.BuildPage
    (firstn 10 (ORM.Post_objects_all db)) 1
    (Paginator.Paginator (ORM.Post_objects_all db) NUMBER_OF_POSTS).

End Sample.

(* ------------------------------------------------------------------ *)
(** ** The rest of the models and views *)

(** A text is held in UTF-8: a character (a code point) is a byte that
    continues none ([10xxxxxx] continues one) with the continuation bytes
    after it. *)
Definition is_continuation (c : ascii) : bool :=
  let n := Z.of_nat (nat_of_ascii c) in
  (128 <=? n) && (n <? 192).

(** [len(s)], the number of characters. *)
Fixpoint str_len (s : string) : nat :=
  match s with
  | EmptyString => 0%nat
  | String c rest =>
      if is_continuation c then str_len rest else S (str_len rest)
  end.

(** [s[:k]], the first [k] characters. *)
Fixpoint str_prefix (k : nat) (s : string) : string :=
  match s with
  | EmptyString => EmptyString
  | String c rest =>
      if is_continuation c then String c (str_prefix k rest)
      else
        match k with
        | O => EmptyString
        | S k' => String c (str_prefix k' rest)
        end
  end.

(** [Post.__str__] and [Comment.__str__]: [self.text[:15]]. *)
Definition Post_str (p : Post.t) : string :=
  str_prefix 15 (Post.text p).

Definition Comment_str (c : Comment.t) : string :=
  str_prefix 15 (Comment.text c).

(** [Group.__str__]. *)
Definition Group_str (g : Group.t) : string := Group.title g.

(** A Python [dict] with string keys, in insertion order: [d[k]] (no value
    is a [KeyError]) and [d[k] = v], which keeps the place of a key that is
    already there. *)
Definition Dict (V : Type) : Type := list (string * V).

Fixpoint dict_get {V : Type} (d : Dict V) (k : string) : option V :=
  match d with
  | [] => None
  | (k', v) :: rest => if String.eqb k' k then Some v else dict_get rest k
  end.

Fixpoint dict_set {V : Type} (d : Dict V) (k : string) (v : V) : Dict V :=
  match d with
  | [] => [(k, v)]
  | (k', v') :: rest =>
      if String.eqb k' k then (k, v) :: rest else (k', v') :: dict_set rest k v
  end.

(** [users/views.py], [PasswordResetConfirmView.get_context_data]:
    [super_context] is what the call to [super().get_context_data] returns,
    [kwargs] is [self.kwargs]; [None] stands for the [KeyError] of a
    missing URL argument. *)
Definition PasswordResetConfirmView_get_context_data {V : Type}
    (super_context kwargs : Dict V) : option (Dict V) :=
  let context := super_context in
  match dict_get kwargs "uidb64" with
  | None => None
  | Some uidb64 =>
      let context := dict_set context "uidb64" uidb64 in
      match dict_get kwargs "token" with
      | None => None
      | Some token =>
          let context := dict_set context "token" token in
          Some context
      end
  end.

(** [Paginator.page_range], [range(1, num_pages + 1)], and the items of
    page [n] (none when [page] raises). *)
Definition Paginator_page_range {A : Type} (p : Paginator.t A) : list Z :=
  map Z.of_nat (seq 1 (Z.to_nat (Paginator.num_pages p))).

Section PageItems.
Context {py : Interpreter}.

Definition page_items {A : Type} (p : Paginator.t A) (n : Z) : list A :=
  match Paginator.page p (PyInt n) with
  | Ret page_obj => Paginator.page_object_list page_obj
  | Raise _ => []
  end.

End PageItems.

(** [str(n)] for [0 <= n], as a page link or a test writes a page number
    into the query string ([?page=2]); [fuel] bounds the number of
    digits. *)
Definition digit_char (d : Z) : ascii := ascii_of_nat (Z.to_nat (48 + d)).

Fixpoint decimal (fuel : nat) (n : Z) (tail : list ascii) : list ascii :=
  match fuel with
  | O => tail
  | S fuel' =>
      if n <? 10 then digit_char n :: tail
      else decimal fuel' (n / 10) (digit_char (n mod 10) :: tail)
  end.

Definition str_of_int (n : Z) : string :=
  string_of_list_ascii (decimal PyInt.max_str_digits n []).

(** The value of a string of decimal digits. *)
Definition decimal_value (cs : list ascii) (acc : Z) : Z :=
  fold_left (fun a c => 10 * a + (Z.of_nat (nat_of_ascii c) - 48)) cs acc.

(** More schema constraints: the key is unique among users; and the
    property that nobody follows themself. *)
Definition users_pk_unique (db : DB) : Prop :=
  NoDup (map User.pk (users db)).

Definition no_self_follow (db : DB) : Prop :=
  forall f, In f (follows db) -> Follow.user f <> Follow.author f.

(** The row an edit leaves in place of post [p]: the form's cleaned
    fields, with the key, the time and the author of [p]. *)
Definition edited_row (c : PostFields) (p : Post.t) : Post.t :=
  Post.Build (Post.pk p) (cleaned_text c) (Post.pub_date p) (Post.author p)
             (cleaned_group c) (cleaned_image c).

(** [Group.slug] is declared [unique=True]. *)
Definition groups_slug_unique (db : DB) : Prop :=
  NoDup (map Group.slug (groups db)).

(** More fixtures: a comment on the first post, and the tables without
    any [Follow] row. *)
Module Fixture.

Definition first_comment : Comment.t := Comment.Build 1 1 2 "nice" 150.

Definition db_commented : DB :=
  set_comments Sample.db [first_comment].

Definition db_no_follow : DB := set_follows Sample.db [].

Definition db_no_post : DB := set_posts Sample.db [].

(** The post of the model tests, whose text has more than 15 characters,
    most of them of two bytes. *)
Definition long_post : Post.t :=
  Post.Build 1 "Тестовый пост длинной больше 15 символов" 100 1 (Some 1) "".

(** The index asked for a second time, 10 seconds after [Sample.get]
    asks, and a third time, 20 seconds after. *)
Definition index_again : HttpRequest.t :=
  HttpRequest.Build None "GET" [] [] [] "/" 210.

Definition index_later : HttpRequest.t :=
  HttpRequest.Build None "GET" [] [] [] "/" 220.

Definition kwargs : Dict string := [("uidb64", "MQ"); ("token", "abc-123")].

Definition super_context : Dict string :=
  [("form", "<form>"); ("token", "stale"); ("validlink", "True")].

End Fixture.

(* ------------------------------------------------------------------ *)
(** * Facts *)

Unset Implicit Arguments.

Section Facts.
Context {py : Interpreter} {dbms : Database} {keys : CacheKeys}.

Lemma Ret_inj {A : Type} (a b : A) : Ret a = Ret b -> a = b.
Proof. congruence. Qed.

(** ** Lists *)

Lemma firstn_skipn_length {A : Type} (k b : nat) (l : list A) :
  (length (firstn k (skipn b l)) <= k)%nat.
Proof. rewrite length_firstn. apply Nat.le_min_l. Qed.

Lemma firstn_cap {A : Type} (k : nat) (l : list A) :
  firstn (Nat.min k (length l)) l = firstn k l.
Proof.
  destruct (Nat.le_gt_cases k (length l)) as [Hle | Hgt].
  - now rewrite Nat.min_l.
  - rewrite Nat.min_r by lia.
    rewrite firstn_all. symmetry. apply firstn_all2. lia.
Qed.

Lemma In_firstn_skipn {A : Type} (k b : nat) (l : list A) (x : A) :
  In x (firstn k (skipn b l)) -> In x l.
Proof.
  intros H.
  rewrite <- (firstn_skipn b l). apply in_or_app. right.
  rewrite <- (firstn_skipn k (skipn b l)). apply in_or_app. now left.
Qed.

(** ** The paginator with ten posts a page *)

Section TenPerPage.
Context {A : Type}.
Variable l : list A.

Let P := Paginator.Paginator l NUMBER_OF_POSTS.

Lemma count_Paginator : Paginator.count P = Z.of_nat (length l).
Proof. reflexivity. Qed.

Lemma num_pages_Paginator :
  Paginator.num_pages P = - ((- Z.max 1 (Z.of_nat (length l))) / 10).
Proof.
  unfold Paginator.num_pages. rewrite count_Paginator. simpl.
  rewrite andb_false_r. unfold Paginator.ceil_div, NUMBER_OF_POSTS.
  now rewrite Z.sub_0_r.
Qed.

Lemma num_pages_ge_1 : 1 <= Paginator.num_pages P.
Proof.
  rewrite num_pages_Paginator. Z.to_euclidean_division_equations. lia.
Qed.

(** The last page starts inside the list, or at its end when the list is
    empty. *)
Lemma num_pages_bounds :
  10 * (Paginator.num_pages P - 1) < Z.max 1 (Z.of_nat (length l))
    <= 10 * Paginator.num_pages P.
Proof.
  rewrite num_pages_Paginator. Z.to_euclidean_division_equations. lia.
Qed.

(** A number in range selects ten consecutive items, fewer at the end. *)
Lemma page_in_range (n : Z) :
  1 <= n <= Paginator.num_pages P ->
  Paginator.page P (PyInt n) =
    Ret (Paginator.BuildPage
           (firstn 10 (skipn (Z.to_nat (10 * (n - 1))) l)) n P).
Proof.
  intros Hn. unfold Paginator.page, Paginator.validate_number.
  cbn [PyInt.int].
  replace (n <? 1) with false by (symmetry; apply Z.ltb_ge; lia).
  replace (n >? Paginator.num_pages P) with false
    by (symmetry; rewrite Z.gtb_ltb; apply Z.ltb_ge; lia).
  cbn [bind]. f_equal. f_equal. unfold slice.
  change (Paginator.object_list P) with l.
  change (Paginator.per_page P) with 10.
  change (Paginator.orphans P) with 0.
  rewrite count_Paginator.
  replace (Z.to_nat ((n - 1) * 10)) with (Z.to_nat (10 * (n - 1))) by lia.
  set (b := Z.to_nat (10 * (n - 1))).
  destruct ((n - 1) * 10 + 10 + 0 >=? Z.of_nat (length l)) eqn:E.
  - rewrite Z.geb_le in E.
    rewrite <- (firstn_cap 10 (skipn b l)). rewrite length_skipn.
    f_equal. lia.
  - f_equal. lia.
Qed.

(** [get_page] never raises, and tells which page it returns. *)
Lemma get_page_cases (v : PyVal) :
  let n := match PyInt.int v with
           | None => 1
           | Some k =>
               if (k <? 1) || (k >? Paginator.num_pages P)
               then Paginator.num_pages P else k
           end in
  1 <= n <= Paginator.num_pages P /\
  Paginator.get_page P v =
    Ret (Paginator.BuildPage
           (firstn 10 (skipn (Z.to_nat (10 * (n - 1))) l)) n P).
Proof.
  pose proof num_pages_ge_1 as H1.
  unfold Paginator.get_page, Paginator.validate_number.
  destruct (PyInt.int v) as [k |]; cbn zeta.
  - destruct (k <? 1) eqn:E1; cbn [orb].
    + split; [lia | apply page_in_range; lia].
    + apply Z.ltb_ge in E1.
      destruct (k >? Paginator.num_pages P) eqn:E2.
      * rewrite Z.gtb_ltb in E2. apply Z.ltb_lt in E2.
        replace (k =? 1) with false by (symmetry; apply Z.eqb_neq; lia).
        cbn [andb]. split; [lia | apply page_in_range; lia].
      * rewrite Z.gtb_ltb in E2. apply Z.ltb_ge in E2.
        split; [lia | apply page_in_range; lia].
  - split; [lia | apply page_in_range; lia].
Qed.

End TenPerPage.

(** ** Ordering *)

Section Ordering.
Context {A : Type}.
Variable key : A -> Z.

Lemma insert_desc_In (x y : A) (l : list A) :
  In y (ORM.insert_desc key x l) <-> y = x \/ In y l.
Proof.
  induction l as [| z l IH]; simpl.
  - intuition.
  - destruct (key z <=? key x); simpl; [intuition |].
    rewrite IH. intuition.
Qed.

Lemma order_by_desc_In (y : A) (l : list A) :
  In y (ORM.order_by_desc key l) <-> In y l.
Proof.
  induction l as [| x l IH]; simpl; [reflexivity |].
  rewrite insert_desc_In, IH. intuition.
Qed.

Lemma insert_desc_length (x : A) (l : list A) :
  length (ORM.insert_desc key x l) = S (length l).
Proof.
  induction l as [| z l IH]; simpl; [reflexivity |].
  destruct (key z <=? key x); simpl; congruence.
Qed.

Lemma order_by_desc_length (l : list A) :
  length (ORM.order_by_desc key l) = length l.
Proof.
  induction l as [| x l IH]; simpl; [reflexivity |].
  now rewrite insert_desc_length, IH.
Qed.

Lemma insert_desc_HdRel (x a : A) (l : list A) :
  key x <= key a -> HdRel (newer_first key) a l ->
  HdRel (newer_first key) a (ORM.insert_desc key x l).
Proof.
  intros Hx Hl. destruct l as [| z l]; simpl.
  - now constructor.
  - destruct (key z <=? key x); constructor; trivial.
    now inversion Hl.
Qed.

Lemma insert_desc_Sorted (x : A) (l : list A) :
  Sorted (newer_first key) l -> Sorted (newer_first key) (ORM.insert_desc key x l).
Proof.
  induction 1 as [| a l Hs IH Hd]; simpl.
  - repeat constructor.
  - destruct (key a <=? key x) eqn:E.
    + apply Z.leb_le in E. repeat constructor; trivial.
    + apply Z.leb_gt in E. constructor; [exact IH |].
      apply insert_desc_HdRel; trivial. lia.
Qed.

Lemma order_by_desc_Sorted (l : list A) :
  Sorted (newer_first key) (ORM.order_by_desc key l).
Proof.
  induction l as [| x l IH]; simpl; [constructor |].
  now apply insert_desc_Sorted.
Qed.

Lemma Sorted_skipn (n : nat) (l : list A) :
  Sorted (newer_first key) l -> Sorted (newer_first key) (skipn n l).
Proof.
  revert l. induction n as [| n IH]; intros l Hs; [exact Hs |].
  destruct l as [| a l]; [exact Hs |].
  simpl. apply IH. now inversion Hs.
Qed.

Lemma Sorted_firstn (n : nat) (l : list A) :
  Sorted (newer_first key) l -> Sorted (newer_first key) (firstn n l).
Proof.
  revert n. induction l as [| a l IH]; intros n Hs.
  - rewrite firstn_nil. constructor.
  - destruct n as [| n]; [constructor |].
    rewrite firstn_cons. inversion Hs as [| ? ? Hs' Hd]; subst.
    constructor; [now apply IH |].
    destruct l as [| b l]; [rewrite firstn_nil; constructor |].
    destruct n as [| n]; [constructor |].
    rewrite firstn_cons. constructor. now inversion Hd.
Qed.

(** In a sorted list, neighbours are in order. *)
Lemma Sorted_neighbours (l1 l2 : list A) (a b : A) :
  Sorted (newer_first key) (l1 ++ a :: b :: l2) -> key b <= key a.
Proof.
  induction l1 as [| x l1 IH]; simpl; intros Hs.
  - inversion Hs as [| ? ? _ Hd]; subst. now inversion Hd.
  - apply IH. now inversion Hs.
Qed.

End Ordering.

(** ** The feeds paginate their scope's collection *)

Lemma get_paginator_cases (request : HttpRequest.t) (post_list : list Post.t) :
  let P := Paginator.Paginator post_list NUMBER_OF_POSTS in
  let n := match PyInt.int (QueryDict_get (HttpRequest.GET request) "page") with
           | None => 1
           | Some k =>
               if (k <? 1) || (k >? Paginator.num_pages P)
               then Paginator.num_pages P else k
           end in
  1 <= n <= Paginator.num_pages P /\
  get_paginator request post_list =
    Ret (Paginator.BuildPage
           (firstn 10 (skipn (Z.to_nat (10 * (n - 1))) post_list)) n P).
Proof. unfold get_paginator. apply get_page_cases. Qed.

Lemma get_paginator_total (request : HttpRequest.t) (post_list : list Post.t) :
  exists page_obj, get_paginator request post_list = Ret page_obj.
Proof.
  destruct (get_paginator_cases request post_list) as [_ H].
  eexists. exact H.
Qed.

Lemma feed_paginates (scope : Scope) (request : HttpRequest.t) (db : DB)
      (page_obj : Paginator.Page Post.t) :
  page_obj_of (fst (feed scope request db)) = Some page_obj <->
  exists post_list,
    scope_posts scope request db = Some post_list /\
    get_paginator request post_list = Ret page_obj.
Proof.
  destruct scope as [| slug | username |]; simpl.
  - unfold index_wrapped; simpl.
    destruct (get_paginator_total request (ORM.Post_objects_all db)) as [pg Hpg].
    rewrite Hpg; simpl. split.
    + intros [= <-]. eauto.
    + intros (pl & [= <-] & H). congruence.
  - unfold group_posts; simpl.
    destruct (ORM.get_object_or_404 _ _) as [g | e]; simpl.
    + destruct (get_paginator_total request (ORM.group_posts_all db g))
        as [pg Hpg].
      rewrite Hpg; simpl. split.
      * intros [= <-]. eauto.
      * intros (pl & [= <-] & H). congruence.
    + split; [discriminate | intros (pl & H & _); discriminate].
  - unfold profile; simpl.
    destruct (ORM.get_object_or_404 _ _) as [a | e]; simpl.
    + destruct (get_paginator_total request (ORM.author_posts_all db a))
        as [pg Hpg].
      rewrite Hpg; simpl. split.
      * intros [= <-]. eauto.
      * intros (pl & [= <-] & H). congruence.
    + split; [discriminate | intros (pl & H & _); discriminate].
  - unfold follow_index, login_required, HttpRequest.is_authenticated.
    destruct (HttpRequest.user request) as [u |]; simpl.
    + destruct (get_paginator_total request (ORM.Post_filter_following db u))
        as [pg Hpg].
      rewrite Hpg; simpl. split.
      * intros [= <-]. eauto.
      * intros (pl & [= <-] & H). congruence.
    + split; [discriminate | intros (pl & H & _); discriminate].
Qed.

Lemma scope_posts_Sorted (scope : Scope) (request : HttpRequest.t) (db : DB)
      (post_list : list Post.t) :
  scope_posts scope request db = Some post_list ->
  Sorted (newer_first Post.pub_date) post_list.
Proof.
  destruct scope as [| slug | username |]; simpl.
  - intros [= <-]. apply order_by_desc_Sorted.
  - destruct (ORM.get_object_or_404 _ _); [| discriminate].
    intros [= <-]. apply order_by_desc_Sorted.
  - destruct (ORM.get_object_or_404 _ _); [| discriminate].
    intros [= <-]. apply order_by_desc_Sorted.
  - destruct (HttpRequest.user request); [| discriminate].
    intros [= <-]. apply order_by_desc_Sorted.
Qed.

(** A page parameter that names a page of the collection selects it. *)
Lemma get_paginator_asked (request : HttpRequest.t) (post_list : list Post.t)
      (n : Z) :
  let P := Paginator.Paginator post_list NUMBER_OF_POSTS in
  PyInt.int (QueryDict_get (HttpRequest.GET request) "page") = Some n ->
  1 <= n <= Paginator.num_pages P ->
  get_paginator request post_list =
    Ret (Paginator.BuildPage
           (firstn 10 (skipn (Z.to_nat (10 * (n - 1))) post_list)) n P).
Proof.
  intros P Hint Hn.
  destruct (get_paginator_cases request post_list) as [_ Hpg].
  cbv zeta in Hpg. fold P in Hpg. rewrite Hint in Hpg.
  replace (n <? 1) with false in Hpg by (symmetry; apply Z.ltb_ge; lia).
  replace (n >? Paginator.num_pages P) with false in Hpg
    by (symmetry; rewrite Z.gtb_ltb; apply Z.ltb_ge; lia).
  exact Hpg.
Qed.

(** A page of a feed view holds at most ten posts. *)
Lemma feed_page_at_most_ten (scope : Scope) (request : HttpRequest.t) (db : DB)
      (page_obj : Paginator.Page Post.t) :
  page_obj_of (fst (feed scope request db)) = Some page_obj ->
  (length (Paginator.page_object_list page_obj) <= 10)%nat.
Proof.
  intros Hpage.
  apply feed_paginates in Hpage. destruct Hpage as (post_list & _ & Hpg).
  destruct (get_paginator_cases request post_list) as [_ Hpg'].
  cbv zeta in Hpg'. rewrite Hpg in Hpg'. apply Ret_inj in Hpg'.
  subst page_obj. apply firstn_skipn_length.
Qed.

(** Of a collection of 13 posts a feed view renders the first 10 as page 1
    and the last 3 as page 2. *)
Lemma feed_thirteen_split (scope : Scope) (request : HttpRequest.t) (db : DB)
      (post_list : list Post.t) :
  scope_posts scope request db = Some post_list ->
  length post_list = 13%nat ->
  exists page_obj,
    page_obj_of (fst (feed scope request db)) = Some page_obj /\
    let page_number := QueryDict_get (HttpRequest.GET request) "page" in
    (page_number = PyNone \/ page_number = PyStr "1" ->
     Paginator.page_object_list page_obj = firstn 10 post_list /\
     length (Paginator.page_object_list page_obj) = 10%nat) /\
    (page_number = PyStr "2" ->
     Paginator.page_object_list page_obj = skipn 10 post_list /\
     length (Paginator.page_object_list page_obj) = 3%nat).
Proof.
  intros Hscope Hlen.
  destruct (get_paginator_cases request post_list) as [_ Hpg].
  cbv zeta in Hpg.
  eexists. split; [apply feed_paginates; eauto |].
  cbv beta iota zeta delta [Paginator.page_object_list].
  assert (Hnum : Paginator.num_pages
                   (Paginator.Paginator post_list NUMBER_OF_POSTS) = 2).
  { rewrite num_pages_Paginator, Hlen. reflexivity. }
  rewrite Hnum.
  destruct (QueryDict_get (HttpRequest.GET request) "page") as [| s | k].
  + split; [intros _ | intros [=]].
    cbn [PyInt.int]. change (Z.to_nat _) with 0%nat. cbn [skipn].
    split; [reflexivity |]. rewrite length_firstn, Hlen. reflexivity.
  + split.
    * intros [[=] | [= ->]].
      change (Z.to_nat _) with 0%nat. cbn [skipn].
      split; [reflexivity |]. rewrite length_firstn, Hlen. reflexivity.
    * intros [= ->]. change (Z.to_nat _) with 10%nat.
      assert (Hrest : length (skipn 10 post_list) = 3%nat).
      { rewrite length_skipn, Hlen. reflexivity. }
      split; [| rewrite firstn_all2; lia].
      apply firstn_all2. lia.
  + split; [intros [[=] | [=]] | intros [=]].
Qed.

(** ** The page cache in front of the index *)

Lemma cache_get_In (cache : Cache) (key : string) (now : Z)
      (response : HttpResponse) :
  cache_get cache key now = Some response ->
  exists k expires, In (k, (response, expires)) cache.
Proof.
  unfold cache_get.
  destruct (find _ cache) as [[k [r e]] |] eqn:Hfind; [| discriminate].
  apply find_some in Hfind. destruct Hfind as [Hin _].
  destruct (now <? e); [| discriminate]. intros [= <-]. eauto.
Qed.

Lemma cache_lookup_In (key_prefix : string) (request : HttpRequest.t)
      (cache : Cache) (response : HttpResponse) :
  cache_lookup key_prefix request cache = Some response ->
  exists k expires, In (k, (response, expires)) cache.
Proof.
  unfold cache_lookup. destruct (is_GET_or_HEAD _); [| discriminate].
  destruct (cache_get cache (get_cache_key key_prefix "GET" request) _)
    eqn:Hget.
  - intros [= <-]. eapply cache_get_In; eauto.
  - destruct (String.eqb _ "HEAD"); [| discriminate]. apply cache_get_In.
Qed.

(** The decorated index answers with the response the cache holds for the
    request, when it holds one, and with what the function returns
    otherwise. *)
Lemma index_cases (request : HttpRequest.t) (cache : Cache) (db : DB) :
  match cache_lookup "index_page" request cache with
  | Some response => index request cache db = ((Ret response, db), cache)
  | None => fst (index request cache db) = index_wrapped request db
  end.
Proof.
  unfold index, cache_page.
  destruct (cache_lookup "index_page" request cache); [reflexivity |].
  cbv zeta. destruct (fst (index_wrapped request db)) as [[t c | to] | e];
    try reflexivity.
  destruct (is_GET_or_HEAD _); reflexivity.
Qed.

(** The index puts into the cache only what its function returned. *)
Lemma index_keeps_cache_from_index (request : HttpRequest.t) (cache : Cache)
      (db : DB) :
  cache_from_index cache -> cache_from_index (snd (index request cache db)).
Proof.
  intros Hc. unfold index, cache_page.
  destruct (cache_lookup "index_page" request cache); [exact Hc |].
  cbv zeta.
  destruct (fst (index_wrapped request db)) as [[t c | to] | e] eqn:Hans;
    try exact Hc.
  destruct (is_GET_or_HEAD _); [| exact Hc].
  cbn [snd]. unfold cache_set. intros key response expires [Hin | Hin].
  - injection Hin as _ <- _. exists request, db. exact Hans.
  - eapply Hc; eauto.
Qed.

Lemma feed_served_keeps_cache_from_index (scope : Scope)
      (request : HttpRequest.t) (cache : Cache) (db : DB) :
  cache_from_index cache ->
  cache_from_index (snd (feed_served scope request cache db)).
Proof.
  intros Hc. destruct scope; cbn [feed_served snd]; trivial.
  now apply index_keeps_cache_from_index.
Qed.

(** A page the site serves is a page a feed view rendered, for this
    request or, the index answering from its cache, for an earlier one. *)
Lemma feed_served_from_feed (scope : Scope) (request : HttpRequest.t)
      (cache : Cache) (db : DB) (page_obj : Paginator.Page Post.t) :
  cache_from_index cache ->
  page_obj_of (fst (fst (feed_served scope request cache db))) = Some page_obj ->
  exists request' db',
    page_obj_of (fst (feed scope request' db')) = Some page_obj.
Proof.
  intros Hc. destruct scope; cbn [feed_served fst]; eauto.
  pose proof (index_cases request cache db) as Hcases.
  destruct (cache_lookup "index_page" request cache) as [response |] eqn:Hhit.
  - rewrite Hcases. cbn [fst]. intros Hpage.
    apply cache_lookup_In in Hhit. destruct Hhit as (k & expires & Hin).
    destruct (Hc k response expires Hin) as (request' & db' & Hrun).
    exists request', db'. cbn [feed]. now rewrite Hrun.
  - rewrite Hcases. eauto.
Qed.

(** When the index does not answer from its cache, the site serves what
    the feed view returns. *)
Lemma feed_served_miss (scope : Scope) (request : HttpRequest.t)
      (cache : Cache) (db : DB) :
  (scope = AllPosts -> cache_lookup "index_page" request cache = None) ->
  fst (feed_served scope request cache db) = feed scope request db.
Proof.
  intros Hmiss. destruct scope; cbn [feed_served fst]; try reflexivity.
  pose proof (index_cases request cache db) as Hcases.
  rewrite (Hmiss eq_refl) in Hcases. exact Hcases.
Qed.

(* ------------------------------------------------------------------ *)
(** * The feeds *)

(** C1 (as amended). Whatever the feed (all posts, a group's, an author's,
    those of the followed authors) and its collection, a page the site
    serves holds at most 10 posts, the index page answered from the page
    cache included (the cache holds only pages the index rendered, and
    stays so).  When the collection has 13 posts, the page served for
    page 1 (asked for as [?page=1] or with no page parameter) holds
    exactly the first 10 and the page served for page 2 exactly the 3 that
    remain; for the index this is so when it does not answer from its
    cache.  When it does, it serves the response the cache holds, one the
    index function returned for an earlier request, and leaves tables and
    cache as they are. *)
Theorem C1_page_size (scope : Scope) (request : HttpRequest.t) (cache : Cache)
        (db : DB) :
  cache_from_index cache ->
  let served := feed_served scope request cache db in
  cache_from_index (snd served) /\
  (forall page_obj,
      page_obj_of (fst (fst served)) = Some page_obj ->
      (length (Paginator.page_object_list page_obj) <= 10)%nat) /\
  (forall response,
      scope = AllPosts ->
      cache_lookup "index_page" request cache = Some response ->
      served = ((Ret response, db), cache) /\
      exists request' db', fst (index_wrapped request' db') = Ret response) /\
  ((scope = AllPosts -> cache_lookup "index_page" request cache = None) ->
   forall post_list,
      scope_posts scope request db = Some post_list ->
      length post_list = 13%nat ->
      exists page_obj,
        page_obj_of (fst (fst served)) = Some page_obj /\
        let page_number := QueryDict_get (HttpRequest.GET request) "page" in
        (page_number = PyNone \/ page_number = PyStr "1" ->
         Paginator.page_object_list page_obj = firstn 10 post_list /\
         length (Paginator.page_object_list page_obj) = 10%nat) /\
        (page_number = PyStr "2" ->
         Paginator.page_object_list page_obj = skipn 10 post_list /\
         length (Paginator.page_object_list page_obj) = 3%nat)).
Proof.
  intros Hc served. subst served.
  split; [now apply feed_served_keeps_cache_from_index |]. split.
  - intros page_obj Hpage.
    destruct (feed_served_from_feed scope request cache db page_obj Hc Hpage)
      as (request' & db' & Hfeed).
    exact (feed_page_at_most_ten scope request' db' page_obj Hfeed).
  - split.
    2: { intros Hmiss post_list Hscope Hlen.
         rewrite (feed_served_miss scope request cache db Hmiss).
         now apply feed_thirteen_split. }
    intros response -> Hhit. cbn [feed_served].
    pose proof (index_cases request cache db) as Hcases.
    rewrite Hhit in Hcases. split; [exact Hcases |].
    apply cache_lookup_In in Hhit. destruct Hhit as (k & expires & Hin).
    exact (Hc k response expires Hin).
Qed.

(** C8. On a page of any feed, of two posts listed one after the other the
    first is not older than the second. *)
Theorem C8_newest_first (scope : Scope) (request : HttpRequest.t) (db : DB)
        (page_obj : Paginator.Page Post.t) (l1 l2 : list Post.t) (a b : Post.t) :
  page_obj_of (fst (feed scope request db)) = Some page_obj ->
  Paginator.page_object_list page_obj = l1 ++ a :: b :: l2 ->
  Post.pub_date b <= Post.pub_date a.
Proof.
  intros Hpage Hitems.
  apply feed_paginates in Hpage. destruct Hpage as (post_list & Hscope & Hpg).
  apply scope_posts_Sorted in Hscope.
  destruct (get_paginator_cases request post_list) as [_ Hpg'].
  cbv zeta in Hpg'. rewrite Hpg in Hpg'. apply Ret_inj in Hpg'. subst page_obj.
  cbv beta iota delta [Paginator.page_object_list] in Hitems.
  apply (Sorted_neighbours Post.pub_date l1 l2).
  rewrite <- Hitems. now apply Sorted_firstn, Sorted_skipn.
Qed.

(** C9 (as amended). For every collection and every page parameter,
    pagination raises nothing and returns a valid page of the collection:
    page 1 when the parameter is missing or not an integer, the last page
    when it is an integer below 1 or above the last page, and the page
    asked for otherwise. *)
Theorem C9_some_page_always (request : HttpRequest.t) (post_list : list Post.t) :
  let P := Paginator.Paginator post_list NUMBER_OF_POSTS in
  exists page_obj,
    get_paginator request post_list = Ret page_obj /\
    1 <= Paginator.number page_obj <= Paginator.num_pages P /\
    Paginator.page_object_list page_obj =
      firstn 10 (skipn (Z.to_nat (10 * (Paginator.number page_obj - 1)))
                       post_list) /\
    match PyInt.int (QueryDict_get (HttpRequest.GET request) "page") with
    | None => Paginator.number page_obj = 1
    | Some k =>
        (k < 1 \/ Paginator.num_pages P < k ->
         Paginator.number page_obj = Paginator.num_pages P) /\
        (1 <= k <= Paginator.num_pages P -> Paginator.number page_obj = k)
    end.
Proof.
  intros P.
  destruct (get_paginator_cases request post_list) as [Hn Hpg].
  cbv zeta in Hn, Hpg. fold P in Hn, Hpg.
  eexists. split; [exact Hpg |].
  cbn [Paginator.number Paginator.page_object_list].
  split; [exact Hn |]. split; [reflexivity |].
  destruct (PyInt.int _) as [k |]; [| reflexivity].
  destruct (k <? 1) eqn:E1; cbn [orb].
  - apply Z.ltb_lt in E1. split; [reflexivity | lia].
  - apply Z.ltb_ge in E1. rewrite Z.gtb_ltb.
    destruct (Paginator.num_pages P <? k) eqn:E2.
    + apply Z.ltb_lt in E2. split; [reflexivity | lia].
    + apply Z.ltb_ge in E2. split; [lia | reflexivity].
Qed.

(* ------------------------------------------------------------------ *)
(** * Unique columns and the queries on them *)

Section UniqueKey.
Context {A K : Type}.
Variable key : A -> K.
Variable cond : A -> bool.
(** [cond] selects on the unique column: two rows it accepts agree on
    [key]. *)
Hypothesis cond_key : forall x y, cond x = true -> cond y = true -> key x = key y.

Lemma filter_at_most_one (l : list A) :
  NoDup (map key l) -> (length (filter cond l) <= 1)%nat.
Proof.
  induction l as [| x l IH]; simpl; intros Hnd; [lia |].
  apply NoDup_cons_iff in Hnd. destruct Hnd as [Hx Hnd].
  destruct (cond x) eqn:Ex; [| auto].
  destruct (filter cond l) as [| y r] eqn:F; [simpl; lia |].
  exfalso. apply Hx.
  assert (Hy : In y (filter cond l)) by (rewrite F; now left).
  apply filter_In in Hy. destruct Hy as [Hin Hc].
  rewrite (cond_key x y Ex Hc). now apply in_map.
Qed.

Lemma filter_the_one (l : list A) (x : A) :
  NoDup (map key l) -> In x l -> cond x = true -> filter cond l = [x].
Proof.
  intros Hnd Hin Hc.
  pose proof (filter_at_most_one l Hnd) as Hlen.
  assert (Hx : In x (filter cond l)) by (apply filter_In; auto).
  destruct (filter cond l) as [| y [| z r]]; simpl in *.
  - contradiction.
  - destruct Hx as [-> | []]. reflexivity.
  - lia.
Qed.

Lemma get_object_or_404_the_one (l : list A) (x : A) :
  NoDup (map key l) -> In x l -> cond x = true ->
  ORM.get_object_or_404 l cond = Ret x.
Proof.
  intros Hnd Hin Hc. unfold ORM.get_object_or_404.
  now rewrite (filter_the_one l x Hnd Hin Hc).
Qed.

End UniqueKey.

Lemma NoDup_map_In_eq {A K : Type} (f : A -> K) (l : list A) (x y : A) :
  NoDup (map f l) -> In x l -> In y l -> f x = f y -> x = y.
Proof.
  induction l as [| z l IH]; simpl; intros Hnd Hx Hy Hf; [contradiction |].
  apply NoDup_cons_iff in Hnd. destruct Hnd as [Hz Hnd].
  destruct Hx as [-> | Hx], Hy as [-> | Hy]; auto.
  - exfalso. apply Hz. rewrite Hf. now apply in_map.
  - exfalso. apply Hz. rewrite <- Hf. now apply in_map.
Qed.

Lemma exists_false_nil {A : Type} (l : list A) :
  ORM.exists_ l = false -> l = [].
Proof. destruct l; [reflexivity | discriminate]. Qed.

(** ** The user table *)

Lemma get_user_by_username (db : DB) (a : User.t) :
  users_username_unique db -> In a (users db) ->
  ORM.get_object_or_404 (users db)
    (fun x => String.eqb (User.username x) (User.username a)) = Ret a.
Proof.
  intros Hu Ha.
  apply (get_object_or_404_the_one User.username); trivial.
  - intros x y Hx Hy. apply String.eqb_eq in Hx, Hy. congruence.
  - apply String.eqb_refl.
Qed.

(** ** The follow table *)

Lemma follow_matches_key (u a : User.t) (f : Follow.t) :
  follow_matches u a f = true <-> follow_key f = (User.pk u, User.pk a).
Proof.
  unfold follow_matches, follow_key.
  rewrite andb_true_iff, !Z.eqb_eq. split.
  - intros [-> ->]. reflexivity.
  - intros [= -> ->]. auto.
Qed.

Lemma Follow_filter_at_most_one (db : DB) (u a : User.t) :
  follows_unique_together db ->
  (length (ORM.Follow_filter db u a) <= 1)%nat.
Proof.
  intros Hnd. apply (filter_at_most_one follow_key); [| exact Hnd].
  intros x y Hx Hy.
  apply (follow_matches_key u a) in Hx, Hy. congruence.
Qed.

Lemma Follow_filter_nil_key (db : DB) (u a : User.t) :
  ORM.Follow_filter db u a = [] ->
  ~ In (User.pk u, User.pk a) (map follow_key (follows db)).
Proof.
  intros Hnil Hin. apply in_map_iff in Hin. destruct Hin as (f & Hk & Hf).
  assert (H : In f (ORM.Follow_filter db u a)).
  { apply filter_In. split; [exact Hf |]. now apply (follow_matches_key u a). }
  rewrite Hnil in H. contradiction.
Qed.

(** What [Follow.objects.create] does when the pair is new. *)
Lemma Follow_create_new (db : DB) (u a : User.t) :
  ORM.Follow_filter db u a = [] ->
  exists row,
    ORM.Follow_create db u a = Ret (set_follows db (follows db ++ [row])) /\
    follow_key row = (User.pk u, User.pk a).
Proof.
  intros Hnil. unfold ORM.Follow_create. rewrite Hnil. simpl.
  eexists. split; reflexivity.
Qed.

Lemma Follow_filter_after_create (db : DB) (u a : User.t) (row : Follow.t) :
  ORM.Follow_filter db u a = [] ->
  follow_key row = (User.pk u, User.pk a) ->
  ORM.Follow_filter (set_follows db (follows db ++ [row])) u a = [row].
Proof.
  intros Hnil Hrow. unfold ORM.Follow_filter in *. simpl.
  rewrite filter_app, Hnil. simpl.
  apply (follow_matches_key u a) in Hrow. unfold follow_matches in Hrow.
  now rewrite Hrow.
Qed.

Lemma unique_together_after_create (db : DB) (u a : User.t) (row : Follow.t) :
  follows_unique_together db ->
  ORM.Follow_filter db u a = [] ->
  follow_key row = (User.pk u, User.pk a) ->
  follows_unique_together (set_follows db (follows db ++ [row])).
Proof.
  intros Hnd Hnil Hrow. unfold follows_unique_together in *. simpl.
  fold follow_key in *. rewrite map_app. simpl.
  apply Permutation_NoDup with (l := follow_key row :: map follow_key (follows db)).
  - apply Permutation_cons_append.
  - constructor; [| exact Hnd]. rewrite Hrow. now apply Follow_filter_nil_key.
Qed.

(* ------------------------------------------------------------------ *)
(** * Following and unfollowing *)

(** C2. When user [u] asks to follow author [a]: if [u] is not [a], exactly
    one [Follow] row (u, a) exists afterwards; asking a second time changes
    nothing, so no duplicate row is ever made and the pair stays unique;
    and when [u] is [a], no row is made. *)
Theorem C2_follow_idempotent (db : DB) (request : HttpRequest.t) (u a : User.t) :
  users_username_unique db ->
  follows_unique_together db ->
  In u (users db) ->
  In a (users db) ->
  HttpRequest.user request = Some u ->
  let to_profile :=
    Ret (redirect (reverse "posts:profile" [PyStr (User.username a)])) in
  exists db1,
    profile_follow request (User.username a) db = (to_profile, db1) /\
    profile_follow request (User.username a) db1 = (to_profile, db1) /\
    (u <> a -> length (ORM.Follow_filter db1 u a) = 1%nat) /\
    (u = a -> db1 = db) /\
    follows_unique_together db1.
Proof.
  intros Hnames Hpairs Hu Ha Huser to_profile.
  assert (Hstep : forall d,
             users d = users db ->
             ORM.exists_ (ORM.Follow_filter d u a) = true ->
             profile_follow request (User.username a) d = (to_profile, d)).
  { intros d Hd Hex. unfold profile_follow, login_required,
      HttpRequest.is_authenticated.
    rewrite Huser, Hd, (get_user_by_username db a Hnames Ha), Hex.
    now rewrite andb_false_r. }
  destruct (String.eqb (User.username u) (User.username a)) eqn:Esame.
  - (* the user's own profile *)
    apply String.eqb_eq in Esame.
    assert (Hua : u = a)
      by (apply (NoDup_map_In_eq User.username (users db)); trivial).
    exists db.
    assert (Hrun : profile_follow request (User.username a) db = (to_profile, db)).
    { unfold profile_follow, login_required, HttpRequest.is_authenticated.
      rewrite Huser, (get_user_by_username db a Hnames Ha).
      apply String.eqb_eq in Esame. now rewrite Esame. }
    split; [exact Hrun |]. split; [exact Hrun |].
    split; [intros Hne; contradiction |]. split; [reflexivity | exact Hpairs].
  - assert (Hne : u <> a).
    { intros ->. rewrite String.eqb_refl in Esame. discriminate. }
    destruct (ORM.exists_ (ORM.Follow_filter db u a)) eqn:Efollow.
    + (* already following *)
      exists db.
      split; [now apply Hstep |]. split; [now apply Hstep |].
      split; [| split; [intros Heq; contradiction | exact Hpairs]].
      intros _. pose proof (Follow_filter_at_most_one db u a Hpairs) as Hle.
      destruct (ORM.Follow_filter db u a) as [| f [| g r]];
        simpl in *; [discriminate | reflexivity | lia].
    + (* a new relation *)
      apply exists_false_nil in Efollow.
      destruct (Follow_create_new db u a Efollow) as (row & Hcreate & Hrow).
      exists (set_follows db (follows db ++ [row])).
      pose proof (Follow_filter_after_create db u a row Efollow Hrow) as Hnow.
      split; [| split; [| split; [| split]]].
      * unfold profile_follow, login_required, HttpRequest.is_authenticated.
        rewrite Huser, (get_user_by_username db a Hnames Ha), Efollow, Esame.
        cbn [negb andb ORM.exists_]. now rewrite Hcreate.
      * apply Hstep; [reflexivity |]. now rewrite Hnow.
      * intros _. now rewrite Hnow.
      * intros Heq. contradiction.
      * now apply (unique_together_after_create db u a).
Qed.

Lemma Follow_filter_delete_split (db : DB) (u a : User.t) :
  length (follows db) =
    (length (follows (ORM.Follow_filter_delete db u a))
     + length (ORM.Follow_filter db u a))%nat.
Proof.
  unfold ORM.Follow_filter_delete, ORM.Follow_filter. simpl.
  induction (follows db) as [| f l IH]; simpl; [reflexivity |].
  destruct ((Follow.user f =? User.pk u) && (Follow.author f =? User.pk a));
    simpl; lia.
Qed.

Lemma Follow_filter_delete_nothing (db : DB) (u a : User.t) :
  ORM.Follow_filter db u a = [] -> ORM.Follow_filter_delete db u a = db.
Proof.
  unfold ORM.Follow_filter_delete, ORM.Follow_filter. intros Hnil.
  assert (H : forall l,
             filter (fun f => (Follow.user f =? User.pk u)
                              && (Follow.author f =? User.pk a)) l = [] ->
             filter (fun f => negb ((Follow.user f =? User.pk u)
                                    && (Follow.author f =? User.pk a))) l = l).
  { induction l as [| f l IH]; simpl; [reflexivity |].
    destruct ((Follow.user f =? User.pk u) && (Follow.author f =? User.pk a));
      simpl; [discriminate |].
    intros Hl. now rewrite IH. }
  rewrite (H _ Hnil). now destruct db.
Qed.

Lemma Follow_filter_after_delete (db : DB) (u a : User.t) :
  ORM.Follow_filter (ORM.Follow_filter_delete db u a) u a = [].
Proof.
  unfold ORM.Follow_filter_delete, ORM.Follow_filter. simpl.
  induction (follows db) as [| f l IH]; simpl; [reflexivity |].
  destruct ((Follow.user f =? User.pk u) && (Follow.author f =? User.pk a))
    eqn:E; simpl; [exact IH |].
  now rewrite E.
Qed.

(** C3. When user [u] asks to unfollow author [a], the view raises nothing
    and redirects to [a]'s profile; it deletes the (u, a) rows, of which
    there are none or one; when [u] does not follow [a] the tables are left
    as they were; and asking again changes nothing more. *)
Theorem C3_unfollow_idempotent (db : DB) (request : HttpRequest.t) (u a : User.t) :
  users_username_unique db ->
  follows_unique_together db ->
  In a (users db) ->
  HttpRequest.user request = Some u ->
  let to_profile :=
    Ret (redirect (reverse "posts:profile" [PyStr (User.username a)])) in
  let db1 := ORM.Follow_filter_delete db u a in
  profile_unfollow request (User.username a) db = (to_profile, db1) /\
  (length (follows db) =
     length (follows db1) + length (ORM.Follow_filter db u a))%nat /\
  (length (ORM.Follow_filter db u a) <= 1)%nat /\
  ORM.Follow_filter db1 u a = [] /\
  (ORM.Follow_filter db u a = [] -> db1 = db) /\
  profile_unfollow request (User.username a) db1 = (to_profile, db1).
Proof.
  intros Hnames Hpairs Ha Huser to_profile db1.
  assert (Hrun : forall d,
             users d = users db ->
             profile_unfollow request (User.username a) d
             = (to_profile, ORM.Follow_filter_delete d u a)).
  { intros d Hd. unfold profile_unfollow, login_required,
      HttpRequest.is_authenticated.
    now rewrite Huser, Hd, (get_user_by_username db a Hnames Ha). }
  pose proof (Follow_filter_after_delete db u a) as Hgone.
  split; [| split; [| split; [| split; [| split]]]].
  - now apply Hrun.
  - apply Follow_filter_delete_split.
  - now apply Follow_filter_at_most_one.
  - exact Hgone.
  - apply Follow_filter_delete_nothing.
  - rewrite (Hrun db1 eq_refl). f_equal.
    now apply Follow_filter_delete_nothing.
Qed.

(* ------------------------------------------------------------------ *)
(** * The feed of followed authors *)

(** Every item of a collection is on one of its pages. *)
Lemma every_item_on_a_page {A : Type} (l : list A) (x : A) :
  In x l ->
  exists n,
    1 <= n <= Paginator.num_pages (Paginator.Paginator l NUMBER_OF_POSTS) /\
    In x (firstn 10 (skipn (Z.to_nat (10 * (n - 1))) l)).
Proof.
  intros Hin. apply in_split in Hin. destruct Hin as (l1 & l2 & ->).
  set (i := Z.of_nat (length l1)).
  pose proof (num_pages_Paginator (l1 ++ x :: l2)) as Hnum.
  rewrite length_app in Hnum. cbn [length] in Hnum.
  assert (Hrange : 1 <= i / 10 + 1
                   <= Paginator.num_pages
                        (Paginator.Paginator (l1 ++ x :: l2) NUMBER_OF_POSTS)).
  { rewrite Hnum. subst i. Z.to_euclidean_division_equations. lia. }
  exists (i / 10 + 1). split; [exact Hrange |].
  replace (10 * (i / 10 + 1 - 1)) with (10 * (i / 10)) by lia.
  set (b := Z.to_nat (10 * (i / 10))).
  assert (Hb : (b <= length l1 < b + 10)%nat).
  { subst b i. Z.to_euclidean_division_equations. lia. }
  rewrite skipn_app.
  replace (b - length l1)%nat with 0%nat by lia. cbn [skipn].
  rewrite firstn_app, length_skipn.
  apply in_or_app. right.
  replace (10 - (length l1 - b))%nat with (S (9 - (length l1 - b)))%nat by lia.
  rewrite firstn_cons. now left.
Qed.

(** There are no more pages than items, one page at least. *)
Lemma num_pages_le_length {A : Type} (l : list A) :
  Paginator.num_pages (Paginator.Paginator l NUMBER_OF_POSTS)
  <= Z.max 1 (Z.of_nat (length l)).
Proof. pose proof (num_pages_bounds l). lia. Qed.

(** ** Page numbers written into the query string *)

Lemma digit_val_digit_char (d : Z) :
  0 <= d <= 9 -> PyInt.digit_val (digit_char d) = Some d.
Proof.
  intros H.
  assert (Hd : d = 0 \/ d = 1 \/ d = 2 \/ d = 3 \/ d = 4 \/ d = 5 \/ d = 6
               \/ d = 7 \/ d = 8 \/ d = 9) by lia.
  repeat (destruct Hd as [-> | Hd]; [reflexivity |]). now subst d.
Qed.

Lemma digit_val_Some (c : ascii) (d : Z) :
  PyInt.digit_val c = Some d ->
  d = Z.of_nat (nat_of_ascii c) - 48 /\ 48 <= Z.of_nat (nat_of_ascii c) <= 57.
Proof.
  unfold PyInt.digit_val.
  destruct (48 <=? Z.of_nat (nat_of_ascii c)) eqn:E1; [| discriminate].
  destruct (Z.of_nat (nat_of_ascii c) <=? 57) eqn:E2; [| discriminate].
  cbn [andb]. intros [= <-]. apply Z.leb_le in E1, E2. lia.
Qed.

Lemma digit_code (c : ascii) :
  PyInt.digit_val c <> None ->
  PyInt.digit_val c = Some (Z.of_nat (nat_of_ascii c) - 48) /\
  PyInt.is_space c = false /\
  Ascii.eqb c "-"%char = false /\ Ascii.eqb c "+"%char = false /\
  (Z.of_nat (nat_of_ascii c) <? 128) = true.
Proof.
  intros Hc. destruct (PyInt.digit_val c) as [d |] eqn:Hd; [| contradiction].
  destruct (digit_val_Some c d Hd) as [-> Hrange].
  split; [reflexivity |]. split.
  - unfold PyInt.is_space. cbv zeta.
    replace (Z.of_nat (nat_of_ascii c) =? 32) with false
      by (symmetry; apply Z.eqb_neq; lia).
    replace (Z.of_nat (nat_of_ascii c) <=? 13) with false
      by (symmetry; apply Z.leb_gt; lia).
    now rewrite andb_false_r.
  - split; [| split].
    + destruct (Ascii.eqb_spec c "-"%char) as [-> |]; [discriminate | reflexivity].
    + destruct (Ascii.eqb_spec c "+"%char) as [-> |]; [discriminate | reflexivity].
    + apply Z.ltb_lt. lia.
Qed.

Lemma digits_all (cs : list ascii) (prev : bool) (acc : Z) :
  Forall (fun c => PyInt.digit_val c <> None) cs ->
  prev = true \/ cs <> [] ->
  PyInt.digits prev acc cs = Some (decimal_value cs acc).
Proof.
  intros Hall. revert prev acc.
  induction Hall as [| c cs Hc Hall IH]; intros prev acc Hstart.
  - destruct Hstart as [-> | Hne]; [reflexivity | contradiction].
  - cbn [PyInt.digits]. destruct (digit_code c Hc) as [-> _].
    rewrite IH by now left. reflexivity.
Qed.

Lemma decimal_value_acc (cs : list ascii) (acc : Z) :
  decimal_value cs acc
  = acc * 10 ^ Z.of_nat (length cs) + decimal_value cs 0.
Proof.
  revert acc. induction cs as [| c cs IH]; intros acc.
  - cbn. lia.
  - change (decimal_value (c :: cs) acc)
      with (decimal_value cs (10 * acc + (Z.of_nat (nat_of_ascii c) - 48))).
    change (decimal_value (c :: cs) 0)
      with (decimal_value cs (10 * 0 + (Z.of_nat (nat_of_ascii c) - 48))).
    rewrite IH, (IH (10 * 0 + _)).
    cbn [length]. rewrite Nat2Z.inj_succ, Z.pow_succ_r by lia. ring.
Qed.

(** The digits written for [n] read back as [n]. *)
Lemma decimal_spec (fuel : nat) (n : Z) (tail : list ascii) :
  0 <= n < 10 ^ Z.of_nat fuel ->
  Forall (fun c => PyInt.digit_val c <> None) tail ->
  Forall (fun c => PyInt.digit_val c <> None) (decimal fuel n tail) /\
  decimal_value (decimal fuel n tail) 0
  = n * 10 ^ Z.of_nat (length tail) + decimal_value tail 0 /\
  (length (decimal fuel n tail) <= fuel + length tail)%nat /\
  (fuel <> 0%nat \/ tail <> [] -> decimal fuel n tail <> []).
Proof.
  revert n tail. induction fuel as [| fuel IH]; intros n tail Hn Htail.
  - cbn [decimal]. change (10 ^ Z.of_nat 0) with 1 in Hn.
    replace n with 0 by lia.
    split; [exact Htail |]. split; [lia |]. split; [lia |].
    intros [H | H]; [contradiction | exact H].
  - cbn [decimal]. rewrite Nat2Z.inj_succ, Z.pow_succ_r in Hn by lia.
    destruct (n <? 10) eqn:E.
    + apply Z.ltb_lt in E.
      assert (Hd : PyInt.digit_val (digit_char n) = Some n)
        by (apply digit_val_digit_char; lia).
      split; [constructor; [congruence | exact Htail] |].
      split; [| split; [cbn [length]; lia | discriminate]].
      destruct (digit_val_Some _ _ Hd) as [Hcode _].
      change (decimal_value (digit_char n :: tail) 0)
        with (decimal_value tail
                (10 * 0 + (Z.of_nat (nat_of_ascii (digit_char n)) - 48))).
      rewrite <- Hcode, decimal_value_acc. lia.
    + apply Z.ltb_ge in E.
      assert (Hm : 0 <= n mod 10 <= 9)
        by (Z.to_euclidean_division_equations; lia).
      pose proof (digit_val_digit_char (n mod 10) Hm) as Hd.
      assert (Hq : 0 <= n / 10 < 10 ^ Z.of_nat fuel)
        by (Z.to_euclidean_division_equations; lia).
      assert (Htail' : Forall (fun c => PyInt.digit_val c <> None)
                              (digit_char (n mod 10) :: tail))
        by (constructor; [congruence | exact Htail]).
      destruct (IH (n / 10) (digit_char (n mod 10) :: tail) Hq Htail')
        as (Hall & Hval & Hlen & Hne).
      split; [exact Hall |].
      split; [| split; [cbn [length] in Hlen; lia
                       | intros _; apply Hne; right; discriminate]].
      rewrite Hval.
      destruct (digit_val_Some _ _ Hd) as [Hcode _].
      change (decimal_value (digit_char (n mod 10) :: tail) 0)
        with (decimal_value tail
                (10 * 0 + (Z.of_nat (nat_of_ascii (digit_char (n mod 10))) - 48))).
      rewrite <- Hcode, (decimal_value_acc tail (10 * 0 + n mod 10)).
      cbn [length]. rewrite Nat2Z.inj_succ, Z.pow_succ_r by lia.
      pose proof (Z.div_mod n 10 ltac:(lia)) as Hdm.
      set (q := n / 10) in *. set (r := n mod 10) in *. clearbody q r.
      rewrite Hdm. ring.
Qed.

Lemma lstrip_digits (cs : list ascii) :
  Forall (fun c => PyInt.digit_val c <> None) cs -> PyInt.lstrip cs = cs.
Proof.
  intros Hall. destruct Hall as [| c cs Hc _]; [reflexivity |].
  cbn [PyInt.lstrip]. destruct (digit_code c Hc) as (_ & -> & _). reflexivity.
Qed.

Lemma length_string_of_list_ascii (cs : list ascii) :
  String.length (string_of_list_ascii cs) = length cs.
Proof.
  induction cs as [| c cs IH]; [reflexivity |].
  cbn [string_of_list_ascii String.length length]. now rewrite IH.
Qed.

(** [int()] reads a string of digits, of 4300 at most, as its value. *)
Lemma int_of_digits (cs : list ascii) :
  Forall (fun c => PyInt.digit_val c <> None) cs ->
  cs <> [] ->
  (length cs <= PyInt.max_str_digits)%nat ->
  PyInt.of_string (string_of_list_ascii cs) = Some (decimal_value cs 0).
Proof.
  intros Hall Hne Hlen. unfold PyInt.of_string, PyInt.is_ascii, PyInt.of_ascii.
  rewrite list_ascii_of_string_of_list_ascii, length_string_of_list_ascii.
  replace (forallb _ cs) with true.
  2: { symmetry. apply forallb_forall. intros c Hc.
       rewrite Forall_forall in Hall. apply (digit_code c (Hall c Hc)). }
  replace (length cs <=? PyInt.max_str_digits)%nat with true
    by (symmetry; now apply Nat.leb_le).
  cbn [andb]. unfold PyInt.strip.
  rewrite (lstrip_digits cs Hall).
  rewrite (lstrip_digits (rev cs)) by (apply Forall_rev; exact Hall).
  rewrite rev_involutive.
  destruct cs as [| c cs]; [contradiction |].
  destruct (digit_code c (Forall_inv Hall)) as (_ & _ & -> & -> & _).
  apply digits_all; [exact Hall | right; discriminate].
Qed.

(** [int(str(n))] is [n]. *)
Lemma int_str_of_int (n : Z) :
  0 <= n < 10 ^ Z.of_nat PyInt.max_str_digits ->
  PyInt.of_string (str_of_int n) = Some n.
Proof.
  intros Hn. unfold str_of_int.
  destruct (decimal_spec PyInt.max_str_digits n [] Hn (Forall_nil _))
    as (Hall & Hval & Hlen & Hne).
  rewrite int_of_digits.
  - rewrite Hval. cbn [length decimal_value fold_left].
    change (10 ^ Z.of_nat 0) with 1. f_equal. lia.
  - exact Hall.
  - apply Hne. left. discriminate.
  - cbn [length] in Hlen. lia.
Qed.

Lemma int64_fits_str : 2 ^ 63 < 10 ^ Z.of_nat PyInt.max_str_digits.
Proof. vm_compute. reflexivity. Qed.

(** A request for page [n] of a collection, by its number in the query
    string, is answered with that page. *)
Lemma get_paginator_numbered (request : HttpRequest.t)
      (post_list : list Post.t) (n : Z) :
  let P := Paginator.Paginator post_list NUMBER_OF_POSTS in
  Z.of_nat (length post_list) < 2 ^ 63 ->
  1 <= n <= Paginator.num_pages P ->
  QueryDict_get (HttpRequest.GET request) "page" = PyStr (str_of_int n) ->
  get_paginator request post_list =
    Ret (Paginator.BuildPage
           (firstn 10 (skipn (Z.to_nat (10 * (n - 1))) post_list)) n P).
Proof.
  intros P Hsize Hn Hpage. apply get_paginator_asked; [| exact Hn].
  rewrite Hpage. cbn [PyInt.int]. apply int_str_of_int.
  pose proof (num_pages_le_length post_list) as Hle. fold P in Hle.
  pose proof int64_fits_str. lia.
Qed.

Lemma Post_filter_following_In (db : DB) (u : User.t) (p : Post.t) :
  In p (ORM.Post_filter_following db u) <->
  In p (posts db) /\
  exists f, In f (follows db) /\
            Follow.user f = User.pk u /\ Follow.author f = Post.author p.
Proof.
  unfold ORM.Post_filter_following, ORM.Post_ordering.
  rewrite order_by_desc_In, in_flat_map. split.
  - intros (q & Hq & Hin). apply in_map_iff in Hin.
    destruct Hin as (f & <- & Hf). apply filter_In in Hf.
    destruct Hf as [Hf Hm]. apply andb_true_iff in Hm.
    rewrite !Z.eqb_eq in Hm. split; [exact Hq |]. exists f. tauto.
  - intros (Hp & f & Hf & Hu & Ha). exists p. split; [exact Hp |].
    apply in_map_iff. exists f. split; [reflexivity |].
    apply filter_In. split; [exact Hf |].
    apply andb_true_iff. rewrite !Z.eqb_eq. auto.
Qed.

(** C5. For an authenticated user [u], the feed of followed authors holds
    a post exactly when the post is stored and its author is followed by
    [u].  This is so for the collection the view paginates.  It is so for
    what the view renders: whatever [u] requests, the view renders a page,
    and a post on it is stored and by a followed author; and a stored post
    by a followed author is on the page the view renders when [u] asks
    for one of the pages by its number (the collection counting fewer
    than 2^63 posts). *)
Theorem C5_followed_feed (db : DB) (u : User.t) (p : Post.t) :
  let followed :=
    exists f, In f (follows db) /\
              Follow.user f = User.pk u /\ Follow.author f = Post.author p in
  let post_list := ORM.Post_filter_following db u in
  let shows (request : HttpRequest.t) (page_obj : Paginator.Page Post.t) :=
    follow_index request tt db
    = (Ret (render "posts/follow.html" [("page_obj", VPage page_obj)]), db) in
  (In p post_list <-> In p (posts db) /\ followed) /\
  (forall request,
      HttpRequest.user request = Some u ->
      exists page_obj,
        shows request page_obj /\
        (In p (Paginator.page_object_list page_obj) ->
         In p (posts db) /\ followed)) /\
  (Z.of_nat (length post_list) < 2 ^ 63 ->
   In p (posts db) -> followed ->
   exists n,
     1 <= n <= Paginator.num_pages
                 (Paginator.Paginator post_list NUMBER_OF_POSTS) /\
     forall request,
       HttpRequest.user request = Some u ->
       QueryDict_get (HttpRequest.GET request) "page" = PyStr (str_of_int n) ->
       exists page_obj,
         shows request page_obj /\
         Paginator.number page_obj = n /\
         In p (Paginator.page_object_list page_obj)).
Proof.
  intros followed post_list shows.
  assert (Hshows : forall request page_obj,
             HttpRequest.user request = Some u ->
             get_paginator request post_list = Ret page_obj ->
             shows request page_obj).
  { intros request page_obj Huser Hpg. unfold shows.
    unfold follow_index, login_required, HttpRequest.is_authenticated.
    rewrite Huser. fold post_list. rewrite Hpg. reflexivity. }
  split; [apply Post_filter_following_In |]. split.
  - intros request Huser.
    destruct (get_paginator_cases request post_list) as [_ Hpg].
    cbv zeta in Hpg. eexists. split; [exact (Hshows _ _ Huser Hpg) |].
    cbv beta iota delta [Paginator.page_object_list]. intros Hin.
    apply In_firstn_skipn in Hin. now apply Post_filter_following_In.
  - intros Hsize Hp Hfollowed.
    assert (Hin : In p post_list)
      by (apply Post_filter_following_In; now split).
    destruct (every_item_on_a_page post_list p Hin) as (n & Hn & Hitem).
    exists n. split; [exact Hn |]. intros request Huser Hpage.
    eexists. split; [| split].
    + apply (Hshows _ _ Huser).
      exact (get_paginator_numbered request post_list n Hsize Hn Hpage).
    + reflexivity.
    + exact Hitem.
Qed.

(* ------------------------------------------------------------------ *)
(** * Editing, creating, commenting *)

Lemma get_post_by_pk (db : DB) (p : Post.t) :
  posts_pk_unique db -> In p (posts db) ->
  ORM.get_object_or_404 (posts db) (fun x => Post.pk x =? Post.pk p) = Ret p.
Proof.
  intros Hpk Hp. apply (get_object_or_404_the_one Post.pk); trivial.
  - intros x y Hx Hy. apply Z.eqb_eq in Hx, Hy. congruence.
  - apply Z.eqb_refl.
Qed.

Lemma Post_get_found (db : DB) (post_id : Z) (p : Post.t) :
  ORM.get_object_or_404 (posts db) (fun x => Post.pk x =? post_id) = Ret p ->
  ORM.Post_get_or_404 db post_id = Ret p.
Proof. intros H. unfold ORM.Post_get_or_404. now rewrite H. Qed.

Lemma Post_get_by_pk (db : DB) (p : Post.t) :
  posts_pk_unique db -> In p (posts db) ->
  ORM.Post_get_or_404 db (Post.pk p) = Ret p.
Proof. intros Hpk Hp. now apply Post_get_found, get_post_by_pk. Qed.

(** A post the lookup returns is stored under the key asked for. *)
Lemma Post_get_stored (db : DB) (post_id : Z) (p : Post.t) :
  ORM.Post_get_or_404 db post_id = Ret p ->
  In p (posts db) /\ Post.pk p = post_id.
Proof.
  unfold ORM.Post_get_or_404. intros H.
  assert (Hget : ORM.get_object_or_404 (posts db)
                   (fun x => Post.pk x =? post_id) = Ret p).
  { destruct (ORM.get_object_or_404 _ _) as [q | e]; [exact H |].
    destruct e; try discriminate.
    destruct (ORM.int64 post_id); discriminate. }
  unfold ORM.get_object_or_404 in Hget.
  assert (Hx : In p (filter (fun x => Post.pk x =? post_id) (posts db))).
  { destruct (filter _ (posts db)) as [| y [| z r]]; try discriminate.
    apply Ret_inj in Hget. subst y. now left. }
  apply filter_In in Hx. now rewrite Z.eqb_eq in Hx.
Qed.

Lemma user_ne_spec (actor : option User.t) (author : Z) :
  (forall u, actor = Some u -> User.pk u <> author) ->
  user_ne actor author = true.
Proof.
  intros H. destruct actor as [u |]; simpl; [| reflexivity].
  apply negb_true_iff, Z.eqb_neq. now apply H.
Qed.

Section FormViewFacts.

Variable PostForm_errors : QueryDict -> QueryDict -> list (string * string).
Variable PostForm_cleaned_data : QueryDict -> QueryDict -> PostFields.
Variable CommentForm_errors : QueryDict -> list (string * string).
Variable CommentForm_cleaned_data : QueryDict -> string.


(** C4. An edit request on an existing post [p] by anyone but [p]'s
    author, the anonymous visitor included, is answered with a redirect
    to [p]'s detail view, and the tables (so [p] and its text) are left
    as they were. *)
Theorem C4_edit_by_non_author (db : DB) (request : HttpRequest.t) (p : Post.t) :
  posts_pk_unique db ->
  In p (posts db) ->
  (forall u, HttpRequest.user request = Some u -> User.pk u <> Post.author p) ->
  post_edit PostForm_errors PostForm_cleaned_data request (Post.pk p) db
  = (Ret (redirect (reverse "posts:post_detail" [PyInt (Post.pk p)])), db).
Proof.
  intros Hpk Hp Hactor. unfold post_edit.
  rewrite (Post_get_by_pk db p Hpk Hp).
  now rewrite (user_ne_spec _ _ Hactor).
Qed.

(** C6 (as amended). A request by an unauthenticated actor to create a
    post, to comment, to follow or to unfollow is redirected to the login
    page with the requested path as [next]; an unauthenticated edit
    request is not: it is redirected to the post's detail view when the
    post exists.  None of the five changes the tables. *)
Theorem C6_anonymous_mutations (db : DB) (request : HttpRequest.t) :
  HttpRequest.user request = None ->
  let to_login :=
    Ret (redirect (login_url (HttpRequest.get_full_path request))) in
  post_create PostForm_errors PostForm_cleaned_data request tt db
  = (to_login, db) /\
  (forall post_id,
      add_comment CommentForm_errors CommentForm_cleaned_data
                  request post_id db = (to_login, db)) /\
  (forall username, profile_follow request username db = (to_login, db)) /\
  (forall username, profile_unfollow request username db = (to_login, db)) /\
  (forall post_id,
      snd (post_edit PostForm_errors PostForm_cleaned_data
                     request post_id db) = db /\
      forall p,
        ORM.get_object_or_404 (posts db) (fun x => Post.pk x =? post_id)
          = Ret p ->
        fst (post_edit PostForm_errors PostForm_cleaned_data
                       request post_id db)
        = Ret (redirect (reverse "posts:post_detail" [PyInt post_id]))).
Proof.
  intros Hanon to_login.
  unfold post_create, add_comment, profile_follow, profile_unfollow,
    login_required, HttpRequest.is_authenticated.
  rewrite Hanon. repeat (split; [reflexivity |]).
  intros post_id. unfold post_edit. rewrite Hanon.
  destruct (ORM.get_object_or_404 (posts db) (fun x => Post.pk x =? post_id))
    as [p | e] eqn:Hget.
  - rewrite (Post_get_found db post_id p Hget). cbn [user_ne fst snd].
    split; [reflexivity |]. intros q _. reflexivity.
  - split; [| intros q [=]].
    now destruct (ORM.Post_get_or_404 db post_id).
Qed.

Lemma PostForm_invalid_bound_has_errors (form : PostForm.t) :
  PostForm_is_valid PostForm_errors form = false ->
  PostForm_is_bound form = true ->
  PostForm_form_errors PostForm_errors form <> [].
Proof.
  unfold PostForm_is_valid. intros Hinvalid Hbound Hnil.
  rewrite Hbound, Hnil in Hinvalid. discriminate.
Qed.

(** Cleaning leaves the submission in the form, and the key, the author
    and the time in its object. *)
Lemma PostForm_full_clean_keeps (f : PostForm.t) :
  let cleaned := PostForm_full_clean PostForm_errors PostForm_cleaned_data f in
  PostForm.data cleaned = PostForm.data f /\
  PostForm.files cleaned = PostForm.files f /\
  Post.i_pk (PostForm.instance cleaned) = Post.i_pk (PostForm.instance f) /\
  Post.i_author (PostForm.instance cleaned)
  = Post.i_author (PostForm.instance f) /\
  Post.i_pub_date (PostForm.instance cleaned)
  = Post.i_pub_date (PostForm.instance f).
Proof.
  unfold PostForm_full_clean.
  destruct (PostForm_is_valid PostForm_errors f);
    [| destruct (PostForm_is_bound f)]; repeat split.
Qed.

Lemma PostForm_errors_of_data (f g : PostForm.t) :
  PostForm.data f = PostForm.data g ->
  PostForm.files f = PostForm.files g ->
  PostForm_form_errors PostForm_errors f = PostForm_form_errors PostForm_errors g.
Proof.
  unfold PostForm_form_errors, PostForm_is_bound. now intros -> ->.
Qed.

Lemma PostForm_full_clean_errors (f : PostForm.t) :
  PostForm_form_errors PostForm_errors
    (PostForm_full_clean PostForm_errors PostForm_cleaned_data f)
  = PostForm_form_errors PostForm_errors f.
Proof.
  apply PostForm_errors_of_data; apply PostForm_full_clean_keeps.
Qed.

(** The form an invalid submission is shown again: the submitted form
    after cleaning.  It holds the submission; its object keeps key, author
    and time; it carries validation messages when anything was submitted,
    and is the unbound form, without messages, when nothing was. *)
Lemma invalid_form_shown (form : PostForm.t) :
  PostForm_is_valid PostForm_errors form = false ->
  let shown := PostForm_full_clean PostForm_errors PostForm_cleaned_data form in
  PostForm.data shown = PostForm.data form /\
  PostForm.files shown = PostForm.files form /\
  Post.i_pk (PostForm.instance shown) = Post.i_pk (PostForm.instance form) /\
  Post.i_author (PostForm.instance shown)
  = Post.i_author (PostForm.instance form) /\
  Post.i_pub_date (PostForm.instance shown)
  = Post.i_pub_date (PostForm.instance form) /\
  (PostForm_is_bound form = true ->
   PostForm_form_errors PostForm_errors shown <> []) /\
  (PostForm_is_bound form = false ->
   shown = form /\ PostForm_form_errors PostForm_errors shown = []).
Proof.
  intros Hinvalid shown.
  destruct (PostForm_full_clean_keeps form) as (Hd & Hf & Hk & Ha & Ht).
  do 5 (split; [assumption |]). split.
  - intros Hbound. subst shown. rewrite PostForm_full_clean_errors.
    now apply PostForm_invalid_bound_has_errors.
  - intros Hunbound. subst shown. unfold PostForm_full_clean.
    rewrite Hinvalid, Hunbound. split; [reflexivity |].
    unfold PostForm_form_errors. now rewrite Hunbound.
Qed.

(** C7 (as amended). A submission ([POST]) whose form does not validate
    creates and modifies nothing.  Post creation and post edit answer it
    by rendering the form page again with the submitted form, cleaned: it
    holds what was submitted, its object keeps the key, the author and the
    creation time, and it carries validation messages, except that a
    submission with no field and no file leaves the form unbound and
    without messages.  Comment creation answers it with a redirect to the
    post's detail view. *)
Theorem C7_invalid_form (db : DB) (request : HttpRequest.t) (u : User.t) :
  HttpRequest.user request = Some u ->
  HttpRequest.method request = "POST" ->
  let data := or_None (HttpRequest.POST request) in
  let files := or_None (HttpRequest.FILES request) in
  (let form := PostForm.Build data files Post.new in
   let shown := PostForm_full_clean PostForm_errors PostForm_cleaned_data form in
   PostForm_is_valid PostForm_errors form = false ->
   post_create PostForm_errors PostForm_cleaned_data request tt db
   = (Ret (render "posts/post_create.html" [("form", VPostForm shown)]), db) /\
   PostForm.data shown = data /\ PostForm.files shown = files /\
   (PostForm_is_bound form = true ->
    PostForm_form_errors PostForm_errors shown <> []) /\
   (PostForm_is_bound form = false ->
    shown = form /\ PostForm_form_errors PostForm_errors shown = [])) /\
  (forall p,
      posts_pk_unique db -> In p (posts db) -> Post.author p = User.pk u ->
      let form := PostForm.Build data files (Post.load p) in
      let shown :=
        PostForm_full_clean PostForm_errors PostForm_cleaned_data form in
      PostForm_is_valid PostForm_errors form = false ->
      post_edit PostForm_errors PostForm_cleaned_data request (Post.pk p) db
      = (Ret (render "posts/post_create.html"
                     [("form", VPostForm shown); ("is_edit", VBool true);
                      ("post_id", VInt (Post.pk p))]), db) /\
      PostForm.data shown = data /\ PostForm.files shown = files /\
      Post.i_pk (PostForm.instance shown) = Some (Post.pk p) /\
      Post.i_author (PostForm.instance shown) = Some (Post.author p) /\
      Post.i_pub_date (PostForm.instance shown) = Some (Post.pub_date p) /\
      (PostForm_is_bound form = true ->
       PostForm_form_errors PostForm_errors shown <> []) /\
      (PostForm_is_bound form = false ->
       shown = form /\ PostForm_form_errors PostForm_errors shown = [])) /\
  (forall p,
      posts_pk_unique db -> In p (posts db) ->
      CommentForm_is_valid CommentForm_errors
        (CommentForm.Build data Comment.new) = false ->
      add_comment CommentForm_errors CommentForm_cleaned_data
                  request (Post.pk p) db
      = (Ret (redirect (reverse "posts:post_detail" [PyInt (Post.pk p)])), db)).
Proof.
  intros Huser Hmethod data files.
  assert (Hpost : String.eqb (HttpRequest.method request) "POST" = true)
    by now apply String.eqb_eq.
  split; [| split].
  - intros form shown Hinvalid.
    destruct (invalid_form_shown form Hinvalid)
      as (Hd & Hf & _ & _ & _ & Hbound & Hunbound).
    split; [| exact (conj Hd (conj Hf (conj Hbound Hunbound)))].
    unfold post_create, login_required, HttpRequest.is_authenticated.
    rewrite Huser, Hpost. fold data files form. now rewrite Hinvalid.
  - intros p Hpk Hp Hauthor form shown Hinvalid.
    destruct (invalid_form_shown form Hinvalid)
      as (Hd & Hf & Hk & Ha & Ht & Hbound & Hunbound).
    split;
      [| exact (conj Hd (conj Hf (conj Hk (conj Ha
                  (conj Ht (conj Hbound Hunbound))))))].
    unfold post_edit. rewrite (Post_get_by_pk db p Hpk Hp), Huser.
    unfold user_ne. rewrite Hauthor, Z.eqb_refl. cbn [negb].
    rewrite Hpost. fold data files form. now rewrite Hinvalid.
  - intros p Hpk Hp Hinvalid.
    unfold add_comment, login_required, HttpRequest.is_authenticated.
    rewrite Huser, (Post_get_by_pk db p Hpk Hp). fold data.
    now rewrite Hinvalid.
Qed.

Lemma PostForm_valid_no_errors (f : PostForm.t) :
  PostForm_is_valid PostForm_errors f = true ->
  is_nil (PostForm_form_errors PostForm_errors f) = true.
Proof.
  unfold PostForm_is_valid. intros H. apply andb_true_iff in H. tauto.
Qed.

Lemma PostForm_save_no_commit_valid (f : PostForm.t) :
  PostForm_is_valid PostForm_errors f = true ->
  let cleaned := PostForm_full_clean PostForm_errors PostForm_cleaned_data f in
  PostForm_save_no_commit PostForm_errors cleaned
  = Ret (PostForm.instance cleaned).
Proof.
  intros Hok cleaned. unfold PostForm_save_no_commit. subst cleaned.
  now rewrite PostForm_full_clean_errors, (PostForm_valid_no_errors f Hok).
Qed.

Lemma PostForm_save_valid (f : PostForm.t) (u : User.t) (now : Z) (db : DB) :
  PostForm_is_valid PostForm_errors f = true ->
  let cleaned := PostForm_full_clean PostForm_errors PostForm_cleaned_data f in
  PostForm_save PostForm_errors (PostForm_set_author cleaned u) now db
  = ORM.Post_save (PostForm.instance (PostForm_set_author cleaned u)) now db.
Proof.
  intros Hok cleaned. unfold PostForm_save.
  rewrite (PostForm_errors_of_data (PostForm_set_author cleaned u) cleaned)
    by reflexivity.
  subst cleaned.
  now rewrite PostForm_full_clean_errors, (PostForm_valid_no_errors f Hok).
Qed.

(** C10. A post made by [post_create] for an authenticated user [u] has
    [u] as its author, whatever was submitted: a valid submission adds
    one row, with the form's cleaned fields, the clock's time and author
    [u]; and no request by [u] leaves a post row that was not there
    before and has another author. *)
Theorem C10_author_is_requester (db : DB) (request : HttpRequest.t) (u : User.t) :
  HttpRequest.user request = Some u ->
  let data := or_empty (or_None (HttpRequest.POST request)) in
  let files := or_empty (or_None (HttpRequest.FILES request)) in
  let form := PostForm.Build (or_None (HttpRequest.POST request))
                             (or_None (HttpRequest.FILES request)) Post.new in
  (HttpRequest.method request = "POST" ->
   PostForm_is_valid PostForm_errors form = true ->
   exists new,
     post_create PostForm_errors PostForm_cleaned_data request tt db
     = (Ret (redirect (reverse "posts:profile" [PyStr (User.username u)])),
        set_posts db (posts db ++ [new])) /\
     Post.author new = User.pk u /\
     Post.text new = cleaned_text (PostForm_cleaned_data data files) /\
     Post.group new = cleaned_group (PostForm_cleaned_data data files) /\
     Post.image new = cleaned_image (PostForm_cleaned_data data files) /\
     Post.pub_date new = HttpRequest.now request) /\
  (forall p,
      In p (posts (snd (post_create PostForm_errors PostForm_cleaned_data
                                    request tt db))) ->
      In p (posts db) \/ Post.author p = User.pk u).
Proof.
  intros Huser data files form.
  assert (Hvalid : HttpRequest.method request = "POST" ->
                   PostForm_is_valid PostForm_errors form = true ->
                   exists new,
                     post_create PostForm_errors PostForm_cleaned_data
                                 request tt db
                     = (Ret (redirect (reverse "posts:profile"
                                               [PyStr (User.username u)])),
                        set_posts db (posts db ++ [new])) /\
                     Post.author new = User.pk u /\
                     Post.text new = cleaned_text (PostForm_cleaned_data data files) /\
                     Post.group new = cleaned_group (PostForm_cleaned_data data files) /\
                     Post.image new = cleaned_image (PostForm_cleaned_data data files) /\
                     Post.pub_date new = HttpRequest.now request).
  { intros Hmethod Hok. apply String.eqb_eq in Hmethod.
    unfold post_create, login_required, HttpRequest.is_authenticated.
    rewrite Huser, Hmethod. fold form. rewrite Hok.
    rewrite (PostForm_save_no_commit_valid form Hok).
    rewrite (PostForm_save_valid form u (HttpRequest.now request) db Hok).
    unfold PostForm_set_author, PostForm_full_clean. rewrite Hok.
    cbn [PostForm.instance PostForm.data PostForm.files form].
    unfold ORM.Post_save.
    cbn [Post.i_author Post.i_pk Post.i_pub_date CreatedModel.auto_now_add
         Post.i_text Post.i_group Post.i_image Post.new].
    eexists. split; [reflexivity |]. repeat split. }
  split; [exact Hvalid |].
  intros p Hin.
  destruct (String.eqb (HttpRequest.method request) "POST") eqn:Em;
    [destruct (PostForm_is_valid PostForm_errors form) eqn:Ev |].
  - apply String.eqb_eq in Em.
    destruct (Hvalid Em eq_refl) as (new & Hrun & Hauthor & _).
    rewrite Hrun in Hin. simpl in Hin. apply in_app_or in Hin.
    destruct Hin as [Hin | [<- | []]]; auto.
  - left. revert Hin.
    unfold post_create, login_required, HttpRequest.is_authenticated.
    rewrite Huser, Em. fold form. now rewrite Ev.
  - left. revert Hin.
    unfold post_create, login_required, HttpRequest.is_authenticated.
    now rewrite Huser, Em.
Qed.

End FormViewFacts.

End Facts.

(* ------------------------------------------------------------------ *)
(** * The theorems on the test fixtures *)

Section OnFixtures.
#[local] Existing Instance Sample.python.
#[local] Existing Instance Sample.sqlite.
#[local] Existing Instance Sample.cache_keys.

Lemma Sample_usernames : users_username_unique Sample.db.
Proof. unfold users_username_unique. distinct. Defined.

Lemma Sample_post_keys : posts_pk_unique Sample.db.
Proof. unfold posts_pk_unique. distinct. Defined.

Lemma Sample_follow_pairs : follows_unique_together Sample.db.
Proof. unfold follows_unique_together. distinct. Defined.

(** C1, as first stated, has page 1 of a collection of 13 posts hold 10
    of them.  The index answers from its page cache for 20 seconds: asked
    while no post is stored, and asked again 10 seconds later with the 13
    posts stored, it serves the page without posts a second time. *)
Lemma C1_counterexample :
  ~ (forall (scope : Scope) (request : HttpRequest.t) (cache : Cache)
            (db : DB) (post_list : list Post.t),
        cache_from_index cache ->
        scope_posts scope request db = Some post_list ->
        length post_list = 13%nat ->
        QueryDict_get (HttpRequest.GET request) "page" = PyNone ->
        exists page_obj,
          page_obj_of (fst (fst (feed_served scope request cache db)))
          = Some page_obj /\
          length (Paginator.page_object_list page_obj) = 10%nat).
Proof.
  intros H.
  set (earlier := HttpRequest.Build None "GET" [] [] [] "/" 200).
  set (later := HttpRequest.Build None "GET" [] [] [] "/" 210).
  set (cache := snd (index earlier [] Fixture.db_no_post)).
  assert (Hc : cache_from_index cache).
  { apply index_keeps_cache_from_index. intros k r e []. }
  destruct (H AllPosts later cache Sample.db (ORM.Post_objects_all Sample.db)
              Hc eq_refl eq_refl eq_refl) as (page_obj & Hpage & Hlen).
  vm_compute in Hpage. injection Hpage as <-. discriminate Hlen.
Qed.

(** A request of the fixtures for a page by its number. *)
Lemma Sample_get_page (u : option User.t) (path number : string) :
  HttpRequest.user (Sample.get u path [("page", number)]) = u /\
  QueryDict_get (HttpRequest.GET (Sample.get u path [("page", number)])) "page"
  = PyStr number.
Proof. split; reflexivity. Defined.

(** The index of the fixtures, page 2, asked for with nothing in the
    cache: the three oldest posts. *)
Lemma C1_page_size_witness :
  cache_from_index [] /\
  cache_lookup "index_page" (Sample.get None "/" [("page", "2")]) [] = None /\
  scope_posts AllPosts (Sample.get None "/" [("page", "2")]) Sample.db
    = Some (ORM.Post_objects_all Sample.db) /\
  length (ORM.Post_objects_all Sample.db) = 13%nat /\
  exists page_obj,
    page_obj_of
      (fst (fst (feed_served AllPosts (Sample.get None "/" [("page", "2")])
                             [] Sample.db))) = Some page_obj /\
    length (Paginator.page_object_list page_obj) = 3%nat.
Proof.
  assert (Hempty : cache_from_index []) by (intros k r e []).
  split; [exact Hempty |]. split; [reflexivity |].
  split; [reflexivity |]. split; [reflexivity |].
  destruct (proj2 (proj2 (proj2 (C1_page_size AllPosts
                                   (Sample.get None "/" [("page", "2")]) []
                                   Sample.db Hempty)))
                  (fun _ => eq_refl)
                  (ORM.Post_objects_all Sample.db) eq_refl eq_refl)
    as (page_obj & Hpage & _ & Htwo).
  exists page_obj. split; [exact Hpage |].
  exact (proj2 (Htwo eq_refl)).
Defined.

(** The index of the fixtures, page 1: its two newest posts. *)
Lemma C8_newest_first_witness :
  page_obj_of (fst (feed AllPosts (Sample.get None "/" []) Sample.db))
    = Some Sample.index_first_page /\
  Paginator.page_object_list Sample.index_first_page
    = [] ++ Sample.numbered_post 11 "11" :: Sample.numbered_post 10 "10"
         :: skipn 2 (Paginator.page_object_list Sample.index_first_page) /\
  Post.pub_date (Sample.numbered_post 10 "10")
    <= Post.pub_date (Sample.numbered_post 11 "11").
Proof.
  split; [reflexivity |]. split; [reflexivity |].
  apply (C8_newest_first AllPosts (Sample.get None "/" []) Sample.db
           Sample.index_first_page []
           (skipn 2 (Paginator.page_object_list Sample.index_first_page)));
    reflexivity.
Defined.

(** C9, as first stated, asks for the nearest valid page.  With 13 posts
    and [?page=0] the nearest valid page is page 1; [get_page] answers
    with page 2, the last one. *)
Lemma C9_counterexample :
  ~ (forall (request : HttpRequest.t) (post_list : list Post.t) (k : Z),
        let P := Paginator.Paginator post_list NUMBER_OF_POSTS in
        PyInt.int (QueryDict_get (HttpRequest.GET request) "page") = Some k ->
        k < 1 \/ Paginator.num_pages P < k ->
        exists page_obj,
          get_paginator request post_list = Ret page_obj /\
          Paginator.number page_obj
          = nearest_valid_page (Paginator.num_pages P) k).
Proof.
  intros H.
  destruct (H (Sample.get None "/" [("page", "0")]) Sample.thirteen_posts 0
              eq_refl (or_introl eq_refl)) as (page_obj & Hpage & Hnumber).
  apply Ret_inj in Hpage. subst page_obj. discriminate Hnumber.
Qed.

(** The same request, through the amended statement; and [?page=] a file
    separator (the character of code 28) before a 2, which [int()] does
    not take for a number: page 1. *)
Lemma C9_some_page_always_witness :
  (exists page_obj,
      get_paginator (Sample.get None "/" [("page", "0")]) Sample.thirteen_posts
        = Ret page_obj /\
      Paginator.number page_obj = 2) /\
  (exists page_obj,
      get_paginator
        (Sample.get None "/" [("page", String (ascii_of_nat 28) "2")])
        Sample.thirteen_posts
        = Ret page_obj /\
      Paginator.number page_obj = 1).
Proof.
  split.
  - destruct (C9_some_page_always (Sample.get None "/" [("page", "0")])
                                  Sample.thirteen_posts)
      as (page_obj & Hpage & _ & _ & Hnumber).
    exists page_obj. split; [exact Hpage |].
    exact (proj1 Hnumber (or_introl eq_refl)).
  - destruct (C9_some_page_always
                (Sample.get None "/" [("page", String (ascii_of_nat 28) "2")])
                Sample.thirteen_posts)
      as (page_obj & Hpage & _ & _ & Hnumber).
    exists page_obj. split; [exact Hpage | exact Hnumber].
Defined.

(** [auth3] follows [auth2]. *)
Lemma C2_follow_idempotent_witness :
  users_username_unique Sample.db /\
  follows_unique_together Sample.db /\
  In Sample.auth3 (users Sample.db) /\
  In Sample.auth2 (users Sample.db) /\
  exists db1,
    profile_follow
      (Sample.get (Some Sample.auth3) "/profile/auth2/follow/" [])
      "auth2" Sample.db
    = (Ret (redirect (reverse "posts:profile" [PyStr "auth2"])), db1) /\
    length (ORM.Follow_filter db1 Sample.auth3 Sample.auth2) = 1%nat.
Proof.
  assert (H3 : In Sample.auth3 (users Sample.db)) by (simpl; auto).
  assert (H2 : In Sample.auth2 (users Sample.db)) by (simpl; auto).
  repeat (split; [first [exact Sample_usernames | exact Sample_follow_pairs
                        | assumption] |]).
  destruct (C2_follow_idempotent Sample.db
              (Sample.get (Some Sample.auth3) "/profile/auth2/follow/" [])
              Sample.auth3 Sample.auth2
              Sample_usernames Sample_follow_pairs H3 H2 eq_refl)
    as (db1 & Hrun & _ & Hone & _).
  exists db1. split; [exact Hrun |]. apply Hone. discriminate.
Defined.

(** [auth] unfollows [auth2]. *)
Lemma C3_unfollow_idempotent_witness :
  users_username_unique Sample.db /\
  follows_unique_together Sample.db /\
  In Sample.auth2 (users Sample.db) /\
  profile_unfollow
    (Sample.get (Some Sample.auth) "/profile/auth2/unfollow/" [])
    "auth2" Sample.db
  = (Ret (redirect (reverse "posts:profile" [PyStr "auth2"])),
     ORM.Follow_filter_delete Sample.db Sample.auth Sample.auth2).
Proof.
  assert (H2 : In Sample.auth2 (users Sample.db)) by (simpl; auto).
  repeat (split; [first [exact Sample_usernames | exact Sample_follow_pairs
                        | assumption] |]).
  exact (proj1 (C3_unfollow_idempotent Sample.db
                  (Sample.get (Some Sample.auth) "/profile/auth2/unfollow/" [])
                  Sample.auth Sample.auth2
                  Sample_usernames Sample_follow_pairs H2 eq_refl)).
Defined.

(** [auth] follows [auth2], so [auth] is shown the newest post of [auth2]
    on a page of the feed. *)
Lemma C5_followed_feed_witness :
  Z.of_nat (length (ORM.Post_filter_following Sample.db Sample.auth)) < 2 ^ 63 /\
  In (Sample.numbered_post 11 "11") (posts Sample.db) /\
  exists request page_obj,
    HttpRequest.user request = Some Sample.auth /\
    follow_index request tt Sample.db
    = (Ret (render "posts/follow.html" [("page_obj", VPage page_obj)]),
       Sample.db) /\
    In (Sample.numbered_post 11 "11") (Paginator.page_object_list page_obj).
Proof.
  assert (Hsize : Z.of_nat (length (ORM.Post_filter_following
                                      Sample.db Sample.auth)) < 2 ^ 63)
    by (vm_compute; reflexivity).
  assert (Hstored : In (Sample.numbered_post 11 "11") (posts Sample.db))
    by (simpl; do 12 right; now left).
  split; [exact Hsize |]. split; [exact Hstored |].
  destruct (proj2 (proj2 (C5_followed_feed Sample.db Sample.auth
                            (Sample.numbered_post 11 "11")))
                  Hsize Hstored
                  (ex_intro _ (Follow.Build 1 1 2)
                            (conj (or_introl eq_refl) (conj eq_refl eq_refl))))
    as (n & _ & Hshown).
  destruct (Sample_get_page (Some Sample.auth) "/follow/" (str_of_int n))
    as [Huser Hpage].
  destruct (Hshown _ Huser Hpage) as (page_obj & Hrun & _ & Hin).
  exists (Sample.get (Some Sample.auth) "/follow/" [("page", str_of_int n)]).
  exists page_obj. split; [exact Huser |]. split; [exact Hrun | exact Hin].
Defined.

(** [auth2] tries to rewrite the post of [auth]. *)
Lemma C4_edit_by_non_author_witness :
  posts_pk_unique Sample.db /\
  In Sample.first_post (posts Sample.db) /\
  (forall u,
      HttpRequest.user (Sample.post (Some Sample.auth2) "/posts/1/edit/"
                                    [("text", "rewritten")]) = Some u ->
      User.pk u <> Post.author Sample.first_post) /\
  post_edit Sample.PostForm_errors Sample.PostForm_cleaned_data
            (Sample.post (Some Sample.auth2) "/posts/1/edit/"
                         [("text", "rewritten")])
            1 Sample.db
  = (Ret (redirect (reverse "posts:post_detail" [PyInt 1])), Sample.db).
Proof.
  assert (Hin : In Sample.first_post (posts Sample.db)) by (simpl; auto).
  assert (Hactor : forall u,
             HttpRequest.user (Sample.post (Some Sample.auth2) "/posts/1/edit/"
                                           [("text", "rewritten")]) = Some u ->
             User.pk u <> Post.author Sample.first_post).
  { intros u [= <-]. discriminate. }
  split; [exact Sample_post_keys |]. split; [exact Hin |].
  split; [exact Hactor |].
  exact (C4_edit_by_non_author Sample.PostForm_errors
           Sample.PostForm_cleaned_data Sample.db
           (Sample.post (Some Sample.auth2) "/posts/1/edit/"
                        [("text", "rewritten")])
           Sample.first_post Sample_post_keys Hin Hactor).
Defined.

(** C6, as first stated, sends every unauthenticated mutating request to
    the login page.  [post_edit] carries no [login_required]: the anonymous
    edit request on post 1 is redirected to that post's detail view. *)
Lemma C6_counterexample :
  ~ (forall (request : HttpRequest.t) (post_id : Z) (db : DB),
        HttpRequest.user request = None ->
        fst (post_edit Sample.PostForm_errors Sample.PostForm_cleaned_data
                       request post_id db)
        = Ret (redirect (login_url (HttpRequest.get_full_path request)))).
Proof.
  intros H.
  specialize (H (Sample.get None "/posts/1/edit/" []) 1 Sample.db eq_refl).
  discriminate H.
Qed.

(** An anonymous submission to [/create/]. *)
Lemma C6_anonymous_mutations_witness :
  HttpRequest.user (Sample.post None "/create/" [("text", "hello")]) = None /\
  post_create Sample.PostForm_errors Sample.PostForm_cleaned_data
              (Sample.post None "/create/" [("text", "hello")]) tt Sample.db
  = (Ret (redirect (login_url "/create/")), Sample.db).
Proof.
  split; [reflexivity |].
  exact (proj1 (C6_anonymous_mutations
                  Sample.PostForm_errors Sample.PostForm_cleaned_data
                  Sample.CommentForm_errors Sample.CommentForm_cleaned_data
                  Sample.db (Sample.post None "/create/" [("text", "hello")])
                  eq_refl)).
Defined.

(** C7, as first stated, has every form-handling view answer an invalid
    form by rendering the form page again with validation messages.
    [add_comment] answers a comment with an empty text by redirecting to
    the post's detail view; and [post_create], sent a submission without
    any field, renders the form without a message, the form not being
    bound. *)
Lemma C7_counterexample :
  ~ (forall (request : HttpRequest.t) (post_id : Z) (db : DB) (u : User.t),
        HttpRequest.user request = Some u ->
        CommentForm_is_valid Sample.CommentForm_errors
          (CommentForm.Build (or_None (HttpRequest.POST request)) Comment.new)
        = false ->
        exists template context,
          fst (add_comment Sample.CommentForm_errors
                           Sample.CommentForm_cleaned_data request post_id db)
          = Ret (render template context)) /\
  ~ (forall (request : HttpRequest.t) (db : DB) (u : User.t),
        HttpRequest.user request = Some u ->
        HttpRequest.method request = "POST" ->
        PostForm_is_valid Sample.PostForm_errors
          (PostForm.Build (or_None (HttpRequest.POST request))
                          (or_None (HttpRequest.FILES request)) Post.new)
        = false ->
        exists shown,
          fst (post_create Sample.PostForm_errors Sample.PostForm_cleaned_data
                           request tt db)
          = Ret (render "posts/post_create.html" [("form", VPostForm shown)]) /\
          PostForm_form_errors Sample.PostForm_errors shown <> []).
Proof.
  split.
  - intros H.
    destruct (H (Sample.post (Some Sample.auth) "/posts/1/comment/"
                             [("text", "")])
                1 Sample.db Sample.auth eq_refl eq_refl)
      as (template & context & Hrender).
    discriminate Hrender.
  - intros H.
    destruct (H (Sample.post (Some Sample.auth) "/create/" []) Sample.db
                Sample.auth eq_refl eq_refl eq_refl)
      as (shown & Hrender & Herrors).
    apply Ret_inj in Hrender. injection Hrender as <-.
    apply Herrors. reflexivity.
Qed.

(** [auth] submits a post with an empty text: the form page again, with
    the message that the text is required. *)
Lemma C7_invalid_form_witness :
  HttpRequest.user (Sample.post (Some Sample.auth) "/create/" [("text", "")])
    = Some Sample.auth /\
  HttpRequest.method (Sample.post (Some Sample.auth) "/create/" [("text", "")])
    = "POST" /\
  post_create Sample.PostForm_errors Sample.PostForm_cleaned_data
              (Sample.post (Some Sample.auth) "/create/" [("text", "")])
              tt Sample.db
  = (Ret (render "posts/post_create.html"
                 [("form", VPostForm (PostForm.Build (Some [("text", "")]) None
                                                     Post.new))]),
     Sample.db) /\
  PostForm_form_errors Sample.PostForm_errors
    (PostForm.Build (Some [("text", "")]) None Post.new)
  = [("text", "This field is required.")].
Proof.
  split; [reflexivity |]. split; [reflexivity |].
  split; [| reflexivity].
  exact (proj1 (proj1 (C7_invalid_form
                         Sample.PostForm_errors Sample.PostForm_cleaned_data
                         Sample.CommentForm_errors
                         Sample.CommentForm_cleaned_data
                         Sample.db
                         (Sample.post (Some Sample.auth) "/create/"
                                      [("text", "")])
                         Sample.auth eq_refl eq_refl)
                      eq_refl)).
Defined.

(** [auth3] submits a post and an [author] value along with it. *)
Lemma C10_author_is_requester_witness :
  HttpRequest.user (Sample.post (Some Sample.auth3) "/create/"
                                [("text", "hello"); ("author", "1")])
    = Some Sample.auth3 /\
  exists new,
    post_create Sample.PostForm_errors Sample.PostForm_cleaned_data
                (Sample.post (Some Sample.auth3) "/create/"
                             [("text", "hello"); ("author", "1")])
                tt Sample.db
    = (Ret (redirect (reverse "posts:profile" [PyStr "auth3"])),
       set_posts Sample.db (posts Sample.db ++ [new])) /\
    Post.author new = 3.
Proof.
  split; [reflexivity |].
  destruct (proj1 (C10_author_is_requester
                     Sample.PostForm_errors Sample.PostForm_cleaned_data
                     Sample.db
                     (Sample.post (Some Sample.auth3) "/create/"
                                  [("text", "hello"); ("author", "1")])
                     Sample.auth3 eq_refl)
                  eq_refl eq_refl)
    as (new & Hrun & Hauthor & _).
  exists new. split; [exact Hrun | exact Hauthor].
Defined.

End OnFixtures.

(* ------------------------------------------------------------------ *)
(** * More on the views *)

Section MoreFacts.
Context {py : Interpreter} {dbms : Database} {keys : CacheKeys}.

(** ** Looking rows up *)

Lemma get_object_or_404_found {A : Type} (table : list A) (cond : A -> bool)
      (x : A) :
  ORM.get_object_or_404 table cond = Ret x -> In x table /\ cond x = true.
Proof.
  unfold ORM.get_object_or_404. intros H.
  assert (Hx : In x (filter cond table)).
  { destruct (filter cond table) as [| y [| z r]]; try discriminate.
    apply Ret_inj in H. subst y. now left. }
  now apply filter_In in Hx.
Qed.

Lemma get_object_or_404_missing {A : Type} (table : list A) (cond : A -> bool) :
  (forall x, In x table -> cond x = false) ->
  ORM.get_object_or_404 table cond = Raise Http404.
Proof.
  intros Hnone. unfold ORM.get_object_or_404.
  destruct (filter cond table) as [| y r] eqn:F; [reflexivity |].
  assert (Hy : In y (filter cond table)) by (rewrite F; now left).
  apply filter_In in Hy. destruct Hy as [Hin Hc].
  rewrite (Hnone y Hin) in Hc. discriminate.
Qed.

Lemma get_group_by_slug (db : DB) (g : Group.t) :
  groups_slug_unique db -> In g (groups db) ->
  ORM.get_object_or_404 (groups db)
    (fun x => String.eqb (Group.slug x) (Group.slug g)) = Ret g.
Proof.
  intros Hu Hg. apply (get_object_or_404_the_one Group.slug); trivial.
  - intros x y Hx Hy. apply String.eqb_eq in Hx, Hy. congruence.
  - apply String.eqb_refl.
Qed.

Lemma get_paginator_items (request : HttpRequest.t) (post_list : list Post.t)
      (page_obj : Paginator.Page Post.t) (p : Post.t) :
  get_paginator request post_list = Ret page_obj ->
  In p (Paginator.page_object_list page_obj) -> In p post_list.
Proof.
  intros Hpg Hin.
  destruct (get_paginator_cases request post_list) as [_ Hpg'].
  cbv zeta in Hpg'. rewrite Hpg in Hpg'. apply Ret_inj in Hpg'. subst page_obj.
  cbv beta iota delta [Paginator.page_object_list] in Hin.
  now apply In_firstn_skipn in Hin.
Qed.

Lemma page_items_cover {A : Type} (l : list A) (x : A) :
  In x l ->
  exists n, In x (page_items (Paginator.Paginator l NUMBER_OF_POSTS) n).
Proof.
  intros Hin. destruct (every_item_on_a_page l x Hin) as (n & Hn & Hx).
  exists n. unfold page_items. now rewrite (page_in_range l n Hn).
Qed.

Lemma group_posts_all_In (db : DB) (g : Group.t) (p : Post.t) :
  In p (ORM.group_posts_all db g) <->
  In p (posts db) /\ Post.group p = Some (Group.pk g).
Proof.
  unfold ORM.group_posts_all, ORM.Post_ordering.
  rewrite order_by_desc_In, filter_In.
  destruct (Post.group p) as [k |].
  - rewrite Z.eqb_eq. split; intros [H1 H2]; split; congruence.
  - split; intros [H1 H2]; discriminate.
Qed.

Lemma author_posts_all_In (db : DB) (a : User.t) (p : Post.t) :
  In p (ORM.author_posts_all db a) <->
  In p (posts db) /\ Post.author p = User.pk a.
Proof.
  unfold ORM.author_posts_all, ORM.Post_ordering.
  now rewrite order_by_desc_In, filter_In, Z.eqb_eq.
Qed.

Lemma exists_true_iff {A : Type} (l : list A) :
  ORM.exists_ l = true <-> exists x, In x l.
Proof.
  destruct l as [| x l]; simpl; split.
  - discriminate.
  - intros [x []].
  - intros _. exists x. now left.
  - reflexivity.
Qed.

Lemma Follow_filter_In (db : DB) (u a : User.t) (f : Follow.t) :
  In f (ORM.Follow_filter db u a) <->
  In f (follows db) /\
  Follow.user f = User.pk u /\ Follow.author f = User.pk a.
Proof.
  unfold ORM.Follow_filter.
  now rewrite filter_In, andb_true_iff, !Z.eqb_eq.
Qed.

(** ** The group and profile pages *)

(** X1. The page of a stored group shows that group and posts of that
    group only; and every stored post of the group is on one of the pages
    of the collection it paginates. *)
Theorem group_posts_only_that_group (db : DB) (request : HttpRequest.t)
        (g : Group.t) :
  groups_slug_unique db ->
  In g (groups db) ->
  exists page_obj,
    group_posts request (Group.slug g) db
    = (Ret (render "posts/group_list.html"
                   [("group", VGroup g); ("page_obj", VPage page_obj)]), db) /\
    (forall p, In p (Paginator.page_object_list page_obj) ->
               In p (posts db) /\ Post.group p = Some (Group.pk g)) /\
    (forall p, In p (posts db) -> Post.group p = Some (Group.pk g) ->
               exists n,
                 In p (page_items
                         (Paginator.Paginator (ORM.group_posts_all db g)
                                              NUMBER_OF_POSTS) n)).
Proof.
  intros Hslug Hg.
  destruct (get_paginator_total request (ORM.group_posts_all db g))
    as [page_obj Hpg].
  exists page_obj. split; [| split].
  - unfold group_posts. rewrite (get_group_by_slug db g Hslug Hg).
    cbn [bind]. rewrite Hpg. reflexivity.
  - intros p Hin. apply group_posts_all_In.
    now apply (get_paginator_items request _ page_obj).
  - intros p Hp Hgroup. apply page_items_cover.
    now apply group_posts_all_In.
Qed.

(** X2. The profile page of a stored user shows that user and posts by
    that user only, and its [following] flag is set exactly when the
    requester is logged in and has a [Follow] row to that user. *)
Theorem profile_only_that_author (db : DB) (request : HttpRequest.t)
        (a : User.t) :
  users_username_unique db ->
  In a (users db) ->
  exists page_obj following,
    profile request (User.username a) db
    = (Ret (render "posts/profile.html"
                   [("author", VUser a); ("page_obj", VPage page_obj);
                    ("following", VBool following)]), db) /\
    (forall p, In p (Paginator.page_object_list page_obj) ->
               In p (posts db) /\ Post.author p = User.pk a) /\
    (following = true <->
     exists u f,
       HttpRequest.user request = Some u /\ In f (follows db) /\
       Follow.user f = User.pk u /\ Follow.author f = User.pk a).
Proof.
  intros Hnames Ha.
  destruct (get_paginator_total request (ORM.author_posts_all db a))
    as [page_obj Hpg].
  exists page_obj. eexists. split; [| split].
  - unfold profile. rewrite (get_user_by_username db a Hnames Ha).
    cbn [bind]. rewrite Hpg. reflexivity.
  - intros p Hin. apply author_posts_all_In.
    now apply (get_paginator_items request _ page_obj).
  - destruct (HttpRequest.user request) as [u |].
    + rewrite exists_true_iff. split.
      * intros [f Hf]. apply Follow_filter_In in Hf. exists u, f. tauto.
      * intros (u' & f & [= <-] & Hf). exists f. now apply Follow_filter_In.
    + split; [discriminate | intros (u & f & [=] & _)].
Qed.

(** ** Rows that are not there *)

(** X3. A slug that no stored group has makes the group page raise
    [Http404]. *)
Theorem group_posts_missing_404 (db : DB) (request : HttpRequest.t)
        (slug : string) :
  (forall g, In g (groups db) -> Group.slug g <> slug) ->
  group_posts request slug db = (Raise Http404, db).
Proof.
  intros Hnone. unfold group_posts.
  rewrite get_object_or_404_missing; [reflexivity |].
  intros g Hg. apply String.eqb_neq. now apply Hnone.
Qed.

(** X4. A username that no stored user has makes the profile page raise
    [Http404], and so do the follow and unfollow requests of a logged-in
    user, which then leave the [Follow] table alone. *)
Theorem unknown_username_404 (db : DB) (request : HttpRequest.t)
        (username : string) :
  (forall a, In a (users db) -> User.username a <> username) ->
  profile request username db = (Raise Http404, db) /\
  (HttpRequest.is_authenticated request = true ->
   profile_follow request username db = (Raise Http404, db) /\
   profile_unfollow request username db = (Raise Http404, db)).
Proof.
  intros Hnone.
  assert (Hget : ORM.get_object_or_404 (users db)
                   (fun a => String.eqb (User.username a) username)
                 = Raise Http404).
  { apply get_object_or_404_missing. intros a Ha.
    apply String.eqb_neq. now apply Hnone. }
  split.
  - unfold profile. now rewrite Hget.
  - intros Hauth. unfold profile_follow, profile_unfollow, login_required.
    now rewrite Hauth, Hget.
Qed.

(** ** Keys *)

Lemma next_pk_above (pks : list Z) (k : Z) :
  In k pks -> k < ORM.next_pk pks.
Proof.
  intros Hin. unfold ORM.next_pk.
  assert (Hmax : k <= fold_right Z.max 0 pks).
  { induction pks as [| x pks IH]; [contradiction |].
    cbn [fold_right]. destruct Hin as [-> | Hin]; [lia |].
    specialize (IH Hin). lia. }
  lia.
Qed.

Lemma next_pk_fresh (pks : list Z) : ~ In (ORM.next_pk pks) pks.
Proof. intros Hin. apply next_pk_above in Hin. lia. Qed.

Lemma NoDup_snoc {A : Type} (l : list A) (x : A) :
  NoDup l -> ~ In x l -> NoDup (l ++ [x]).
Proof.
  intros Hnd Hx. apply Permutation_NoDup with (l := x :: l).
  - apply Permutation_cons_append.
  - now constructor.
Qed.

Lemma existsb_pk (l : list Post.t) (p : Post.t) :
  In p l -> existsb (fun q => Post.pk q =? Post.pk p) l = true.
Proof.
  intros Hin. apply existsb_exists. exists p. split; [exact Hin |].
  apply Z.eqb_refl.
Qed.

(** Replacing the row of a key keeps the column of keys. *)
Lemma replace_row_pks (l : list Post.t) (k : Z) (row : Post.t) :
  Post.pk row = k ->
  map Post.pk (map (fun q => if Post.pk q =? k then row else q) l)
  = map Post.pk l.
Proof.
  intros Hrow. rewrite map_map. apply map_ext. intros q.
  destruct (Post.pk q =? k) eqn:E; [| reflexivity].
  apply Z.eqb_eq in E. congruence.
Qed.

Section FormViewMore.

Variable PostForm_errors : QueryDict -> QueryDict -> list (string * string).
Variable PostForm_cleaned_data : QueryDict -> QueryDict -> PostFields.
Variable CommentForm_errors : QueryDict -> list (string * string).
Variable CommentForm_cleaned_data : QueryDict -> string.

(** X5. A key that no stored post has makes the detail page and the edit
    view raise [Http404], and the comment view too for a logged-in user,
    when the key is one the key column can hold (64 bits); a number beyond
    makes them raise [OverflowError] instead.  Either way the tables are
    left alone. *)
Theorem unknown_post_404 (db : DB) (request : HttpRequest.t) (post_id : Z) :
  (forall p, In p (posts db) -> Post.pk p <> post_id) ->
  let raised := if ORM.int64 post_id then Http404 else OverflowError in
  post_detail request post_id db = (Raise raised, db) /\
  post_edit PostForm_errors PostForm_cleaned_data request post_id db
  = (Raise raised, db) /\
  (HttpRequest.is_authenticated request = true ->
   add_comment CommentForm_errors CommentForm_cleaned_data request post_id db
   = (Raise raised, db)).
Proof.
  intros Hnone raised.
  assert (Hget : ORM.Post_get_or_404 db post_id = Raise raised).
  { unfold ORM.Post_get_or_404. rewrite get_object_or_404_missing.
    - subst raised. now destruct (ORM.int64 post_id).
    - intros p Hp. apply Z.eqb_neq. now apply Hnone. }
  split; [| split].
  - unfold post_detail. now rewrite Hget.
  - unfold post_edit. now rewrite Hget.
  - intros Hauth. unfold add_comment, login_required.
    now rewrite Hauth, Hget.
Qed.

(** *** Comments *)

(** The row a valid comment form makes for user [u] on post [p]. *)
Lemma add_comment_valid_run (db : DB) (request : HttpRequest.t) (u : User.t)
      (p : Post.t) :
  posts_pk_unique db ->
  In p (posts db) ->
  HttpRequest.user request = Some u ->
  CommentForm_is_valid CommentForm_errors
    (CommentForm.Build (or_None (HttpRequest.POST request)) Comment.new) = true ->
  add_comment CommentForm_errors CommentForm_cleaned_data request (Post.pk p) db
  = (Ret (redirect (reverse "posts:post_detail" [PyInt (Post.pk p)])),
     set_comments db
       (comments db ++
        [Comment.Build (ORM.next_pk (map Comment.pk (comments db)))
                       (Post.pk p) (User.pk u)
                       (CommentForm_cleaned_data
                          (or_empty (or_None (HttpRequest.POST request))))
                       (HttpRequest.now request)])).
Proof.
  intros Hpk Hp Huser Hok.
  unfold add_comment, login_required, HttpRequest.is_authenticated.
  rewrite Huser, (Post_get_by_pk db p Hpk Hp), Hok.
  unfold CommentForm_full_clean. rewrite Hok. reflexivity.
Qed.

(** X6. A valid comment submitted by a logged-in user [u] on a stored post
    [p] adds one comment row: its author is [u] and its post is [p],
    whatever was submitted, its text is the form's cleaned text and its
    time the clock's; the other tables are untouched and the answer is a
    redirect to the post's detail view. *)
Theorem add_comment_author_and_post (db : DB) (request : HttpRequest.t)
        (u : User.t) (p : Post.t) :
  posts_pk_unique db ->
  In p (posts db) ->
  HttpRequest.user request = Some u ->
  CommentForm_is_valid CommentForm_errors
    (CommentForm.Build (or_None (HttpRequest.POST request)) Comment.new) = true ->
  exists c,
    add_comment CommentForm_errors CommentForm_cleaned_data
                request (Post.pk p) db
    = (Ret (redirect (reverse "posts:post_detail" [PyInt (Post.pk p)])),
       set_comments db (comments db ++ [c])) /\
    Comment.author c = User.pk u /\
    Comment.post c = Post.pk p /\
    Comment.text c
    = CommentForm_cleaned_data (or_empty (or_None (HttpRequest.POST request))) /\
    Comment.pub_date c = HttpRequest.now request /\
    ~ In (Comment.pk c) (map Comment.pk (comments db)).
Proof.
  intros Hpk Hp Huser Hok. eexists. split.
  - now apply (add_comment_valid_run db request u p).
  - cbn [Comment.author Comment.post Comment.text Comment.pub_date Comment.pk].
    repeat (split; [reflexivity |]). apply next_pk_fresh.
Qed.

(** X7. After such a comment, the detail page of the post lists the
    comments it listed before and the new one, each once, in the order the
    database returns them. *)
Theorem comment_then_detail (db : DB) (request viewer : HttpRequest.t)
        (u : User.t) (p : Post.t) :
  posts_pk_unique db ->
  In p (posts db) ->
  HttpRequest.user request = Some u ->
  CommentForm_is_valid CommentForm_errors
    (CommentForm.Build (or_None (HttpRequest.POST request)) Comment.new) = true ->
  let db' := snd (add_comment CommentForm_errors CommentForm_cleaned_data
                              request (Post.pk p) db) in
  exists c listed,
    Comment.author c = User.pk u /\
    Comment.post c = Post.pk p /\
    fst (post_detail viewer (Post.pk p) db')
    = Ret (render "posts/post_detail.html"
                  [("post", VPost p);
                   ("comments", VComments listed);
                   ("form", VCommentForm (CommentForm.Build None Comment.new))])
    /\
    Permutation listed (c :: ORM.post_comments_all db p).
Proof.
  intros Hpk Hp Huser Hok db'. subst db'.
  rewrite (add_comment_valid_run db request u p Hpk Hp Huser Hok).
  cbn [snd].
  exists (Comment.Build (ORM.next_pk (map Comment.pk (comments db)))
                        (Post.pk p) (User.pk u)
                        (CommentForm_cleaned_data
                           (or_empty (or_None (HttpRequest.POST request))))
                        (HttpRequest.now request)).
  eexists.
  split; [reflexivity | split; [reflexivity | split]].
  - unfold post_detail.
    rewrite (Post_get_by_pk (set_comments db _) p Hpk Hp).
    cbn [bind fst]. reflexivity.
  - unfold ORM.post_comments_all. cbn [comments set_comments].
    rewrite !any_order_Permutation.
    rewrite filter_app. cbn [filter Comment.post]. rewrite Z.eqb_refl.
    symmetry. apply Permutation_cons_append.
Qed.

End FormViewMore.

(** ** Editing and creating posts *)

Section EditFacts.

Variable PostForm_errors : QueryDict -> QueryDict -> list (string * string).
Variable PostForm_cleaned_data : QueryDict -> QueryDict -> PostFields.

(** Saving the valid edit form of a stored post replaces its row. *)
Lemma edit_form_save (db : DB) (p : Post.t) (data files : option QueryDict)
      (now : Z) :
  In p (posts db) ->
  PostForm_is_valid PostForm_errors (PostForm.Build data files (Post.load p))
  = true ->
  PostForm_save PostForm_errors
    (PostForm_full_clean PostForm_errors PostForm_cleaned_data
       (PostForm.Build data files (Post.load p))) now db
  = Ret (set_posts db
           (map (fun q =>
                   if Post.pk q =? Post.pk p
                   then edited_row (PostForm_cleaned_data (or_empty data)
                                                          (or_empty files)) p
                   else q)
                (posts db))).
Proof.
  intros Hp Hok. unfold PostForm_save.
  rewrite PostForm_full_clean_errors, (PostForm_valid_no_errors _ _ Hok).
  unfold PostForm_full_clean. rewrite Hok.
  cbn [PostForm.instance PostForm.data PostForm.files].
  unfold ORM.Post_save, Post.load.
  cbn [Post.i_author Post.i_pk Post.i_pub_date Post.i_text Post.i_group
       Post.i_image].
  rewrite (existsb_pk (posts db) p Hp). reflexivity.
Qed.

(** What [post_edit] can do to the tables: nothing, or replace the row of
    a post whose author is the requester. *)
Lemma post_edit_tables (db : DB) (request : HttpRequest.t) (post_id : Z) :
  snd (post_edit PostForm_errors PostForm_cleaned_data request post_id db) = db
  \/
  exists p u c,
    In p (posts db) /\ Post.pk p = post_id /\
    HttpRequest.user request = Some u /\ User.pk u = Post.author p /\
    snd (post_edit PostForm_errors PostForm_cleaned_data request post_id db)
    = set_posts db
        (map (fun q => if Post.pk q =? Post.pk p then edited_row c p else q)
             (posts db)).
Proof.
  unfold post_edit.
  destruct (ORM.Post_get_or_404 db post_id) as [p | e] eqn:Hget; [| now left].
  apply Post_get_stored in Hget. destruct Hget as [Hp Hk].
  destruct (user_ne (HttpRequest.user request) (Post.author p)) eqn:Hne;
    [now left |].
  destruct (String.eqb (HttpRequest.method request) "POST"); [| now left].
  destruct (PostForm_is_valid PostForm_errors _) eqn:Hok; [| now left].
  right.
  destruct (HttpRequest.user request) as [u |] eqn:Huser; [| discriminate].
  cbn [user_ne] in Hne. apply negb_false_iff, Z.eqb_eq in Hne.
  exists p, u. eexists.
  rewrite (edit_form_save db p _ _ (HttpRequest.now request) Hp Hok).
  cbn [snd]. subst post_id. repeat split; trivial.
Qed.

(** X8. A valid edit submitted by the author of a stored post [p] replaces
    the row of [p]: the new row has the form's cleaned fields and keeps the
    key, the author and the creation time of [p]; looking the post up
    afterwards gives the new row; every other post is still there and the
    number of posts is the same. *)
Theorem post_edit_by_author (db : DB) (request : HttpRequest.t) (u : User.t)
        (p : Post.t) :
  posts_pk_unique db ->
  In p (posts db) ->
  HttpRequest.user request = Some u ->
  User.pk u = Post.author p ->
  HttpRequest.method request = "POST" ->
  PostForm_is_valid PostForm_errors
    (PostForm.Build (or_None (HttpRequest.POST request))
                    (or_None (HttpRequest.FILES request)) (Post.load p)) = true ->
  let c := PostForm_cleaned_data
             (or_empty (or_None (HttpRequest.POST request)))
             (or_empty (or_None (HttpRequest.FILES request))) in
  exists db',
    post_edit PostForm_errors PostForm_cleaned_data request (Post.pk p) db
    = (Ret (redirect (reverse "posts:post_detail" [PyInt (Post.pk p)])), db') /\
    ORM.get_object_or_404 (posts db') (fun q => Post.pk q =? Post.pk p)
    = Ret (edited_row c p) /\
    Post.text (edited_row c p) = cleaned_text c /\
    Post.author (edited_row c p) = Post.author p /\
    Post.pub_date (edited_row c p) = Post.pub_date p /\
    (forall q, In q (posts db) -> Post.pk q <> Post.pk p -> In q (posts db')) /\
    length (posts db') = length (posts db) /\
    comments db' = comments db /\ follows db' = follows db.
Proof.
  intros Hpk Hp Huser Hauthor Hmethod Hok c.
  apply String.eqb_eq in Hmethod.
  eexists. split.
  - unfold post_edit. rewrite (Post_get_by_pk db p Hpk Hp), Huser.
    cbn [user_ne]. rewrite Hauthor, Z.eqb_refl. cbn [negb].
    rewrite Hmethod, Hok.
    rewrite (edit_form_save db p _ _ (HttpRequest.now request) Hp Hok).
    reflexivity.
  - fold c. cbn [posts comments follows set_posts].
    split; [| repeat split].
    + apply (get_object_or_404_the_one Post.pk).
      * intros x y Hx Hy. apply Z.eqb_eq in Hx, Hy. congruence.
      * rewrite replace_row_pks by reflexivity. exact Hpk.
      * apply in_map_iff. exists p. split; [| exact Hp].
        now rewrite Z.eqb_refl.
      * apply Z.eqb_refl.
    + intros q Hq Hne. apply in_map_iff. exists q. split; [| exact Hq].
      apply Z.eqb_neq in Hne. now rewrite Hne.
    + apply length_map.
Qed.

(** X9. Whatever is submitted to the edit view, and for whatever post, a
    stored post whose author is not the requester is still there, as it
    was, afterwards. *)
Theorem post_edit_spares_others (db : DB) (request : HttpRequest.t)
        (post_id : Z) (q : Post.t) :
  posts_pk_unique db ->
  In q (posts db) ->
  (forall u, HttpRequest.user request = Some u -> User.pk u <> Post.author q) ->
  In q (posts (snd (post_edit PostForm_errors PostForm_cleaned_data
                              request post_id db))).
Proof.
  intros Hpk Hq Hother.
  destruct (post_edit_tables db request post_id)
    as [-> | (p & u & c & Hp & Hk & Huser & Hauthor & ->)]; [exact Hq |].
  cbn [posts set_posts]. apply in_map_iff. exists q. split; [| exact Hq].
  destruct (Post.pk q =? Post.pk p) eqn:E; [| reflexivity].
  apply Z.eqb_eq in E.
  assert (Hqp : q = p)
    by (apply (NoDup_map_In_eq Post.pk (posts db)); trivial).
  subst q. exfalso. now apply (Hother u Huser).
Qed.

(** What [post_create] can do to the tables: nothing, or add one post
    under a fresh key. *)
Lemma post_create_tables (db : DB) (request : HttpRequest.t) :
  snd (post_create PostForm_errors PostForm_cleaned_data request tt db) = db
  \/
  exists new,
    snd (post_create PostForm_errors PostForm_cleaned_data request tt db)
    = set_posts db (posts db ++ [new]) /\
    Post.pk new = ORM.next_pk (map Post.pk (posts db)).
Proof.
  unfold post_create, login_required, HttpRequest.is_authenticated.
  destruct (HttpRequest.user request) as [u |]; [| now left].
  destruct (String.eqb (HttpRequest.method request) "POST"); [| now left].
  destruct (PostForm_is_valid PostForm_errors _) eqn:Hok; [| now left].
  right.
  rewrite (PostForm_save_no_commit_valid _ PostForm_cleaned_data _ Hok).
  rewrite (PostForm_save_valid _ PostForm_cleaned_data _ u
             (HttpRequest.now request) db Hok).
  unfold PostForm_set_author, PostForm_full_clean. rewrite Hok.
  cbn [PostForm.instance PostForm.data PostForm.files].
  unfold ORM.Post_save.
  cbn [Post.i_author Post.i_pk Post.i_pub_date CreatedModel.auto_now_add
       Post.i_text Post.i_group Post.i_image Post.new].
  eexists. split; reflexivity.
Qed.

(** X10. Creating and editing keep the post keys unique, whatever the
    request: a new post gets a key that no stored post has, and an edit
    does not touch the keys. *)
Theorem post_keys_stay_unique (db : DB) (request : HttpRequest.t) (post_id : Z) :
  posts_pk_unique db ->
  posts_pk_unique
    (snd (post_create PostForm_errors PostForm_cleaned_data request tt db)) /\
  posts_pk_unique
    (snd (post_edit PostForm_errors PostForm_cleaned_data request post_id db)).
Proof.
  intros Hpk. split.
  - destruct (post_create_tables db request) as [-> | (new & -> & Hnew)];
      [exact Hpk |].
    unfold posts_pk_unique. cbn [posts set_posts]. rewrite map_app.
    cbn [map]. apply NoDup_snoc; [exact Hpk |].
    rewrite Hnew. apply next_pk_fresh.
  - destruct (post_edit_tables db request post_id)
      as [-> | (p & u & c & _ & _ & _ & _ & ->)]; [exact Hpk |].
    unfold posts_pk_unique. cbn [posts set_posts].
    now rewrite replace_row_pks.
Qed.

End EditFacts.

(** ** The follow table under follow and unfollow *)

Lemma set_follows_same (db : DB) : set_follows db (follows db) = db.
Proof. now destruct db. Qed.

Lemma filter_out_none (u a : User.t) (l : list Follow.t) :
  filter (follow_matches u a) l = [] ->
  filter (fun f => negb (follow_matches u a f)) l = l.
Proof.
  induction l as [| f l IH]; cbn [filter]; [reflexivity |].
  destruct (follow_matches u a f); cbn [negb]; [discriminate |].
  intros Hl. now rewrite IH.
Qed.

Lemma NoDup_map_filter {A K : Type} (key : A -> K) (keep : A -> bool)
      (l : list A) :
  NoDup (map key l) -> NoDup (map key (filter keep l)).
Proof.
  induction l as [| x l IH]; cbn [map filter]; intros Hnd; [constructor |].
  apply NoDup_cons_iff in Hnd. destruct Hnd as [Hx Hnd].
  destruct (keep x); cbn [map]; [| now apply IH].
  constructor; [| now apply IH].
  intros Hin. apply Hx. apply in_map_iff in Hin.
  destruct Hin as (y & Hy & Hyl). apply filter_In in Hyl.
  rewrite <- Hy. apply in_map. tauto.
Qed.

Lemma Follow_filter_delete_In (db : DB) (u a : User.t) (f : Follow.t) :
  In f (follows (ORM.Follow_filter_delete db u a)) <->
  In f (follows db) /\
  ~ (Follow.user f = User.pk u /\ Follow.author f = User.pk a).
Proof.
  unfold ORM.Follow_filter_delete. cbn [follows set_follows].
  rewrite filter_In, negb_true_iff, andb_false_iff, !Z.eqb_neq.
  split; intros [Hin Hkeep]; (split; [exact Hin |]).
  - intros [Hu Ha]. destruct Hkeep; contradiction.
  - destruct (Z.eq_dec (Follow.user f) (User.pk u)) as [Hu | Hu];
      [right | left; exact Hu].
    intros Ha. apply Hkeep. now split.
Qed.

(** What [profile_follow] can do to the tables: nothing, or add one row
    from the requester to the named user, who is another user and was not
    followed yet. *)
Lemma profile_follow_tables (db : DB) (request : HttpRequest.t)
      (username : string) :
  snd (profile_follow request username db) = db \/
  exists u a row,
    HttpRequest.user request = Some u /\
    In a (users db) /\ User.username a = username /\
    User.username u <> username /\
    ORM.Follow_filter db u a = [] /\
    follow_key row = (User.pk u, User.pk a) /\
    snd (profile_follow request username db)
    = set_follows db (follows db ++ [row]).
Proof.
  unfold profile_follow, login_required, HttpRequest.is_authenticated.
  destruct (HttpRequest.user request) as [u |]; [| now left].
  destruct (ORM.get_object_or_404 (users db) _) as [a | e] eqn:Hget;
    [| now left].
  apply get_object_or_404_found in Hget. destruct Hget as [Ha Hname].
  apply String.eqb_eq in Hname.
  destruct (String.eqb (User.username u) username) eqn:Esame; [now left |].
  destruct (ORM.exists_ (ORM.Follow_filter db u a)) eqn:Efollow; [now left |].
  cbn [negb andb]. apply exists_false_nil in Efollow.
  destruct (Follow_create_new db u a Efollow) as (row & Hcreate & Hrow).
  rewrite Hcreate. right. exists u, a, row.
  apply String.eqb_neq in Esame. repeat split; trivial.
Qed.

(** What [profile_unfollow] can do to the tables: nothing, or delete the
    rows from the requester to the named user. *)
Lemma profile_unfollow_tables (db : DB) (request : HttpRequest.t)
      (username : string) :
  snd (profile_unfollow request username db) = db \/
  exists u a,
    HttpRequest.user request = Some u /\
    In a (users db) /\ User.username a = username /\
    snd (profile_unfollow request username db)
    = ORM.Follow_filter_delete db u a.
Proof.
  unfold profile_unfollow, login_required, HttpRequest.is_authenticated.
  destruct (HttpRequest.user request) as [u |]; [| now left].
  destruct (ORM.get_object_or_404 (users db) _) as [a | e] eqn:Hget;
    [| now left].
  apply get_object_or_404_found in Hget. destruct Hget as [Ha Hname].
  apply String.eqb_eq in Hname.
  right. exists u, a. repeat split; trivial.
Qed.

(** The tables after user [u] asked to follow another user [a]. *)
Lemma profile_follow_run (db : DB) (request : HttpRequest.t) (u a : User.t) :
  users_username_unique db ->
  In a (users db) ->
  HttpRequest.user request = Some u ->
  User.username u <> User.username a ->
  (ORM.Follow_filter db u a <> [] /\
   snd (profile_follow request (User.username a) db) = db) \/
  (ORM.Follow_filter db u a = [] /\
   exists row,
     follow_key row = (User.pk u, User.pk a) /\
     snd (profile_follow request (User.username a) db)
     = set_follows db (follows db ++ [row])).
Proof.
  intros Hnames Ha Huser Hne.
  unfold profile_follow, login_required, HttpRequest.is_authenticated.
  rewrite Huser, (get_user_by_username db a Hnames Ha).
  apply String.eqb_neq in Hne. rewrite Hne. cbn [negb andb].
  destruct (ORM.Follow_filter db u a) as [| f r] eqn:Efilter.
  - right. split; [reflexivity |].
    destruct (Follow_create_new db u a Efilter) as (row & Hcreate & Hrow).
    cbn [ORM.exists_ negb]. rewrite Hcreate. exists row. now split.
  - left. split; [discriminate | reflexivity].
Qed.

(** X11. Following and then unfollowing undoes itself: when [u] did not
    follow [a], a follow request by [u] for [a] followed by an unfollow
    request leaves the tables exactly as they were at the start. *)
Theorem follow_then_unfollow (db : DB) (request request' : HttpRequest.t)
        (u a : User.t) :
  users_username_unique db ->
  In a (users db) ->
  HttpRequest.user request = Some u ->
  HttpRequest.user request' = Some u ->
  User.username u <> User.username a ->
  ORM.Follow_filter db u a = [] ->
  snd (profile_unfollow request' (User.username a)
         (snd (profile_follow request (User.username a) db))) = db.
Proof.
  intros Hnames Ha Huser Huser' Hne Hnil.
  destruct (profile_follow_run db request u a Hnames Ha Huser Hne)
    as [[Hsome _] | [_ (row & Hrow & ->)]]; [contradiction |].
  unfold profile_unfollow, login_required, HttpRequest.is_authenticated.
  rewrite Huser'. cbn [users set_follows].
  rewrite (get_user_by_username db a Hnames Ha). cbn [snd].
  unfold ORM.Follow_filter_delete. cbn [follows set_follows users groups posts
                                          comments].
  rewrite filter_app. fold (follow_matches u a).
  change (fun f => negb ((Follow.user f =? User.pk u)
                         && (Follow.author f =? User.pk a)))
    with (fun f => negb (follow_matches u a f)).
  rewrite (filter_out_none u a (follows db) Hnil).
  cbn [filter]. apply (follow_matches_key u a) in Hrow. rewrite Hrow.
  cbn [negb]. rewrite app_nil_r. now destruct db.
Qed.

(** X12. Once [u] has asked to follow another user [a], every stored post
    by [a] is in the followed-authors feed of [u], and the profile page of
    [a] shows [u] the [following] flag set. *)
Theorem follow_shows_in_feed (db : DB) (request viewer : HttpRequest.t)
        (u a : User.t) :
  users_username_unique db ->
  In a (users db) ->
  HttpRequest.user request = Some u ->
  HttpRequest.user viewer = Some u ->
  User.username u <> User.username a ->
  let db1 := snd (profile_follow request (User.username a) db) in
  (forall p, In p (posts db) -> Post.author p = User.pk a ->
             In p (ORM.Post_filter_following db1 u)) /\
  exists page_obj,
    fst (profile viewer (User.username a) db1)
    = Ret (render "posts/profile.html"
                  [("author", VUser a); ("page_obj", VPage page_obj);
                   ("following", VBool true)]).
Proof.
  intros Hnames Ha Huser Hviewer Hne db1.
  assert (Hsame : users db1 = users db /\ posts db1 = posts db).
  { subst db1.
    destruct (profile_follow_run db request u a Hnames Ha Huser Hne)
      as [[_ ->] | [_ (row & _ & ->)]]; now split. }
  destruct Hsame as [Husers Hposts].
  assert (Hrow : exists f, In f (ORM.Follow_filter db1 u a)).
  { subst db1.
    destruct (profile_follow_run db request u a Hnames Ha Huser Hne)
      as [[Hsome ->] | [Hnil (row & Hkey & ->)]].
    - destruct (ORM.Follow_filter db u a) as [| f r]; [contradiction |].
      exists f. now left.
    - rewrite (Follow_filter_after_create db u a row Hnil Hkey).
      exists row. now left. }
  destruct Hrow as [f Hf]. split.
  - intros p Hp Hauthor. apply Post_filter_following_In.
    rewrite Hposts. split; [exact Hp |].
    apply Follow_filter_In in Hf. exists f. rewrite Hauthor. tauto.
  - destruct (get_paginator_total viewer (ORM.author_posts_all db1 a))
      as [page_obj Hpg].
    exists page_obj. unfold profile. rewrite Husers.
    rewrite (get_user_by_username db a Hnames Ha). cbn [bind].
    rewrite Hpg, Hviewer. cbn [bind fst].
    destruct (ORM.Follow_filter db1 u a); [contradiction | reflexivity].
Qed.

(** X13. Once [u] has asked to unfollow [a], no post by [a] is in the
    followed-authors feed of [u]; the posts by other authors are in it
    exactly when they were before, and the feeds of other users are what
    they were. *)
Theorem unfollow_hides_from_feed (db : DB) (request : HttpRequest.t)
        (u a : User.t) :
  users_username_unique db ->
  In a (users db) ->
  HttpRequest.user request = Some u ->
  let db1 := snd (profile_unfollow request (User.username a) db) in
  (forall p, Post.author p = User.pk a ->
             ~ In p (ORM.Post_filter_following db1 u)) /\
  (forall p, Post.author p <> User.pk a ->
             (In p (ORM.Post_filter_following db1 u) <->
              In p (ORM.Post_filter_following db u))) /\
  (forall v p, User.pk v <> User.pk u ->
               (In p (ORM.Post_filter_following db1 v) <->
                In p (ORM.Post_filter_following db v))).
Proof.
  intros Hnames Ha Huser db1.
  assert (Hdb1 : db1 = ORM.Follow_filter_delete db u a).
  { subst db1. unfold profile_unfollow, login_required,
      HttpRequest.is_authenticated.
    now rewrite Huser, (get_user_by_username db a Hnames Ha). }
  rewrite Hdb1. clear db1 Hdb1.
  assert (Hposts : posts (ORM.Follow_filter_delete db u a) = posts db)
    by reflexivity.
  split; [| split].
  - intros p Hauthor Hin. apply Post_filter_following_In in Hin.
    destruct Hin as (_ & f & Hf & Hfu & Hfa).
    apply Follow_filter_delete_In in Hf. destruct Hf as [_ Hkeep].
    apply Hkeep. split; congruence.
  - intros p Hauthor. rewrite !Post_filter_following_In, Hposts.
    split; intros (Hp & f & Hf & Hfu & Hfa); (split; [exact Hp |]);
      exists f; (split; [| now split]).
    + now apply Follow_filter_delete_In in Hf.
    + apply Follow_filter_delete_In. split; [exact Hf |].
      intros [_ Hbad]. congruence.
  - intros v p Hv. rewrite !Post_filter_following_In, Hposts.
    split; intros (Hp & f & Hf & Hfu & Hfa); (split; [exact Hp |]);
      exists f; (split; [| now split]).
    + now apply Follow_filter_delete_In in Hf.
    + apply Follow_filter_delete_In. split; [exact Hf |].
      intros [Hbad _]. congruence.
Qed.

(** X14. Whatever user is named, a follow request removes no [Follow] row
    and adds none but rows from the requester to a stored user of that
    name; an unfollow request adds no row and removes none but rows of the
    requester; neither touches users, groups, posts or comments. *)
Theorem follow_requests_frame (db : DB) (request : HttpRequest.t)
        (username : string) :
  let followed := snd (profile_follow request username db) in
  let unfollowed := snd (profile_unfollow request username db) in
  (forall f, In f (follows db) -> In f (follows followed)) /\
  (forall f, In f (follows followed) ->
             In f (follows db) \/
             exists u a,
               HttpRequest.user request = Some u /\ In a (users db) /\
               User.username a = username /\
               Follow.user f = User.pk u /\ Follow.author f = User.pk a) /\
  (forall f, In f (follows unfollowed) -> In f (follows db)) /\
  (forall f, In f (follows db) ->
             (forall u, HttpRequest.user request = Some u ->
                        Follow.user f <> User.pk u) ->
             In f (follows unfollowed)) /\
  (users followed, groups followed, posts followed, comments followed)
  = (users db, groups db, posts db, comments db) /\
  (users unfollowed, groups unfollowed, posts unfollowed, comments unfollowed)
  = (users db, groups db, posts db, comments db).
Proof.
  intros followed unfollowed. subst followed unfollowed.
  destruct (profile_follow_tables db request username)
    as [-> | (u & a & row & Huser & Ha & Hname & _ & _ & Hrow & ->)];
    destruct (profile_unfollow_tables db request username)
    as [-> | (u' & a' & Huser' & Ha' & Hname' & ->)];
    cbn [follows users groups posts comments set_follows
         ORM.Follow_filter_delete].
  - repeat split; auto.
  - repeat split; auto.
    + intros f Hf. apply (Follow_filter_delete_In db u' a') in Hf. tauto.
    + intros f Hf Hother. apply (Follow_filter_delete_In db u' a').
      split; [exact Hf |]. intros [Hbad _]. now apply (Hother u' Huser').
  - repeat split; auto.
    + intros f Hf. apply in_or_app. now left.
    + intros f Hf. apply in_app_or in Hf.
      destruct Hf as [Hf | [<- | []]]; [now left | right].
      exists u, a. injection Hrow as Hu Hauthor. repeat split; trivial.
  - repeat split; auto.
    + intros f Hf. apply in_or_app. now left.
    + intros f Hf. apply in_app_or in Hf.
      destruct Hf as [Hf | [<- | []]]; [now left | right].
      exists u, a. injection Hrow as Hu Hauthor. repeat split; trivial.
    + intros f Hf. apply (Follow_filter_delete_In db u' a') in Hf. tauto.
    + intros f Hf Hother. apply (Follow_filter_delete_In db u' a').
      split; [exact Hf |]. intros [Hbad _]. now apply (Hother u' Huser').
Qed.

(** X15. Nobody comes to follow themself: when no [Follow] row has equal
    [user] and [author], a follow request by a stored user leaves none,
    whatever user is named. *)
Theorem follow_never_self (db : DB) (request : HttpRequest.t) (u : User.t)
        (username : string) :
  users_pk_unique db ->
  In u (users db) ->
  HttpRequest.user request = Some u ->
  no_self_follow db ->
  no_self_follow (snd (profile_follow request username db)).
Proof.
  intros Hpk Hu Huser Hnone.
  destruct (profile_follow_tables db request username)
    as [-> | (u' & a & row & Huser' & Ha & Hname & Hne & _ & Hrow & ->)];
    [exact Hnone |].
  rewrite Huser in Huser'. apply (f_equal (fun o => match o with
                                                    | Some x => x
                                                    | None => u
                                                    end)) in Huser'.
  subst u'. intros f Hf. cbn [follows set_follows] in Hf.
  apply in_app_or in Hf. destruct Hf as [Hf | [<- | []]]; [now apply Hnone |].
  injection Hrow as -> ->. intros Heq. apply Hne.
  rewrite (NoDup_map_In_eq User.pk (users db) u a Hpk Hu Ha Heq).
  exact Hname.
Qed.

(** X16. [unique_together] is kept by the follow and the unfollow view for
    every request: a pair of user and author never comes to have two
    rows. *)
Theorem follow_pairs_stay_unique (db : DB) (request : HttpRequest.t)
        (username : string) :
  follows_unique_together db ->
  follows_unique_together (snd (profile_follow request username db)) /\
  follows_unique_together (snd (profile_unfollow request username db)).
Proof.
  intros Hpairs. split.
  - destruct (profile_follow_tables db request username)
      as [-> | (u & a & row & _ & _ & _ & _ & Hnil & Hrow & ->)];
      [exact Hpairs |].
    now apply (unique_together_after_create db u a).
  - destruct (profile_unfollow_tables db request username)
      as [-> | (u & a & _ & _ & _ & ->)]; [exact Hpairs |].
    unfold follows_unique_together, ORM.Follow_filter_delete.
    cbn [follows set_follows]. now apply NoDup_map_filter.
Qed.

(** ** All the pages of a feed *)

Lemma firstn_plus {A : Type} (a b : nat) (l : list A) :
  firstn (a + b) l = firstn a l ++ firstn b (skipn a l).
Proof.
  revert l. induction a as [| a IH]; intros l; [reflexivity |].
  destruct l as [| x l]; cbn [Nat.add firstn skipn app].
  - now rewrite firstn_nil.
  - now rewrite IH.
Qed.

Lemma firstn_le_In {A : Type} (a b : nat) (l : list A) (x : A) :
  (a <= b)%nat -> In x (firstn a l) -> In x (firstn b l).
Proof.
  intros Hle Hin. replace b with (a + (b - a))%nat by lia.
  rewrite firstn_plus. apply in_or_app. now left.
Qed.

Section AllPages.
Context {A : Type}.
Variable l : list A.

Let P := Paginator.Paginator l NUMBER_OF_POSTS.

Lemma page_items_in_range (n : Z) :
  1 <= n <= Paginator.num_pages P ->
  page_items P n = firstn 10 (skipn (Z.to_nat (10 * (n - 1))) l).
Proof.
  intros Hn. unfold page_items, P. now rewrite (page_in_range l n Hn).
Qed.

Lemma page_items_out_of_range (n : Z) :
  ~ (1 <= n <= Paginator.num_pages P) -> page_items P n = [].
Proof.
  intros Hn. pose proof (num_pages_ge_1 l) as H1. fold P in H1.
  unfold page_items, Paginator.page, Paginator.validate_number.
  cbn [PyInt.int].
  destruct (n <? 1) eqn:E1; [reflexivity |].
  apply Z.ltb_ge in E1.
  replace (n >? Paginator.num_pages P) with true
    by (symmetry; rewrite Z.gtb_ltb; apply Z.ltb_lt; lia).
  replace (n =? 1) with false by (symmetry; apply Z.eqb_neq; lia).
  reflexivity.
Qed.

(** The first [N] pages, one after the other, are the first [10 * N]
    items. *)
Lemma pages_upto (N : nat) :
  (N <= Z.to_nat (Paginator.num_pages P))%nat ->
  flat_map (page_items P) (map Z.of_nat (seq 1 N)) = firstn (10 * N) l.
Proof.
  induction N as [| N IH]; intros HN; [reflexivity |].
  rewrite seq_S, map_app, flat_map_app, IH by lia.
  cbn [map flat_map]. rewrite app_nil_r.
  rewrite page_items_in_range by lia.
  replace (Z.to_nat (10 * (Z.of_nat (1 + N) - 1))) with (10 * N)%nat by lia.
  replace (10 * S N)%nat with (10 * N + 10)%nat by lia.
  now rewrite firstn_plus.
Qed.

Lemma pages_concat :
  flat_map (page_items P) (Paginator_page_range P) = l.
Proof.
  unfold Paginator_page_range. rewrite pages_upto by lia.
  apply firstn_all2. pose proof (num_pages_bounds l) as Hb. fold P in Hb.
  lia.
Qed.

End AllPages.

Lemma insert_desc_Permutation {A : Type} (key : A -> Z) (x : A) (l : list A) :
  Permutation (ORM.insert_desc key x l) (x :: l).
Proof.
  induction l as [| y l IH]; cbn [ORM.insert_desc]; [reflexivity |].
  destruct (key y <=? key x); [reflexivity |].
  rewrite IH. apply perm_swap.
Qed.

Lemma order_by_desc_Permutation {A : Type} (key : A -> Z) (l : list A) :
  Permutation (ORM.order_by_desc key l) l.
Proof.
  induction l as [| x l IH]; cbn [ORM.order_by_desc fold_right];
    [reflexivity |].
  rewrite insert_desc_Permutation. now apply perm_skip.
Qed.

(** X17. The pages of a collection paginated ten a page, taken in the
    order of [page_range], hold the collection from its first post to its
    last: no post is left out, repeated or moved; and [page] raises
    [EmptyPage] for every number outside [page_range]. *)
Theorem pages_partition (post_list : list Post.t) :
  let paginator := Paginator.Paginator post_list NUMBER_OF_POSTS in
  flat_map (page_items paginator) (Paginator_page_range paginator) = post_list /\
  forall n, ~ (1 <= n <= Paginator.num_pages paginator) ->
            Paginator.page paginator (PyInt n) = Raise EmptyPage.
Proof.
  intros paginator. split; [apply pages_concat |].
  intros n Hn. pose proof (num_pages_ge_1 post_list) as H1.
  fold paginator in H1.
  unfold Paginator.page, Paginator.validate_number. cbn [PyInt.int].
  destruct (n <? 1) eqn:E1; [reflexivity |].
  apply Z.ltb_ge in E1.
  replace (n >? Paginator.num_pages paginator) with true
    by (symmetry; rewrite Z.gtb_ltb; apply Z.ltb_lt; lia).
  replace (n =? 1) with false by (symmetry; apply Z.eqb_neq; lia).
  reflexivity.
Qed.

Lemma In_page_range {A : Type} (paginator : Paginator.t A) (n : Z) :
  In n (Paginator_page_range paginator) <->
  1 <= n <= Paginator.num_pages paginator.
Proof.
  unfold Paginator_page_range. rewrite in_map_iff. split.
  - intros (k & <- & Hk). apply in_seq in Hk. lia.
  - intros Hn. exists (Z.to_nat n). split; [lia |]. apply in_seq. lia.
Qed.

(** X18. The pages of the index show every stored post exactly once: asked
    for a page of [page_range] by its number, and not answering from its
    cache, the index renders that page of all posts; and these pages, one
    after the other, hold each stored post once (the table counting fewer
    than 2^63 posts). *)
Theorem index_shows_each_post_once (db : DB) (cache : Cache) :
  Z.of_nat (length (posts db)) < 2 ^ 63 ->
  let paginator :=
    Paginator.Paginator (ORM.Post_objects_all db) NUMBER_OF_POSTS in
  (forall n request,
      In n (Paginator_page_range paginator) ->
      QueryDict_get (HttpRequest.GET request) "page" = PyStr (str_of_int n) ->
      cache_lookup "index_page" request cache = None ->
      fst (fst (index request cache db))
      = Ret (render "posts/index.html"
                    [("page_obj",
                      VPage (Paginator.BuildPage (page_items paginator n) n
                                                 paginator))])) /\
  Permutation
    (flat_map (page_items paginator) (Paginator_page_range paginator))
    (posts db).
Proof.
  intros Hsize paginator. split.
  - intros n request Hn Hpage Hmiss. apply In_page_range in Hn.
    pose proof (index_cases request cache db) as Hcases.
    rewrite Hmiss in Hcases. rewrite Hcases.
    unfold index_wrapped. cbn [fst].
    rewrite (get_paginator_numbered request (ORM.Post_objects_all db) n);
      [| unfold ORM.Post_objects_all, ORM.Post_ordering;
         now rewrite order_by_desc_length
       | exact Hn | exact Hpage].
    unfold paginator. rewrite (page_items_in_range _ n Hn). reflexivity.
  - subst paginator. rewrite pages_concat.
    apply order_by_desc_Permutation.
Qed.

(** X19. With no post stored, every feed still renders (the index, when
    it does not answer from its cache): page 1, the only page, with
    nothing on it, whatever page was asked for. *)
Theorem empty_feed_renders (scope : Scope) (request : HttpRequest.t)
        (cache : Cache) (db : DB) (post_list : list Post.t) :
  posts db = [] ->
  scope_posts scope request db = Some post_list ->
  (scope = AllPosts -> cache_lookup "index_page" request cache = None) ->
  post_list = [] /\
  exists page_obj,
    page_obj_of (fst (fst (feed_served scope request cache db)))
    = Some page_obj /\
    Paginator.page_object_list page_obj = [] /\
    Paginator.number page_obj = 1 /\
    Paginator.num_pages (Paginator.paginator page_obj) = 1.
Proof.
  intros Hposts Hscope Hmiss.
  assert (Hnil : post_list = []).
  { destruct scope as [| slug | username |]; cbn [scope_posts] in Hscope.
    - injection Hscope as <-. unfold ORM.Post_objects_all. now rewrite Hposts.
    - destruct (ORM.get_object_or_404 _ _); [| discriminate].
      injection Hscope as <-. unfold ORM.group_posts_all. now rewrite Hposts.
    - destruct (ORM.get_object_or_404 _ _); [| discriminate].
      injection Hscope as <-. unfold ORM.author_posts_all. now rewrite Hposts.
    - destruct (HttpRequest.user request); [| discriminate].
      injection Hscope as <-. unfold ORM.Post_filter_following.
      now rewrite Hposts. }
  split; [exact Hnil |]. subst post_list.
  rewrite (feed_served_miss scope request cache db Hmiss).
  destruct (get_paginator_cases request []) as [Hn Hpg].
  cbv zeta in Hn, Hpg.
  change (Paginator.num_pages (Paginator.Paginator [] NUMBER_OF_POSTS))
    with 1 in Hn, Hpg.
  eexists. split; [apply feed_paginates; eauto |].
  cbv beta iota delta [Paginator.page_object_list Paginator.number
                       Paginator.paginator].
  split; [| split; [lia | reflexivity]].
  rewrite skipn_nil. apply firstn_nil.
Qed.

(** ** More on the order and content of the feeds *)

Lemma newer_first_trans {A : Type} (key : A -> Z) :
  RelationClasses.Transitive (newer_first key).
Proof. intros x y z. unfold newer_first. lia. Qed.

Lemma StronglySorted_app_order {A : Type} (R : A -> A -> Prop)
      (l1 l2 : list A) (x y : A) :
  StronglySorted R (l1 ++ l2) -> In x l1 -> In y l2 -> R x y.
Proof.
  induction l1 as [| z l1 IH]; cbn [app]; intros Hs Hx Hy; [contradiction |].
  apply StronglySorted_inv in Hs. destruct Hs as [Hs Hall].
  destruct Hx as [-> | Hx]; [| now apply IH].
  rewrite Forall_forall in Hall. apply Hall. apply in_or_app. now right.
Qed.

(** X20. Across the pages of a feed the order holds too: a post on an
    earlier page is not older than a post on a later page. *)
Theorem pages_in_order (scope : Scope) (request : HttpRequest.t) (db : DB)
        (post_list : list Post.t) (m n : Z) (p q : Post.t) :
  scope_posts scope request db = Some post_list ->
  m < n ->
  let paginator := Paginator.Paginator post_list NUMBER_OF_POSTS in
  In p (page_items paginator m) ->
  In q (page_items paginator n) ->
  Post.pub_date q <= Post.pub_date p.
Proof.
  intros Hscope Hmn paginator Hp Hq. subst paginator.
  apply scope_posts_Sorted in Hscope.
  apply (Sorted_StronglySorted (newer_first_trans Post.pub_date)) in Hscope.
  destruct (Z_le_dec 1 m) as [Hm1 |];
    [| rewrite page_items_out_of_range in Hp by lia; contradiction].
  destruct (Z_le_dec n (Paginator.num_pages
                          (Paginator.Paginator post_list NUMBER_OF_POSTS)))
    as [Hn |];
    [| rewrite page_items_out_of_range in Hq by lia; contradiction].
  rewrite page_items_in_range in Hp, Hq by lia.
  set (b := Z.to_nat (10 * (n - 1))) in *.
  set (a := Z.to_nat (10 * (m - 1))) in *.
  assert (Hp' : In p (firstn b post_list)).
  { apply (firstn_le_In (a + 10) b); [lia |].
    rewrite firstn_plus. apply in_or_app. now right. }
  assert (Hq' : In q (skipn b post_list)).
  { rewrite <- (firstn_skipn 10 (skipn b post_list)).
    apply in_or_app. now left. }
  rewrite <- (firstn_skipn b post_list) in Hscope.
  exact (StronglySorted_app_order _ _ _ p q Hscope Hp' Hq').
Qed.

(** Joining posts with the [Follow] rows of one follower gives each post
    once or not at all when the pairs are unique. *)
Lemma following_join_is_filter (db : DB) (u : User.t) (l : list Post.t) :
  follows_unique_together db ->
  flat_map
    (fun p =>
       map (fun _ => p)
           (filter (fun f => (Follow.author f =? Post.author p)
                             && (Follow.user f =? User.pk u))
                   (follows db))) l
  = filter
      (fun p =>
         ORM.exists_
           (filter (fun f => (Follow.author f =? Post.author p)
                             && (Follow.user f =? User.pk u))
                   (follows db))) l.
Proof.
  intros Hpairs. induction l as [| p l IH]; [reflexivity |].
  cbn [flat_map filter]. rewrite IH.
  set (rows := filter (fun f => (Follow.author f =? Post.author p)
                                && (Follow.user f =? User.pk u))
                      (follows db)).
  assert (Hone : (length rows <= 1)%nat).
  { apply (filter_at_most_one follow_key); [| exact Hpairs].
    intros x y Hx Hy. apply andb_true_iff in Hx, Hy.
    rewrite !Z.eqb_eq in Hx, Hy. unfold follow_key.
    destruct Hx as [-> ->], Hy as [-> ->]. reflexivity. }
  destruct rows as [| f [| g r]];
    cbn [map app ORM.exists_ length] in *; [reflexivity | reflexivity | lia].
Qed.

(** X21. With unique post keys and unique [Follow] pairs, the feed of
    followed authors lists no post twice. *)
Theorem followed_feed_no_duplicates (db : DB) (u : User.t) :
  posts_pk_unique db ->
  follows_unique_together db ->
  NoDup (map Post.pk (ORM.Post_filter_following db u)).
Proof.
  intros Hpk Hpairs. unfold ORM.Post_filter_following, ORM.Post_ordering.
  apply Permutation_NoDup
    with (l := map Post.pk
                 (flat_map
                    (fun p =>
                       map (fun _ => p)
                           (filter (fun f => (Follow.author f =? Post.author p)
                                             && (Follow.user f =? User.pk u))
                                   (follows db))) (posts db))).
  - apply Permutation_map. symmetry. apply order_by_desc_Permutation.
  - rewrite (following_join_is_filter db u (posts db) Hpairs).
    now apply NoDup_map_filter.
Qed.

(** ** [__str__] *)

Lemma str_prefix_spec (k : nat) (s : string) :
  str_len (str_prefix k s) = Nat.min k (str_len s) /\
  exists rest,
    s = String.append (str_prefix k s) rest /\
    match rest with
    | String c _ => is_continuation c = false
    | EmptyString => True
    end.
Proof.
  revert k. induction s as [| c s IH]; intros k.
  - cbn [str_prefix str_len]. rewrite Nat.min_0_r.
    split; [reflexivity |]. exists EmptyString. now split.
  - cbn [str_prefix str_len]. destruct (is_continuation c) eqn:Hc.
    + destruct (IH k) as [Hlen (rest & Hrest & Hcut)].
      cbn [str_len]. rewrite Hc. split; [exact Hlen |].
      exists rest. cbn [String.append]. now rewrite <- Hrest.
    + destruct k as [| k].
      * split; [reflexivity |]. exists (String c s). now split.
      * destruct (IH k) as [Hlen (rest & Hrest & Hcut)].
        cbn [str_len]. rewrite Hc, Hlen. split; [reflexivity |].
        exists rest. cbn [String.append]. now rewrite <- Hrest.
Qed.

Lemma str_prefix_short (k : nat) (s : string) :
  (str_len s <= k)%nat -> str_prefix k s = s.
Proof.
  revert k. induction s as [| c s IH]; intros k Hlen; [reflexivity |].
  cbn [str_prefix str_len] in *. destruct (is_continuation c).
  - now rewrite IH.
  - destruct k as [| k]; [lia |]. rewrite IH by lia. reflexivity.
Qed.

(** X22. A post and a comment print as the first 15 characters of their
    text, a character being counted once however many bytes it takes: a
    prefix of the text that ends where a character ends, of 15 characters
    when the text has more and the whole text otherwise.  The post of the
    model tests prints as its first 15 Cyrillic letters and spaces. *)
Theorem str_is_text_prefix (p : Post.t) (c : Comment.t) :
  (str_len (Post_str p) = Nat.min 15 (str_len (Post.text p)) /\
   exists rest,
     Post.text p = String.append (Post_str p) rest /\
     match rest with
     | String b _ => is_continuation b = false
     | EmptyString => True
     end) /\
  (str_len (Comment_str c) = Nat.min 15 (str_len (Comment.text c)) /\
   exists rest,
     Comment.text c = String.append (Comment_str c) rest /\
     match rest with
     | String b _ => is_continuation b = false
     | EmptyString => True
     end) /\
  ((str_len (Post.text p) <= 15)%nat -> Post_str p = Post.text p) /\
  ((str_len (Comment.text c) <= 15)%nat -> Comment_str c = Comment.text c) /\
  Post_str Fixture.long_post = "Тестовый пост д".
Proof.
  split; [apply str_prefix_spec |]. split; [apply str_prefix_spec |].
  split; [apply str_prefix_short |]. split; [apply str_prefix_short |].
  reflexivity.
Qed.

(** ** The context of the password-reset confirmation page *)

Lemma dict_get_set_same {V : Type} (d : Dict V) (k : string) (v : V) :
  dict_get (dict_set d k v) k = Some v.
Proof.
  induction d as [| [k' v'] d IH]; cbn [dict_set dict_get].
  - now rewrite String.eqb_refl.
  - destruct (String.eqb k' k) eqn:E; cbn [dict_get].
    + now rewrite String.eqb_refl.
    + now rewrite E.
Qed.

Lemma dict_get_set_other {V : Type} (d : Dict V) (k k' : string) (v : V) :
  k' <> k -> dict_get (dict_set d k v) k' = dict_get d k'.
Proof.
  intros Hne. induction d as [| [k0 v0] d IH]; cbn [dict_set dict_get].
  - apply String.eqb_neq in Hne. rewrite String.eqb_sym in Hne.
    now rewrite Hne.
  - destruct (String.eqb k0 k) eqn:E; cbn [dict_get].
    + apply String.eqb_eq in E. subst k0.
      apply String.eqb_neq in Hne. rewrite String.eqb_sym in Hne.
      now rewrite !Hne.
    + destruct (String.eqb k0 k'); [reflexivity | exact IH].
Qed.

(** X23. [get_context_data] of the password-reset confirmation view
    returns the parent's context with [uidb64] and [token] set to the URL
    arguments of those names, an earlier value of either key replaced and
    every other key as the parent gave it; without one of the two URL
    arguments it fails (a [KeyError]). *)
Theorem get_context_data_adds_uid_and_token {V : Type}
        (super_context kwargs : Dict V) :
  (forall uidb64 token,
      dict_get kwargs "uidb64" = Some uidb64 ->
      dict_get kwargs "token" = Some token ->
      exists context,
        PasswordResetConfirmView_get_context_data super_context kwargs
        = Some context /\
        dict_get context "uidb64" = Some uidb64 /\
        dict_get context "token" = Some token /\
        forall k, k <> "uidb64" -> k <> "token" ->
                  dict_get context k = dict_get super_context k) /\
  (dict_get kwargs "uidb64" = None \/ dict_get kwargs "token" = None ->
   PasswordResetConfirmView_get_context_data super_context kwargs = None).
Proof.
  unfold PasswordResetConfirmView_get_context_data. split.
  - intros uidb64 token -> ->. eexists. split; [reflexivity |].
    split; [| split].
    + rewrite dict_get_set_other by discriminate. apply dict_get_set_same.
    + apply dict_get_set_same.
    + intros k Hu Ht. now rewrite !dict_get_set_other.
  - intros [-> | Htoken]; [reflexivity |].
    rewrite Htoken. now destruct (dict_get kwargs "uidb64").
Qed.

(** ** The index and its page cache *)

Lemma index_wrapped_renders (request : HttpRequest.t) (db : DB) :
  exists page_obj,
    index_wrapped request db
    = (Ret (render "posts/index.html" [("page_obj", VPage page_obj)]), db).
Proof.
  unfold index_wrapped.
  destruct (get_paginator_total request (ORM.Post_objects_all db)) as [pg Hpg].
  rewrite Hpg. exists pg. reflexivity.
Qed.

Lemma cache_lookup_fresh_entry (request later : HttpRequest.t) (cache : Cache)
      (response : HttpResponse) :
  HttpRequest.method later = "GET" ->
  get_cache_key "index_page" "GET" later
  = get_cache_key "index_page" "GET" request ->
  cache_lookup "index_page" later
    (cache_set cache (get_cache_key "index_page" "GET" request) response 20
               (HttpRequest.now request))
  = if HttpRequest.now later <? HttpRequest.now request + 20
    then Some response else None.
Proof.
  intros Hmethod Hkey. unfold cache_lookup, cache_get, cache_set.
  rewrite Hmethod, Hkey. cbn [find fst]. rewrite String.eqb_refl.
  change (is_GET_or_HEAD "GET") with true. cbv iota.
  now destruct (HttpRequest.now later <? HttpRequest.now request + 20).
Qed.

(** X24. The order holds on every page the site serves, the index page
    answered from the page cache included: of two posts listed one after
    the other the first is not older than the second. *)
Theorem served_page_newest_first (scope : Scope) (request : HttpRequest.t)
        (cache : Cache) (db : DB) (page_obj : Paginator.Page Post.t)
        (l1 l2 : list Post.t) (a b : Post.t) :
  cache_from_index cache ->
  page_obj_of (fst (fst (feed_served scope request cache db))) = Some page_obj ->
  Paginator.page_object_list page_obj = l1 ++ a :: b :: l2 ->
  Post.pub_date b <= Post.pub_date a.
Proof.
  intros Hc Hserved Hitems.
  destruct (feed_served_from_feed scope request cache db page_obj Hc Hserved)
    as (request' & db' & Hpage).
  apply feed_paginates in Hpage. destruct Hpage as (post_list & Hscope & Hpg).
  apply scope_posts_Sorted in Hscope.
  destruct (get_paginator_cases request' post_list) as [_ Hpg'].
  cbv zeta in Hpg'. rewrite Hpg in Hpg'. apply Ret_inj in Hpg'. subst page_obj.
  cbv beta iota delta [Paginator.page_object_list] in Hitems.
  apply (Sorted_neighbours Post.pub_date l1 l2).
  rewrite <- Hitems. now apply Sorted_firstn, Sorted_skipn.
Qed.

(** X25. The index keeps the page it renders for a GET request for 20
    seconds: a GET request of the same cache key that comes sooner is
    answered with that very response, whatever the tables hold by then,
    and leaves tables and cache as they are; one that comes later is
    answered by the function again. *)
Theorem index_cached_for_20_seconds (request later : HttpRequest.t)
        (cache : Cache) (db db' : DB) :
  HttpRequest.method request = "GET" ->
  HttpRequest.method later = "GET" ->
  get_cache_key "index_page" "GET" later
  = get_cache_key "index_page" "GET" request ->
  cache_lookup "index_page" request cache = None ->
  let first := index request cache db in
  fst first = index_wrapped request db /\
  (HttpRequest.now later < HttpRequest.now request + 20 ->
   index later (snd first) db' = ((fst (fst first), db'), snd first)) /\
  (HttpRequest.now request + 20 <= HttpRequest.now later ->
   fst (index later (snd first) db') = index_wrapped later db').
Proof.
  intros Hmethod Hmethod' Hkey Hmiss first.
  destruct (index_wrapped_renders request db) as [page_obj Hrun].
  assert (Hfirst : first
                   = (index_wrapped request db,
                      cache_set cache (get_cache_key "index_page" "GET" request)
                        (render "posts/index.html"
                                [("page_obj", VPage page_obj)])
                        20 (HttpRequest.now request))).
  { unfold first, index, cache_page. rewrite Hmiss. cbv zeta.
    rewrite Hrun. cbn [fst]. rewrite Hmethod. reflexivity. }
  rewrite Hfirst. cbn [fst snd]. split; [reflexivity |].
  pose proof (cache_lookup_fresh_entry request later cache
                (render "posts/index.html" [("page_obj", VPage page_obj)])
                Hmethod' Hkey) as Hlookup.
  pose proof (index_cases later
                (cache_set cache (get_cache_key "index_page" "GET" request)
                   (render "posts/index.html" [("page_obj", VPage page_obj)])
                   20 (HttpRequest.now request)) db') as Hcases.
  rewrite Hlookup in Hcases. split.
  - intros Hsoon. apply Z.ltb_lt in Hsoon. rewrite Hsoon in Hcases.
    rewrite Hcases, Hrun. reflexivity.
  - intros Hlate. apply Z.ltb_ge in Hlate. rewrite Hlate in Hcases.
    exact Hcases.
Qed.

End MoreFacts.

(* ------------------------------------------------------------------ *)
(** * These facts on the fixtures *)

Section MoreOnFixtures.
#[local] Existing Instance Sample.python.
#[local] Existing Instance Sample.sqlite.
#[local] Existing Instance Sample.cache_keys.

Lemma Sample_slugs : groups_slug_unique Sample.db.
Proof. unfold groups_slug_unique. distinct. Defined.

Lemma Sample_user_keys : users_pk_unique Sample.db.
Proof. unfold users_pk_unique. distinct. Defined.

Lemma Sample_no_self_follow : no_self_follow Sample.db.
Proof. intros f [<- | []]. discriminate. Defined.

Lemma Sample_auth2_stored : In Sample.auth2 (users Sample.db).
Proof. simpl. auto. Defined.

Lemma Sample_first_post_stored : In Sample.first_post (posts Sample.db).
Proof. simpl. auto. Defined.

(** The page of the second group. *)
Lemma group_posts_only_that_group_witness :
  groups_slug_unique Sample.db /\
  In Sample.second_group (groups Sample.db) /\
  exists page_obj,
    group_posts (Sample.get None "/group/second-slug/" []) "second-slug"
                Sample.db
    = (Ret (render "posts/group_list.html"
                   [("group", VGroup Sample.second_group);
                    ("page_obj", VPage page_obj)]), Sample.db).
Proof.
  assert (Hg : In Sample.second_group (groups Sample.db)) by (simpl; auto).
  split; [exact Sample_slugs |]. split; [exact Hg |].
  destruct (group_posts_only_that_group Sample.db
              (Sample.get None "/group/second-slug/" [])
              Sample.second_group Sample_slugs Hg) as (page_obj & Hrun & _).
  exists page_obj. exact Hrun.
Defined.

(** The profile of [auth2], seen by [auth], who follows. *)
Lemma profile_only_that_author_witness :
  users_username_unique Sample.db /\
  In Sample.auth2 (users Sample.db) /\
  exists page_obj following,
    profile (Sample.get (Some Sample.auth) "/profile/auth2/" []) "auth2"
            Sample.db
    = (Ret (render "posts/profile.html"
                   [("author", VUser Sample.auth2);
                    ("page_obj", VPage page_obj);
                    ("following", VBool following)]), Sample.db).
Proof.
  split; [exact Sample_usernames |]. split; [exact Sample_auth2_stored |].
  destruct (profile_only_that_author Sample.db
              (Sample.get (Some Sample.auth) "/profile/auth2/" [])
              Sample.auth2 Sample_usernames Sample_auth2_stored)
    as (page_obj & following & Hrun & _).
  exists page_obj, following. exact Hrun.
Defined.

Lemma group_posts_missing_404_witness :
  (forall g, In g (groups Sample.db) -> Group.slug g <> "no-such-slug") /\
  group_posts (Sample.get None "/group/no-such-slug/" []) "no-such-slug"
              Sample.db
  = (Raise Http404, Sample.db).
Proof.
  assert (H : forall g, In g (groups Sample.db) ->
                        Group.slug g <> "no-such-slug").
  { intros g [<- | [<- | []]]; discriminate. }
  split; [exact H |].
  exact (group_posts_missing_404 Sample.db
           (Sample.get None "/group/no-such-slug/" []) "no-such-slug" H).
Defined.

Lemma unknown_username_404_witness :
  (forall a, In a (users Sample.db) -> User.username a <> "nobody") /\
  profile (Sample.get None "/profile/nobody/" []) "nobody" Sample.db
  = (Raise Http404, Sample.db).
Proof.
  assert (H : forall a, In a (users Sample.db) -> User.username a <> "nobody").
  { intros a [<- | [<- | [<- | []]]]; discriminate. }
  split; [exact H |].
  exact (proj1 (unknown_username_404 Sample.db
                  (Sample.get None "/profile/nobody/" []) "nobody" H)).
Defined.

(** No post of the fixtures has the key 99, nor the key 2^63, which is
    beyond the keys the database holds. *)
Lemma unknown_post_404_witness :
  (forall p, In p (posts Sample.db) -> Post.pk p <> 99) /\
  post_detail (Sample.get None "/posts/99/" []) 99 Sample.db
  = (Raise Http404, Sample.db) /\
  post_detail (Sample.get None "/posts/9223372036854775808/" []) (2 ^ 63)
              Sample.db
  = (Raise OverflowError, Sample.db).
Proof.
  assert (H : forall k, 13 < k ->
                        forall p, In p (posts Sample.db) -> Post.pk p <> k).
  { intros k Hk p Hin. cbn in Hin.
    repeat (destruct Hin as [<- | Hin]; [cbn; lia |]). contradiction. }
  split; [apply H; lia |]. split.
  - exact (proj1 (unknown_post_404
                    Sample.PostForm_errors Sample.PostForm_cleaned_data
                    Sample.CommentForm_errors Sample.CommentForm_cleaned_data
                    Sample.db (Sample.get None "/posts/99/" []) 99
                    (H 99 ltac:(lia)))).
  - exact (proj1 (unknown_post_404
                    Sample.PostForm_errors Sample.PostForm_cleaned_data
                    Sample.CommentForm_errors Sample.CommentForm_cleaned_data
                    Sample.db
                    (Sample.get None "/posts/9223372036854775808/" [])
                    (2 ^ 63) (H (2 ^ 63) ltac:(lia)))).
Defined.

(** [auth2] comments on the first post. *)
Lemma add_comment_author_and_post_witness :
  posts_pk_unique Sample.db /\
  In Sample.first_post (posts Sample.db) /\
  exists c,
    add_comment Sample.CommentForm_errors Sample.CommentForm_cleaned_data
                (Sample.post (Some Sample.auth2) "/posts/1/comment/"
                             [("text", "nice"); ("author", "1")])
                1 Sample.db
    = (Ret (redirect (reverse "posts:post_detail" [PyInt 1])),
       set_comments Sample.db (comments Sample.db ++ [c])) /\
    Comment.author c = 2.
Proof.
  split; [exact Sample_post_keys |]. split; [exact Sample_first_post_stored |].
  destruct (add_comment_author_and_post
              Sample.CommentForm_errors Sample.CommentForm_cleaned_data
              Sample.db
              (Sample.post (Some Sample.auth2) "/posts/1/comment/"
                           [("text", "nice"); ("author", "1")])
              Sample.auth2 Sample.first_post
              Sample_post_keys Sample_first_post_stored eq_refl eq_refl)
    as (c & Hrun & Hauthor & _).
  exists c. split; [exact Hrun | exact Hauthor].
Defined.

(** A second comment on the first post shows along with the first. *)
Lemma comment_then_detail_witness :
  posts_pk_unique Fixture.db_commented /\
  In Sample.first_post (posts Fixture.db_commented) /\
  exists c listed,
    Comment.author c = 3 /\
    fst (post_detail
           (Sample.get None "/posts/1/" []) 1
           (snd (add_comment Sample.CommentForm_errors
                             Sample.CommentForm_cleaned_data
                             (Sample.post (Some Sample.auth3)
                                          "/posts/1/comment/"
                                          [("text", "indeed")])
                             1 Fixture.db_commented)))
    = Ret (render "posts/post_detail.html"
                  [("post", VPost Sample.first_post);
                   ("comments", VComments listed);
                   ("form", VCommentForm (CommentForm.Build None Comment.new))])
    /\
    Permutation listed [c; Fixture.first_comment].
Proof.
  split; [exact Sample_post_keys |]. split; [exact Sample_first_post_stored |].
  destruct (comment_then_detail
              Sample.CommentForm_errors Sample.CommentForm_cleaned_data
              Fixture.db_commented
              (Sample.post (Some Sample.auth3) "/posts/1/comment/"
                           [("text", "indeed")])
              (Sample.get None "/posts/1/" [])
              Sample.auth3 Sample.first_post
              Sample_post_keys Sample_first_post_stored eq_refl eq_refl)
    as (c & listed & Hauthor & _ & Hrun & Hperm).
  exists c, listed. split; [exact Hauthor |]. split; [exact Hrun | exact Hperm].
Defined.

(** [auth] rewrites the first post. *)
Lemma post_edit_by_author_witness :
  posts_pk_unique Sample.db /\
  In Sample.first_post (posts Sample.db) /\
  exists db',
    post_edit Sample.PostForm_errors Sample.PostForm_cleaned_data
              (Sample.post (Some Sample.auth) "/posts/1/edit/"
                           [("text", "rewritten")])
              1 Sample.db
    = (Ret (redirect (reverse "posts:post_detail" [PyInt 1])), db') /\
    ORM.get_object_or_404 (posts db') (fun q => Post.pk q =? 1)
    = Ret (Post.Build 1 "rewritten" 100 1 None "").
Proof.
  split; [exact Sample_post_keys |]. split; [exact Sample_first_post_stored |].
  destruct (post_edit_by_author
              Sample.PostForm_errors Sample.PostForm_cleaned_data Sample.db
              (Sample.post (Some Sample.auth) "/posts/1/edit/"
                           [("text", "rewritten")])
              Sample.auth Sample.first_post
              Sample_post_keys Sample_first_post_stored
              eq_refl eq_refl eq_refl eq_refl)
    as (db' & Hrun & Hget & _).
  exists db'. split; [exact Hrun | exact Hget].
Defined.

(** While [auth] rewrites the first post, a post of [auth2] stays. *)
Lemma post_edit_spares_others_witness :
  posts_pk_unique Sample.db /\
  In (Sample.numbered_post 0 "0") (posts Sample.db) /\
  In (Sample.numbered_post 0 "0")
     (posts (snd (post_edit Sample.PostForm_errors Sample.PostForm_cleaned_data
                            (Sample.post (Some Sample.auth) "/posts/1/edit/"
                                         [("text", "rewritten")])
                            1 Sample.db))).
Proof.
  assert (Hq : In (Sample.numbered_post 0 "0") (posts Sample.db))
    by (simpl; auto).
  split; [exact Sample_post_keys |]. split; [exact Hq |].
  apply (post_edit_spares_others
           Sample.PostForm_errors Sample.PostForm_cleaned_data Sample.db
           (Sample.post (Some Sample.auth) "/posts/1/edit/"
                        [("text", "rewritten")])
           1 (Sample.numbered_post 0 "0") Sample_post_keys Hq).
  intros u [= <-]. discriminate.
Defined.

Lemma post_keys_stay_unique_witness :
  posts_pk_unique Sample.db /\
  posts_pk_unique
    (snd (post_create Sample.PostForm_errors Sample.PostForm_cleaned_data
                      (Sample.post (Some Sample.auth) "/create/"
                                   [("text", "one more")])
                      tt Sample.db)).
Proof.
  split; [exact Sample_post_keys |].
  exact (proj1 (post_keys_stay_unique
                  Sample.PostForm_errors Sample.PostForm_cleaned_data
                  Sample.db
                  (Sample.post (Some Sample.auth) "/create/"
                               [("text", "one more")])
                  0 Sample_post_keys)).
Defined.

(** [auth3] follows [auth2] and unfollows again. *)
Lemma follow_then_unfollow_witness :
  users_username_unique Sample.db /\
  In Sample.auth2 (users Sample.db) /\
  ORM.Follow_filter Sample.db Sample.auth3 Sample.auth2 = [] /\
  snd (profile_unfollow
         (Sample.get (Some Sample.auth3) "/profile/auth2/unfollow/" []) "auth2"
         (snd (profile_follow
                 (Sample.get (Some Sample.auth3) "/profile/auth2/follow/" [])
                 "auth2" Sample.db)))
  = Sample.db.
Proof.
  split; [exact Sample_usernames |]. split; [exact Sample_auth2_stored |].
  split; [reflexivity |].
  apply (follow_then_unfollow Sample.db
           (Sample.get (Some Sample.auth3) "/profile/auth2/follow/" [])
           (Sample.get (Some Sample.auth3) "/profile/auth2/unfollow/" [])
           Sample.auth3 Sample.auth2 Sample_usernames Sample_auth2_stored
           eq_refl eq_refl); [discriminate | reflexivity].
Defined.

Lemma follow_shows_in_feed_witness :
  users_username_unique Sample.db /\
  In Sample.auth2 (users Sample.db) /\
  In (Sample.numbered_post 3 "3")
     (ORM.Post_filter_following
        (snd (profile_follow
                (Sample.get (Some Sample.auth3) "/profile/auth2/follow/" [])
                "auth2" Sample.db))
        Sample.auth3).
Proof.
  split; [exact Sample_usernames |]. split; [exact Sample_auth2_stored |].
  assert (Hne : User.username Sample.auth3 <> User.username Sample.auth2)
    by discriminate.
  apply (proj1 (follow_shows_in_feed Sample.db
                  (Sample.get (Some Sample.auth3) "/profile/auth2/follow/" [])
                  (Sample.get (Some Sample.auth3) "/profile/auth2/" [])
                  Sample.auth3 Sample.auth2
                  Sample_usernames Sample_auth2_stored eq_refl eq_refl Hne)).
  - simpl. do 4 right. now left.
  - reflexivity.
Defined.

Lemma unfollow_hides_from_feed_witness :
  users_username_unique Sample.db /\
  In Sample.auth2 (users Sample.db) /\
  ~ In (Sample.numbered_post 3 "3")
       (ORM.Post_filter_following
          (snd (profile_unfollow
                  (Sample.get (Some Sample.auth) "/profile/auth2/unfollow/" [])
                  "auth2" Sample.db))
          Sample.auth).
Proof.
  split; [exact Sample_usernames |]. split; [exact Sample_auth2_stored |].
  apply (proj1 (unfollow_hides_from_feed Sample.db
                  (Sample.get (Some Sample.auth) "/profile/auth2/unfollow/" [])
                  Sample.auth Sample.auth2
                  Sample_usernames Sample_auth2_stored eq_refl)).
  reflexivity.
Defined.

Lemma follow_never_self_witness :
  users_pk_unique Sample.db /\
  In Sample.auth2 (users Sample.db) /\
  no_self_follow Sample.db /\
  no_self_follow
    (snd (profile_follow
            (Sample.get (Some Sample.auth2) "/profile/auth2/follow/" [])
            "auth2" Sample.db)).
Proof.
  split; [exact Sample_user_keys |]. split; [exact Sample_auth2_stored |].
  split; [exact Sample_no_self_follow |].
  exact (follow_never_self Sample.db
           (Sample.get (Some Sample.auth2) "/profile/auth2/follow/" [])
           Sample.auth2 "auth2"
           Sample_user_keys Sample_auth2_stored eq_refl Sample_no_self_follow).
Defined.

Lemma follow_pairs_stay_unique_witness :
  follows_unique_together Sample.db /\
  follows_unique_together
    (snd (profile_follow
            (Sample.get (Some Sample.auth3) "/profile/auth2/follow/" [])
            "auth2" Sample.db)).
Proof.
  split; [exact Sample_follow_pairs |].
  exact (proj1 (follow_pairs_stay_unique Sample.db
                  (Sample.get (Some Sample.auth3) "/profile/auth2/follow/" [])
                  "auth2" Sample_follow_pairs)).
Defined.

(** The index without posts, asked for page 7 with nothing in the cache. *)
Lemma empty_feed_renders_witness :
  posts Fixture.db_no_post = [] /\
  scope_posts AllPosts (Sample.get None "/" [("page", "7")]) Fixture.db_no_post
    = Some [] /\
  cache_lookup "index_page" (Sample.get None "/" [("page", "7")]) [] = None /\
  exists page_obj,
    page_obj_of (fst (fst (feed_served AllPosts
                             (Sample.get None "/" [("page", "7")]) []
                             Fixture.db_no_post))) = Some page_obj /\
    Paginator.page_object_list page_obj = [] /\
    Paginator.number page_obj = 1.
Proof.
  split; [reflexivity |]. split; [reflexivity |]. split; [reflexivity |].
  destruct (empty_feed_renders AllPosts (Sample.get None "/" [("page", "7")])
              [] Fixture.db_no_post [] eq_refl eq_refl (fun _ => eq_refl))
    as (_ & page_obj & Hpage & Hitems & Hnumber & _).
  exists page_obj. repeat split; assumption.
Defined.

(** The index of the fixtures, asked for page 2 with nothing in the cache,
    renders page 2 of all posts. *)
Lemma index_shows_each_post_once_witness :
  Z.of_nat (length (posts Sample.db)) < 2 ^ 63 /\
  fst (fst (index (Sample.get None "/" [("page", "2")]) [] Sample.db))
  = Ret (render "posts/index.html"
                [("page_obj",
                  VPage (Paginator.BuildPage
                           (skipn 10 (ORM.Post_objects_all Sample.db)) 2
                           (Paginator.Paginator (ORM.Post_objects_all Sample.db)
                                                NUMBER_OF_POSTS)))]).
Proof.
  assert (Hsize : Z.of_nat (length (posts Sample.db)) < 2 ^ 63)
    by (vm_compute; reflexivity).
  split; [exact Hsize |].
  exact (proj1 (index_shows_each_post_once Sample.db [] Hsize)
               2 (Sample.get None "/" [("page", "2")])
               (or_intror (or_introl eq_refl)) eq_refl eq_refl).
Defined.

(** The newest post, on page 1, and the oldest, on page 2. *)
Lemma pages_in_order_witness :
  scope_posts AllPosts (Sample.get None "/" []) Sample.db
    = Some (ORM.Post_objects_all Sample.db) /\
  In (Sample.numbered_post 11 "11")
     (page_items (Paginator.Paginator (ORM.Post_objects_all Sample.db)
                                      NUMBER_OF_POSTS) 1) /\
  In Sample.first_post
     (page_items (Paginator.Paginator (ORM.Post_objects_all Sample.db)
                                      NUMBER_OF_POSTS) 2) /\
  Post.pub_date Sample.first_post
    <= Post.pub_date (Sample.numbered_post 11 "11").
Proof.
  assert (H1 : In (Sample.numbered_post 11 "11")
                  (page_items (Paginator.Paginator
                                 (ORM.Post_objects_all Sample.db)
                                 NUMBER_OF_POSTS) 1))
    by (cbv; auto).
  assert (H2 : In Sample.first_post
                  (page_items (Paginator.Paginator
                                 (ORM.Post_objects_all Sample.db)
                                 NUMBER_OF_POSTS) 2))
    by (cbv; auto).
  split; [reflexivity |]. split; [exact H1 |]. split; [exact H2 |].
  apply (pages_in_order AllPosts (Sample.get None "/" []) Sample.db
           (ORM.Post_objects_all Sample.db) 1 2
           (Sample.numbered_post 11 "11") Sample.first_post
           eq_refl eq_refl H1 H2).
Defined.

Lemma followed_feed_no_duplicates_witness :
  posts_pk_unique Sample.db /\
  follows_unique_together Sample.db /\
  NoDup (map Post.pk (ORM.Post_filter_following Sample.db Sample.auth)).
Proof.
  split; [exact Sample_post_keys |]. split; [exact Sample_follow_pairs |].
  exact (followed_feed_no_duplicates Sample.db Sample.auth
           Sample_post_keys Sample_follow_pairs).
Defined.

(** A page of the index answered from the cache: its two newest posts. *)
Lemma served_page_newest_first_witness :
  cache_from_index (snd (index (Sample.get None "/" []) [] Sample.db)) /\
  page_obj_of
    (fst (fst (feed_served AllPosts Fixture.index_again
                 (snd (index (Sample.get None "/" []) [] Sample.db))
                 Fixture.db_no_post)))
    = Some Sample.index_first_page /\
  Post.pub_date (Sample.numbered_post 10 "10")
    <= Post.pub_date (Sample.numbered_post 11 "11").
Proof.
  assert (Hc : cache_from_index
                 (snd (index (Sample.get None "/" []) [] Sample.db))).
  { apply index_keeps_cache_from_index. intros k r e []. }
  split; [exact Hc |]. split; [reflexivity |].
  apply (served_page_newest_first AllPosts Fixture.index_again
           (snd (index (Sample.get None "/" []) [] Sample.db))
           Fixture.db_no_post Sample.index_first_page []
           (skipn 2 (Paginator.page_object_list Sample.index_first_page))
           (Sample.numbered_post 11 "11") (Sample.numbered_post 10 "10") Hc);
    reflexivity.
Defined.

(** As [test_cache_contains_index_page] has it: the index is fetched, the
    posts are deleted, and the index fetched again 10 seconds later is the
    same; fetched 20 seconds later it is rendered anew, without posts. *)
Lemma index_cached_for_20_seconds_witness :
  cache_lookup "index_page" (Sample.get None "/" []) [] = None /\
  index Fixture.index_again
        (snd (index (Sample.get None "/" []) [] Sample.db)) Fixture.db_no_post
  = ((fst (fst (index (Sample.get None "/" []) [] Sample.db)),
      Fixture.db_no_post),
     snd (index (Sample.get None "/" []) [] Sample.db)) /\
  page_obj_of (fst (fst (index (Sample.get None "/" []) [] Sample.db)))
  = Some Sample.index_first_page /\
  fst (index Fixture.index_later
             (snd (index (Sample.get None "/" []) [] Sample.db))
             Fixture.db_no_post)
  = index_wrapped Fixture.index_later Fixture.db_no_post.
Proof.
  split; [reflexivity |].
  assert (Hagain : get_cache_key "index_page" "GET" Fixture.index_again
                   = get_cache_key "index_page" "GET" (Sample.get None "/" []))
    by (vm_compute; reflexivity).
  assert (Hlater : get_cache_key "index_page" "GET" Fixture.index_later
                   = get_cache_key "index_page" "GET" (Sample.get None "/" []))
    by (vm_compute; reflexivity).
  destruct (index_cached_for_20_seconds (Sample.get None "/" [])
              Fixture.index_again [] Sample.db Fixture.db_no_post
              eq_refl eq_refl Hagain eq_refl) as (_ & Hsoon & _).
  destruct (index_cached_for_20_seconds (Sample.get None "/" [])
              Fixture.index_later [] Sample.db Fixture.db_no_post
              eq_refl eq_refl Hlater eq_refl) as (_ & _ & Hlate).
  split; [exact (Hsoon eq_refl) |]. split; [reflexivity |].
  apply Hlate. discriminate.
Defined.

End MoreOnFixtures.
